(** * Triage-and-response decision engine: a shallow embedding

  The Python sources embedded here are
  - [intelligence/core/utils.py]   ([get_path], [extract_json])
  - [intelligence/core/cache.py]   ([LruCache])
  - [intelligence/scorers/rule.py] ([_score_rules], [RuleScorer])
  - [intelligence/scorers/hybrid.py] ([HybridScorer])
  - [intelligence/planners/rule.py] ([_plan_from_rules] and helpers)
  - [intelligence/planners/hybrid.py] ([HybridPlanner])
  - [intelligence/app.py]          ([score], [score_batch], [plan])
  - [annotation_suggester.py]      ([parse_json_field], [login_geo_matcher],
                                    [match_heuristic], [scan_logs])
  - [response_agent.py]            ([ResponseAgent])

  Python values that the code passes around as [Dict[str, Any]] are
  modelled by the type [value] of JSON-like data; Python exceptions by
  the [Raise] case of [result]. *)

From Stdlib Require Import ZArith QArith Qminmax String Ascii List Bool Lia.
From Stdlib Require Import Floats.PrimFloat Floats.SpecFloat Floats.FloatOps.
From Stdlib Require Import Numbers.DecimalString.
From stdpp Require Import gmap strings list.

Set Warnings "-inexact-float,-register-all".
#[local] Open Scope string_scope.
#[local] Open Scope list_scope.
#[local] Open Scope Z_scope.

(** ** Python values, exceptions and builtins *)

Module Py.

(** JSON-like Python data.  A [VDict] is a [dict] with [str] keys, kept in
    insertion order; lookups take the first binding of a key. *)
Inductive value : Type :=
| VNone
| VBool (b : bool)
| VInt (z : Z)
| VFloat (f : float)
| VStr (s : string)
| VList (l : list value)
| VDict (d : list (string * value)).

(** The exception classes (all subclasses of [Exception]) that the
    embedded code can raise. *)
Inductive exn : Type :=
| TypeError
| ValueError
| OverflowError
| AttributeError
| JSONDecodeError
| RuntimeError (msg : string).

Inductive result (A : Type) : Type :=
| Ok (a : A)
| Raise (e : exn).
Arguments Ok {A} a.
Arguments Raise {A} e.

Definition bind {A B} (r : result A) (k : A -> result B) : result B :=
  match r with
  | Ok a => k a
  | Raise e => Raise e
  end.

Definition is_ok {A} (r : result A) : bool :=
  match r with Ok _ => true | Raise _ => false end.

(** Truth value testing, [bool(v)]. *)
Definition truthy (v : value) : bool :=
  match v with
  | VNone => false
  | VBool b => b
  | VInt z => negb (z =? 0)
  | VFloat f => negb (PrimFloat.eqb f 0%float)
  | VStr s => negb (String.eqb s "")
  | VList l => match l with [] => false | _ => true end
  | VDict d => match d with [] => false | _ => true end
  end.

(** [a or b] on values. *)
Definition py_or (a b : value) : value := if truthy a then a else b.

(** [key in d] and [d[key]] for a [dict] with string keys. *)
Fixpoint dict_lookup (d : list (string * value)) (key : string) : option value :=
  match d with
  | [] => None
  | (k, v) :: rest => if String.eqb k key then Some v else dict_lookup rest key
  end.

(** [d.get(key)]: [None] when the key is absent. *)
Definition dict_get (d : list (string * value)) (key : string) : value :=
  default VNone (dict_lookup d key).

(** [obj.get(key, default)] on an arbitrary object: only a [dict] has the
    method among the values of the model. *)
Definition get_method (obj : value) (key : string) (otherwise : value) : result value :=
  match obj with
  | VDict d => Ok (default otherwise (dict_lookup d key))
  | _ => Raise AttributeError
  end.

(** Numbers under [==]: a [bool] is the int 0 or 1, and an int and a float
    are compared by their exact values. *)
Inductive num : Type :=
| NInt (z : Z)
| NFloat (f : float).

Definition as_num (v : value) : option num :=
  match v with
  | VBool b => Some (NInt (if b then 1 else 0))
  | VInt z => Some (NInt z)
  | VFloat f => Some (NFloat f)
  | _ => None
  end.

Definition float_eq_int (f : float) (z : Z) : bool :=
  match Prim2SF f with
  | S754_zero _ => z =? 0
  | S754_finite s m e =>
      let a := Z.shiftl (Z.pos m) e in
      (Z.shiftl a (- e) =? Z.pos m) && (z =? (if s then - a else a))
  | _ => false
  end.

Definition num_eq (a b : num) : bool :=
  match a, b with
  | NInt x, NInt y => x =? y
  | NFloat f, NFloat g => PrimFloat.eqb f g
  | NFloat f, NInt z => float_eq_int f z
  | NInt z, NFloat f => float_eq_int f z
  end.

(** [a is b], as far as it adds to [a == b].  The values of the model carry
    no identity, and identity matters only for an object that differs from
    itself, the NaN float.  The floats of the embedded code come out of
    [json.loads], which answers the literal [NaN] with the one constant
    [NaN] of the [json] module: two NaN values are that same object. *)
Definition same_nan (a b : value) : bool :=
  match a, b with
  | VFloat f, VFloat g => PrimFloat.is_nan f && PrimFloat.is_nan g
  | _, _ => false
  end.

(** [a == b] on values.  Two dicts are equal when they have as many keys
    and every binding of the first has an equal one in the second; the
    items of a list and the values of a dict are compared as containers
    compare them, by [x is y or x == y]. *)
Fixpoint py_eq (a b : value) {struct a} : bool :=
  match as_num a, as_num b with
  | Some x, Some y => num_eq x y
  | _, _ =>
      match a, b with
      | VNone, VNone => true
      | VStr s, VStr t => String.eqb s t
      | VList l1, VList l2 =>
          (fix all_eq (xs ys : list value) : bool :=
             match xs, ys with
             | [], [] => true
             | x :: xs', y :: ys' => (same_nan x y || py_eq x y) && all_eq xs' ys'
             | _, _ => false
             end) l1 l2
      | VDict d1, VDict d2 =>
          (length d1 =? length d2)%nat
          && (fix all_in (kvs : list (string * value)) : bool :=
                match kvs with
                | [] => true
                | (k, v) :: rest =>
                    match dict_lookup d2 k with
                    | Some v' => (same_nan v v' || py_eq v v') && all_in rest
                    | None => false
                    end
                end) d1
      | _, _ => false
      end
  end.

(** Only the values that can be [dict] keys. *)
Definition hashable (v : value) : bool :=
  match v with
  | VList _ | VDict _ => false
  | _ => true
  end.

(** How a [dict] compares a stored key with the key looked up: [k is key
    or k == key]. *)
Definition same_key (k key : value) : bool := same_nan k key || py_eq k key.

(** A [dict] whose keys are arbitrary hashable values, in insertion order. *)
Fixpoint vdict_lookup (d : list (value * value)) (key : value) : option value :=
  match d with
  | [] => None
  | (k, v) :: rest => if same_key k key then Some v else vdict_lookup rest key
  end.

(** [d[key] = v]: a key already there keeps its place (and the key object
    first inserted); a new key goes last. *)
Fixpoint vdict_set (d : list (value * value)) (key v : value) : list (value * value) :=
  match d with
  | [] => [(key, v)]
  | (k, old) :: rest =>
      if same_key k key then (k, v) :: rest else (k, old) :: vdict_set rest key v
  end.

(** [int(f)] for a float: truncation toward zero; [ValueError] on NaN,
    [OverflowError] on an infinity. *)
Definition trunc_sf (x : spec_float) : result Z :=
  match x with
  | S754_zero _ => Ok 0
  | S754_finite s m e =>
      let a := Z.shiftl (Z.pos m) e in
      Ok (if s then - a else a)
  | S754_infinity _ => Raise OverflowError
  | S754_nan => Raise ValueError
  end.

Definition int_of_float (f : float) : result Z := trunc_sf (Prim2SF f).

(** The exact value of a finite float, [(-1)^s * m * 2^e], as a rational. *)
Definition Q_of_sf (x : spec_float) : Q :=
  match x with
  | S754_finite s m e =>
      let n := if s then Z.neg m else Z.pos m in
      match e with
      | Z0 => inject_Z n
      | Zpos p => inject_Z (n * 2 ^ Z.pos p)
      | Zneg p => Qmake n (2 ^ p)%positive
      end
  | _ => 0%Q
  end.

(** [t] is [x] rounded toward zero. *)
Definition truncates (x : Q) (t : Z) : Prop :=
  ((0 <= x)%Q -> (inject_Z t <= x)%Q /\ (x < inject_Z t + 1)%Q)
  /\ ((x <= 0)%Q -> (inject_Z t - 1 < x)%Q /\ (x <= inject_Z t)%Q).

(** [float(z)] for an int: the nearest binary64 value (ties to even);
    [OverflowError] when it is out of range. *)
Definition float_of_int (z : Z) : result float :=
  match binary_normalize prec emax z 0 false with
  | S754_infinity _ => Raise OverflowError
  | sf => Ok (SF2Prim sf)
  end.

(** The builtins that are taken as given: [json.loads] and [json.dumps]
    (with [sort_keys=True, default=str]), the parsers behind [int(str)]
    and [float(str)], and [str.lower], which follows the Unicode case
    mapping. *)
Class Builtins : Type := {
  json_loads : string -> result value;
  json_dumps : value -> string;
  int_of_str : string -> option Z;
  float_of_str : string -> option float;
  lower : string -> string;
}.

Section Coercions.
Context {B : Builtins}.

(** [int(v)] *)
Definition py_int (v : value) : result Z :=
  match v with
  | VBool b => Ok (if b then 1 else 0)
  | VInt z => Ok z
  | VFloat f => int_of_float f
  | VStr s => match int_of_str s with Some z => Ok z | None => Raise ValueError end
  | VNone | VList _ | VDict _ => Raise TypeError
  end.

(** [float(v)] *)
Definition py_float (v : value) : result float :=
  match v with
  | VBool b => Ok (if b then 1%float else 0%float)
  | VInt z => float_of_int z
  | VFloat f => Ok f
  | VStr s => match float_of_str s with Some f => Ok f | None => Raise ValueError end
  | VNone | VList _ | VDict _ => Raise TypeError
  end.
End Coercions.

(** [str(z)] for an int and [str(b)] for a bool, as f-strings print them. *)
Definition str_of_int (z : Z) : string := NilZero.string_of_int (Z.to_int z).
Definition str_of_bool (b : bool) : string := if b then "True" else "False".

(** [|x| * 100] rounded to the nearest integer, ties to even, for the
    finite float [x] of mantissa [m] and exponent [e]. *)
Definition hundredths (m : positive) (e : Z) : Z :=
  let n := Z.pos m * 100 in
  match e with
  | Zneg p =>
      let d := 2 ^ Z.pos p in
      let q := n / d in
      let r := n mod d in
      if (d <? 2 * r) || ((d =? 2 * r) && Z.odd q) then q + 1 else q
  | _ => n * 2 ^ e
  end.

(** [f"{x:.2f}"] *)
Definition format_2f (x : float) : string :=
  match Prim2SF x with
  | S754_nan => "nan"
  | S754_infinity s => if s then "-inf" else "inf"
  | S754_zero s => if s then "-0.00" else "0.00"
  | S754_finite s m e =>
      let n := hundredths m e in
      let cents := n mod 100 in
      String.concat ""
        [if s then "-" else ""; str_of_int (n / 100); ".";
         if cents <? 10 then "0" else ""; str_of_int cents]
  end.

(** [needle in hay] on strings. *)
Fixpoint contains (needle hay : string) : bool :=
  if String.prefix needle hay then true
  else match hay with
       | EmptyString => false
       | String _ rest => contains needle rest
       end.

(** [sep.join(parts)] *)
Fixpoint join (sep : string) (parts : list string) : string :=
  match parts with
  | [] => ""
  | [p] => p
  | p :: rest => String.append p (String.append sep (join sep rest))
  end.

(** [s.split(sep)] for a one-character separator. *)
Fixpoint split_on (sep : ascii) (s : string) : list string :=
  match s with
  | EmptyString => [""]
  | String c rest =>
      if Ascii.eqb c sep then "" :: split_on sep rest
      else match split_on sep rest with
           | [] => [String c ""]
           | p :: ps => String c p :: ps
           end
  end.

(** [s[:n]] *)
Fixpoint take_str (n : nat) (s : string) : string :=
  match n, s with
  | O, _ => ""
  | _, EmptyString => ""
  | S n', String c rest => String c (take_str n' rest)
  end.

End Py.
Import Py.

(** ** intelligence/core/utils.py *)

Module Utils.

(** The loop of [get_path] over the split path. *)
Fixpoint get_parts (cur : value) (parts : list string) : value :=
  match parts with
  | [] => cur
  | part :: rest =>
      match cur with
      | VDict d =>
          match dict_lookup d part with
          | Some v => get_parts v rest
          | None => VNone
          end
      | _ => VNone
      end
  end.

Definition get_path (obj : value) (path : string) : value :=
  get_parts obj (split_on "." path).

(** [s.find(c)] and [s.rfind(c)] for a character [c]; [None] stands for
    the answer -1. *)
Fixpoint find_char (c : ascii) (s : string) : option nat :=
  match s with
  | EmptyString => None
  | String d rest =>
      if Ascii.eqb d c then Some O else option_map S (find_char c rest)
  end.

Fixpoint rfind_char (c : ascii) (s : string) : option nat :=
  match s with
  | EmptyString => None
  | String d rest =>
      match rfind_char c rest with
      | Some i => Some (S i)
      | None => if Ascii.eqb d c then Some O else None
      end
  end.

(** [s[start:stop]] *)
Definition slice (start stop : nat) (s : string) : string :=
  substring start (stop - start) s.

Section Extract.
Context `{Builtins}.

(** [extract_json]: [Ok None] is the answer [None]. *)
Definition extract_json (text : string) : result (option value) :=
  if String.eqb text "" then Ok None
  else
    match find_char "{" text, rfind_char "}" text with
    | Some start, Some stop =>
        if (stop <=? start)%nat then Ok None
        else
          match json_loads (slice start (stop + 1) text) with
          | Ok parsed => Ok (Some parsed)
          | Raise JSONDecodeError => Ok None
          | Raise e => Raise e
          end
    | _, _ => Ok None
    end.

End Extract.

End Utils.
Import Utils.

(** ** intelligence/core/cache.py *)

Module Cache.

Record LruCache : Type := mkLruCache {
  max_size : Z;
  _store : gmap string value;
  _order : list string;
}.

(** [LruCache.__init__] *)
Definition init (size : Z) : LruCache :=
  {| max_size := Z.max size 0; _store := ∅; _order := [] |}.

(** [LruCache.get]: the answer and the cache after the call. *)
Definition get (key : string) (c : LruCache) : option value * LruCache :=
  (_store c !! key, c).

(** The [while len(self._order) > self.max_size] loop of [set]: it pops
    the head of [_order] and drops that key from [_store].  It is only
    reached with [max_size > 0], where an empty [_order] ends the loop. *)
Fixpoint evict (size : Z) (order : list string) (store : gmap string value)
  : list string * gmap string value :=
  match order with
  | [] => (order, store)
  | oldest :: rest =>
      if Z.of_nat (length order) >? size
      then evict size rest (delete oldest store)
      else (order, store)
  end.

(** [LruCache.set] *)
Definition set (key : string) (v : value) (c : LruCache) : LruCache :=
  if max_size c <=? 0 then c
  else if bool_decide (is_Some (_store c !! key)) then
    {| max_size := max_size c; _store := <[key := v]> (_store c); _order := _order c |}
  else
    let '(order, store) :=
      evict (max_size c) (_order c ++ [key]) (<[key := v]> (_store c)) in
    {| max_size := max_size c; _store := store; _order := order |}.

(** [LruCache.size] and [LruCache.count] *)
Definition size (c : LruCache) : Z := max_size c.
Definition count (c : LruCache) : Z := Z.of_nat (base.size (_store c)).

(** The caches that a program can build: a fresh one, then calls of [set]
    ([get] returns the cache it was given). *)
Inductive reachable : LruCache -> Prop :=
| reach_init (n : Z) : reachable (init n)
| reach_set (key : string) (v : value) (c : LruCache) :
    reachable c -> reachable (set key v c).

(** The representation invariant: [_order] lists the keys of [_store], each
    once, and never more than [max_size] of them. *)
Definition wf (c : LruCache) : Prop :=
  NoDup (_order c)
  /\ (forall k, is_Some (_store c !! k) <-> k ∈ _order c)
  /\ Z.of_nat (length (_order c)) <= max_size c.

(** Inserting a list of bindings in order. *)
Definition set_all (kvs : list (string * value)) (c : LruCache) : LruCache :=
  fold_left (fun acc kv => set kv.1 kv.2 acc) kvs c.

End Cache.
(** ** Exceptions and effects

    Pure code that can raise lives in [result]; code that also acts on a
    state (the correlation context, the outside world of a planner) lives in
    [M S], a state transformer that keeps the state reached when an
    exception is raised. *)

#[global] Instance result_ret : MRet result := fun A a => Ok a.
#[global] Instance result_bind : MBind result := fun A B k r => bind r k.

Definition M (S A : Type) : Type := S -> S * result A.

Definition ret {S A} (a : A) : M S A := fun s => (s, Ok a).

Definition raise {S A} (e : exn) : M S A := fun s => (s, Raise e).

Definition bindM {S A B} (m : M S A) (k : A -> M S B) : M S B :=
  fun s =>
    match m s with
    | (s', Ok a) => k a s'
    | (s', Raise e) => (s', Raise e)
    end.

(** [try: return m except Exception: handler] *)
Definition try_except {S A} (m : M S A) (handler : M S A) : M S A :=
  fun s =>
    match m s with
    | (s', Ok a) => (s', Ok a)
    | (s', Raise _) => handler s'
    end.

(** A pure, possibly raising computation run inside [M]. *)
Definition lift {S A} (r : result A) : M S A := fun s => (s, r).

Definition get_state {S} : M S S := fun s => (s, Ok s).
Definition put_state {S} (s : S) : M S unit := fun _ => (s, Ok tt).

Declare Scope m_scope.
Delimit Scope m_scope with M.
Notation "x <- m ;; k" := (bindM m (fun x => k))
  (at level 100, m at next level, right associativity) : m_scope.
Notation "m ;; k" := (bindM m (fun _ => k))
  (at level 100, right associativity) : m_scope.

(** ** intelligence/scorers/rule.py *)

Module ScorerRule.

(** [v or ""] for each value, as [" ".join] takes them: the join raises
    [TypeError] on an item that is not a [str]. *)
Fixpoint or_empty (values : list value) : result (list string) :=
  match values with
  | [] => Ok []
  | v :: rest =>
      match py_or v (VStr "") with
      | VStr s => parts ← or_empty rest; Ok (s :: parts)
      | _ => Raise TypeError
      end
  end.

(** [v or ""] for a value that [_lower_text] accepts. *)
Definition or_text (v : value) : string :=
  match v with
  | VStr s => s
  | _ => ""
  end.

Section Scoring.
Context `{Builtins}.

Definition _lower_text (values : list value) : result string :=
  parts ← or_empty values; Ok (lower (join " " parts)).

(** [min(max(base, 0), 100)] for a [base] with [isinstance(base, int)]: a
    [bool] is an [int] instance and comes back as it is. *)
Definition clamp_base (base : value) : option value :=
  match base with
  | VInt z => Some (VInt (Z.min (Z.max z 0) 100))
  | VBool b => Some (VBool b)
  | _ => None
  end.

Definition _score_rules (alert : value)
  : result (value * float * string * list string) :=
  let description := get_path alert "ruleName" in
  let alert_type := get_path alert "type" in
  text ← _lower_text [description; alert_type];
  if existsb (fun key => contains key text) ["ransomware"; "trojan"; "malware"] then
    Ok (VInt 85, 0.85%float, "Likely malware activity.", ["keyword:malware"])
  else if existsb (fun key => contains key text) ["brute force"; "bruteforce"; "failed login"] then
    Ok (VInt 60, 0.7%float, "Possible brute-force attempts.", ["keyword:bruteforce"])
  else if contains "port scan" text || contains "scan" text then
    Ok (VInt 55, 0.65%float, "Possible scanning activity.", ["keyword:scan"])
  else if contains "benign" text then
    Ok (VInt 20, 0.2%float, "Likely benign noise.", ["keyword:benign"])
  else
    let base := get_path alert "severity" in
    match clamp_base base with
    | Some sev => Ok (sev, 0.5%float, "Severity-based assessment.", ["source:severity"])
    | None => Ok (VInt 40, 0.5%float, "Heuristic assessment.", ["source:default"])
    end.

(** The body of [_score_rules] once [text] is known. *)
Definition score_text (alert : value) (text : string)
  : value * float * string * list string :=
  if existsb (fun key => contains key text) ["ransomware"; "trojan"; "malware"] then
    (VInt 85, 0.85%float, "Likely malware activity.", ["keyword:malware"])
  else if existsb (fun key => contains key text) ["brute force"; "bruteforce"; "failed login"] then
    (VInt 60, 0.7%float, "Possible brute-force attempts.", ["keyword:bruteforce"])
  else if contains "port scan" text || contains "scan" text then
    (VInt 55, 0.65%float, "Possible scanning activity.", ["keyword:scan"])
  else if contains "benign" text then
    (VInt 20, 0.2%float, "Likely benign noise.", ["keyword:benign"])
  else
    match clamp_base (get_path alert "severity") with
    | Some sev => (sev, 0.5%float, "Severity-based assessment.", ["source:severity"])
    | None => (VInt 40, 0.5%float, "Heuristic assessment.", ["source:default"])
    end.

(** A text mentions a keyword set when one of the keywords occurs in it. *)
Definition mentions (text : string) (keys : list string) : Prop :=
  exists key, In key keys /\ contains key text = true.

(** The values that [_lower_text] accepts: a [str], or anything falsy (which
    [v or ""] replaces by the empty string). *)
Definition textual (v : value) : bool :=
  match v with
  | VStr _ => true
  | _ => negb (truthy v)
  end.

(** [RuleScorer.score]: the assessment as the dict the method returns. *)
Definition score (alert : value) : result value :=
  '(severity, confidence, hypothesis, evidence) ← _score_rules alert;
  Ok (VDict [("severity", severity);
             ("confidence", VFloat confidence);
             ("hypothesis", VStr hypothesis);
             ("evidence", VList (map VStr evidence))]).

End Scoring.

End ScorerRule.

(** ** intelligence/planners/rule.py *)

Module PlannerRule.

Record Action : Type := mkAction {
  type : string;
  risk : Z;
  expectedImpact : Z;
  reversible : bool;
  parameters : list (string * value);
  rationale : string;
}.

Record Tags : Type := mkTags {
  environment : value;
  generatedAt : string;
}.

Record Plan : Type := mkPlan {
  planId : string;
  strategy : string;
  priority : Z;
  summary : string;
  actions : list Action;
  rollbackActions : list Action;
  plan_rationale : list string;
  tags : Tags;
}.

(** What [uuid.uuid4().hex] and [now_iso()] return to one call of the
    planner. *)
Record Ambient : Type := mkAmbient {
  uuid4_hex : string;
  now_iso : string;
}.

Definition action_defaults : list (string * (Z * Z * bool)) :=
  [("BlockIp", (55, 30, true));
   ("UnblockIp", (10, 5, false));
   ("IsolateHost", (70, 60, true));
   ("UnisolateHost", (15, 10, false));
   ("DisableUser", (65, 50, true));
   ("EnableUser", (15, 10, false));
   ("KillProcess", (85, 85, false));
   ("QuarantineFile", (85, 85, false));
   ("OpenTicket", (5, 5, false));
   ("Notify", (5, 5, false));
   ("CollectForensics", (35, 20, false))].

Fixpoint assoc {A} (table : list (string * A)) (key : string) : option A :=
  match table with
  | [] => None
  | (k, a) :: rest => if String.eqb k key then Some a else assoc rest key
  end.

Definition _action (action_type : string) (why : string)
  (params : list (string * value)) : Action :=
  let '(r, impact, rev) := default (50, 50, false) (assoc action_defaults action_type) in
  {| type := action_type;
     risk := r;
     expectedImpact := impact;
     reversible := rev;
     parameters := params;
     rationale := why |}.

Definition rollback_map : list (string * string) :=
  [("BlockIp", "UnblockIp");
   ("IsolateHost", "UnisolateHost");
   ("DisableUser", "EnableUser")].

(** The body of the loop of [_build_rollbacks] for one action. *)
Definition rollback_of (action : Action) : list Action :=
  let action_type := type action in
  match assoc rollback_map action_type with
  | Some rollback_type =>
      if negb (String.eqb rollback_type "") then
        [_action rollback_type (String.append "Rollback for " action_type) (parameters action)]
      else []
  | None => []
  end.

Definition _build_rollbacks (acts : list Action) : list Action :=
  fold_left (fun rollbacks action => (rollbacks ++ rollback_of action)%list) (rev acts) [].

Definition _compute_priority (severity : Z) (confidence : float) (criticality : Z)
  : result Z :=
  let base := severity + criticality * 10 in
  boost ← int_of_float (confidence * 20)%float;
  let boosted := base + boost in
  Ok (Z.min (Z.max boosted 0) 100).

(** The locals that [_plan_from_rules] reads from its arguments (its first
    eight statements). *)
Record Locals : Type := mkLocals {
  severity : Z;
  confidence : float;
  criticality : Z;
  privileged : bool;
  src_ip : value;
  username : value;
  host_id : value;
}.

(** The [if]/[elif] ladder of [_plan_from_rules] that sets [strategy]. *)
Definition select_strategy (severity : Z) (confidence : float) (criticality : Z)
  (privileged : bool) : string :=
  if (confidence <? 0.3)%float then "ObserveMore"
  else if ((4 <=? criticality) || privileged) && (confidence <? 0.85)%float
       then "EscalateToHuman"
  else if (0.85 <=? confidence)%float && (70 <=? severity) then "ContainAndCollect"
  else if (0.6 <=? confidence)%float && (50 <=? severity) then "Contain"
  else "NotifyOnly".

(** The [if]/[elif] chain of [_plan_from_rules] that fills [actions]. *)
Definition build_actions (strategy : string) (src_ip username host_id : value)
  : list Action :=
  if String.eqb strategy "ObserveMore" then
    [_action "OpenTicket" "Create a tracking ticket." []]
  else if String.eqb strategy "NotifyOnly" then
    [_action "Notify" "Notify analysts." [];
     _action "OpenTicket" "Create a tracking ticket." []]
  else if String.eqb strategy "Contain" || String.eqb strategy "ContainAndCollect" then
    ((if truthy src_ip
      then [_action "BlockIp" "Block suspicious source IP." [("src_ip", src_ip)]]
      else [])
     ++ (if truthy username
         then [_action "DisableUser" "Disable user account." [("username", username)]]
         else [])
     ++ (if truthy host_id
         then [_action "IsolateHost" "Isolate host." [("host_id", host_id)]]
         else [])
     ++ (if String.eqb strategy "ContainAndCollect"
         then [_action "CollectForensics" "Collect forensic artifacts." []]
         else [])
     ++ [_action "OpenTicket" "Create a tracking ticket." []])%list
  else
    [_action "Notify" "Escalate to human analyst." [];
     _action "OpenTicket" "Create a tracking ticket." []].

Section Planning.
Context {B : Builtins}.

Definition read_locals (alert assessment : value) : result Locals :=
  raw_severity ← get_method assessment "severity" VNone;
  sev ← py_int (py_or raw_severity (VInt 0));
  raw_confidence ← get_method assessment "confidence" VNone;
  conf ← py_float (py_or raw_confidence (VFloat 0%float));
  crit ← py_int (py_or (get_path alert "context.assetCriticality") (VInt 0));
  Ok {| severity := sev;
        confidence := conf;
        criticality := crit;
        privileged :=
          truthy (py_or (get_path alert "context.privileged") (VBool false));
        src_ip := get_path alert "entities.srcIp";
        username := get_path alert "entities.username";
        host_id := py_or (get_path alert "entities.hostId")
                         (get_path alert "entities.hostname") |}.

Definition _plan_from_rules (amb : Ambient) (alert assessment : value) : result Plan :=
  loc ← read_locals alert assessment;
  let chosen :=
    select_strategy (severity loc) (confidence loc) (criticality loc) (privileged loc) in
  let acts := build_actions chosen (src_ip loc) (username loc) (host_id loc) in
  let rollback_actions := _build_rollbacks acts in
  prio ← _compute_priority (severity loc) (confidence loc) (criticality loc);
  let summary_text :=
    String.concat ""
      ["Strategy="; chosen; ", Severity="; str_of_int (severity loc);
       ", Confidence="; format_2f (confidence loc)] in
  let why :=
    [String.concat ""
       ["Selected strategy "; chosen; " based on confidence ";
        format_2f (confidence loc); " and severity "; str_of_int (severity loc); "."];
     String.concat ""
       ["Asset criticality: "; str_of_int (criticality loc); "; privileged identity: ";
        str_of_bool (privileged loc); "."]] in
  Ok {| planId := uuid4_hex amb;
        strategy := chosen;
        priority := prio;
        summary := summary_text;
        actions := acts;
        rollbackActions := rollback_actions;
        plan_rationale := why;
        tags := {| environment := py_or (get_path alert "context.environment") (VStr "unknown");
                   generatedAt := now_iso amb |} |}.

(** [RulePlanner.plan] *)
Definition plan (amb : Ambient) (alert assessment : value) : result Plan :=
  _plan_from_rules amb alert assessment.

End Planning.

(** Inputs of the documented types: an integer field holds an [int] (or a
    [bool]) or is absent; the confidence holds a [float], or an [int] within
    the range of the floats, or is absent. *)
Definition int_field (v : value) : bool :=
  match v with
  | VNone | VBool _ | VInt _ => true
  | _ => false
  end.


(** The priority in the words of the design: the exact value of
    [severity + criticality * 10 + confidence * 20], clamped to [0, 100]. *)
Definition priority_exact (severity : Z) (confidence : float) (criticality : Z) : Q :=
  Qmin (Qmax (inject_Z severity + inject_Z criticality * 10
              + Q_of_sf (Prim2SF confidence) * 20) 0) 100.

(** The decision ladder in the words of the design: the first rule whose
    condition holds decides, the conditions being read on the comparisons
    that the planner evaluates. *)
Definition below (x y : float) : Prop := (x <? y)%float = true.
Definition at_least (x y : float) : Prop := (y <=? x)%float = true.

Inductive ladder_spec (severity : Z) (confidence : float) (criticality : Z)
  (privileged : bool) : string -> Prop :=
| ladder_observe :
    below confidence 0.3 ->
    ladder_spec severity confidence criticality privileged "ObserveMore"
| ladder_escalate :
    ~ below confidence 0.3 ->
    (4 <= criticality \/ privileged = true) /\ below confidence 0.85 ->
    ladder_spec severity confidence criticality privileged "EscalateToHuman"
| ladder_collect :
    ~ below confidence 0.3 ->
    ~ ((4 <= criticality \/ privileged = true) /\ below confidence 0.85) ->
    at_least confidence 0.85 /\ 70 <= severity ->
    ladder_spec severity confidence criticality privileged "ContainAndCollect"
| ladder_contain :
    ~ below confidence 0.3 ->
    ~ ((4 <= criticality \/ privileged = true) /\ below confidence 0.85) ->
    ~ (at_least confidence 0.85 /\ 70 <= severity) ->
    at_least confidence 0.6 /\ 50 <= severity ->
    ladder_spec severity confidence criticality privileged "Contain"
| ladder_notify :
    ~ below confidence 0.3 ->
    ~ ((4 <= criticality \/ privileged = true) /\ below confidence 0.85) ->
    ~ (at_least confidence 0.85 /\ 70 <= severity) ->
    ~ (at_least confidence 0.6 /\ 50 <= severity) ->
    ladder_spec severity confidence criticality privileged "NotifyOnly".

Definition strategies : list string :=
  ["ObserveMore"; "EscalateToHuman"; "ContainAndCollect"; "Contain"; "NotifyOnly"].

(** The registered inverses in the words of the design. *)
Definition registered_inverse (action_type : string) : option string :=
  if String.eqb "BlockIp" action_type then Some "UnblockIp"
  else if String.eqb "IsolateHost" action_type then Some "UnisolateHost"
  else if String.eqb "DisableUser" action_type then Some "EnableUser"
  else None.

(** A rollback action [r] undoes the forward action [a]. *)
Definition undoes (r a : Action) : Prop :=
  registered_inverse (type a) = Some (type r) /\ parameters r = parameters a.

Definition has_inverse (a : Action) : bool :=
  match registered_inverse (type a) with
  | Some _ => true
  | None => false
  end.

(** The dicts that [_action] and [_plan_from_rules] return, for the callers
    that handle a plan as JSON data. *)
Definition action_dict (a : Action) : value :=
  VDict [("type", VStr (type a));
         ("risk", VInt (risk a));
         ("expectedImpact", VInt (expectedImpact a));
         ("reversible", VBool (reversible a));
         ("parameters", VDict (parameters a));
         ("rationale", VStr (rationale a))].

Definition plan_dict (p : Plan) : value :=
  VDict [("planId", VStr (planId p));
         ("strategy", VStr (strategy p));
         ("priority", VInt (priority p));
         ("summary", VStr (summary p));
         ("actions", VList (map action_dict (actions p)));
         ("rollbackActions", VList (map action_dict (rollbackActions p)));
         ("rationale", VList (map VStr (plan_rationale p)));
         ("tags", VDict [("environment", environment (tags p));
                         ("generatedAt", VStr (generatedAt (tags p)))])].

End PlannerRule.

(** ** intelligence/core/base.py

    The two abstract classes.  A scorer or planner may call a model or a
    remote service: its method is a computation over the state [W] of that
    outside world. *)

Module Core.

Record Scorer (W : Type) : Type := mkScorer {
  score : value -> M W (option value);
}.

Record Planner (W : Type) : Type := mkPlanner {
  plan : value -> value -> M W value;
}.

Arguments score {W} _ _ _.
Arguments plan {W} _ _ _ _.

(** Where [uuid.uuid4()] and the clock come from. *)
Class Runtime (W : Type) : Type := {
  draw_ambient : W -> PlannerRule.Ambient * W;
}.

(** [RuleScorer()] and [RulePlanner()] as instances of the interfaces. *)
Definition RuleScorer {W} `{Builtins} : Scorer W :=
  {| score alert := fun w =>
       (w, match ScorerRule.score alert with
           | Ok d => Ok (Some d)
           | Raise e => Raise e
           end) |}.

Definition RulePlanner {W} `{Runtime W} `{Builtins} : Planner W :=
  {| plan alert assessment := fun w =>
       let (amb, w') := draw_ambient w in
       match PlannerRule.plan amb alert assessment with
       | Ok p => (w', Ok (PlannerRule.plan_dict p))
       | Raise e => (w, Raise e)
       end |}.

End Core.

(** ** intelligence/planners/hybrid.py *)

Module PlannerHybrid.

Record HybridPlanner (W : Type) : Type := mkHybridPlanner {
  local_planner : Core.Planner W;
  remote_planner : option (Core.Planner W);
}.
Arguments local_planner {W} _.
Arguments remote_planner {W} _.

(** [HybridPlanner.plan] *)
Definition plan {W} (self : HybridPlanner W) (alert assessment : value) : M W value :=
  try_except (Core.plan (local_planner self) alert assessment)
    match remote_planner self with
    | Some remote =>
        try_except (Core.plan remote alert assessment)
          (Core.plan (local_planner self) alert assessment)
    | None => Core.plan (local_planner self) alert assessment
    end.

Definition as_planner {W} (self : HybridPlanner W) : Core.Planner W :=
  {| Core.plan := plan self |}.

End PlannerHybrid.

(** ** intelligence/scorers/hybrid.py *)

Module ScorerHybrid.

Record HybridScorer (W : Type) : Type := mkHybridScorer {
  local_scorer : option (Core.Scorer W);
  ollama_scorer : option (Core.Scorer W);
  fallback : Core.Scorer W;
}.
Arguments local_scorer {W} _.
Arguments ollama_scorer {W} _.
Arguments fallback {W} _.

Definition usable (r : option value) : bool :=
  match r with
  | Some v => truthy v
  | None => false
  end.

(** One [if self.x: result = self.x.score(alert); if result: return result]
    step, followed by the rest of the method. *)
Definition try_source {W} (source : option (Core.Scorer W)) (alert : value)
  (rest : M W (option value)) : M W (option value) :=
  match source with
  | Some s =>
      (r <- Core.score s alert ;;
       if usable r then ret r else rest)%M
  | None => rest
  end.

(** [HybridScorer.score] *)
Definition score {W} (self : HybridScorer W) (alert : value) : M W (option value) :=
  try_source (local_scorer self) alert
    (try_source (ollama_scorer self) alert
       (Core.score (fallback self) alert)).

End ScorerHybrid.

(** ** intelligence/app.py *)

Module App.

Section Service.
Context {W : Type} `{Core.Runtime W} `{Builtins}.

Record Services : Type := mkServices {
  scorer : Core.Scorer W;
  planner : Core.Planner W;
  cache : Cache.LruCache;
}.

(** The module state: [_services], [_stats] and the outside world. *)
Record State : Type := mkState {
  _services : Services;
  score_requests : Z;
  plan_requests : Z;
  world : W;
}.

(** A scorer or planner call made from a handler. *)
Definition on_world {A} (m : M W A) : M State A :=
  fun st =>
    let (w, r) := m (world st) in
    ({| _services := _services st;
        score_requests := score_requests st;
        plan_requests := plan_requests st;
        world := w |}, r).

Definition bump_score_requests : M State unit :=
  fun st =>
    ({| _services := _services st;
        score_requests := score_requests st + 1;
        plan_requests := plan_requests st;
        world := world st |}, Ok tt).

Definition bump_plan_requests : M State unit :=
  fun st =>
    ({| _services := _services st;
        score_requests := score_requests st;
        plan_requests := plan_requests st + 1;
        world := world st |}, Ok tt).

(** [cache.get(key)] and [cache.set(key, result)] on [_services["cache"]]. *)
Definition cache_get (key : string) : M State (option value) :=
  fun st =>
    let (found, c) := Cache.get key (cache (_services st)) in
    ({| _services := {| scorer := scorer (_services st);
                        planner := planner (_services st);
                        cache := c |};
        score_requests := score_requests st;
        plan_requests := plan_requests st;
        world := world st |}, Ok found).

Definition cache_set (key : string) (v : value) : M State unit :=
  fun st =>
    ({| _services := {| scorer := scorer (_services st);
                        planner := planner (_services st);
                        cache := Cache.set key v (cache (_services st)) |};
        score_requests := score_requests st;
        plan_requests := plan_requests st;
        world := world st |}, Ok tt).

(** The state with another cache in [_services]. *)
Definition with_cache (c : Cache.LruCache) (st : State) : State :=
  {| _services := {| scorer := scorer (_services st);
                     planner := planner (_services st);
                     cache := c |};
     score_requests := score_requests st;
     plan_requests := plan_requests st;
     world := world st |}.

Definition _cache_key (alert : value) : string := json_dumps alert.

Definition fallback_score : value :=
  VDict [("severity", VInt 40);
         ("confidence", VFloat 0.5%float);
         ("hypothesis", VStr "fallback");
         ("evidence", VList [VStr "fallback"])].

(** [POST /v1/score] *)
Definition score (payload : list (string * value)) : M State value :=
  (let alert := py_or (dict_get payload "alert") (VDict []) in
   bump_score_requests ;;
   let key := _cache_key alert in
   cached <- cache_get key ;;
   if ScorerHybrid.usable cached then ret (default VNone cached)
   else
     st <- get_state ;;
     scored <- on_world (Core.score (scorer (_services st)) alert) ;;
     result <- match scored with
               | Some r => ret r
               | None =>
                   rule <- on_world (Core.score Core.RuleScorer alert) ;;
                   ret (py_or (default VNone rule) fallback_score)
               end ;;
     cache_set key result ;;
     ret result)%M.

(** [POST /v1/plan] *)
Definition plan (payload : list (string * value)) : M State value :=
  (let alert := py_or (dict_get payload "alert") (VDict []) in
   let assessment := py_or (dict_get payload "assessment") (VDict []) in
   bump_plan_requests ;;
   st <- get_state ;;
   try_except
     (p <- on_world (Core.plan (planner (_services st)) alert assessment) ;;
      ret (VDict [("plan", p)]))
     (p <- on_world (Core.plan Core.RulePlanner alert assessment) ;;
      ret (VDict [("plan", p)])))%M.

(** What [for alert in items] iterates over: the elements of a list, the
    keys of a dict, the characters of a string; anything else is not
    iterable. *)
Definition iter_items (items : value) : result (list value) :=
  match items with
  | VList l => Ok l
  | VDict d => Ok (map (fun kv => VStr (fst kv)) d)
  | VStr text => Ok (map (fun c => VStr (String c "")) (list_ascii_of_string text))
  | _ => Raise TypeError
  end.

(** The body of the loop of [score_batch] for one alert: the result that is
    appended to [results]. *)
Definition score_one (alert : value) : M State value :=
  (bump_score_requests ;;
   let key := _cache_key alert in
   cached <- cache_get key ;;
   if ScorerHybrid.usable cached then ret (default VNone cached)
   else
     st <- get_state ;;
     scored <- on_world (Core.score (scorer (_services st)) alert) ;;
     result <- match scored with
               | Some r => ret r
               | None =>
                   rule <- on_world (Core.score Core.RuleScorer alert) ;;
                   ret (py_or (default VNone rule) fallback_score)
               end ;;
     cache_set key result ;;
     ret result)%M.

Fixpoint score_batch_loop (items : list value) (results : list value)
  : M State (list value) :=
  match items with
  | [] => ret results
  | alert :: rest =>
      (result <- score_one alert ;;
       score_batch_loop rest (results ++ [result]))%M
  end.

(** [POST /v1/score/batch] *)
Definition score_batch (payload : list (string * value)) : M State value :=
  (items <- lift (iter_items (py_or (dict_get payload "alerts") (VList []))) ;;
   results <- score_batch_loop items [] ;;
   ret (VDict [("results", VList results)]))%M.

(** One [POST /v1/score] request per alert, in order, collecting the
    answers. *)
Fixpoint score_each (alerts : list value) : M State (list value) :=
  match alerts with
  | [] => ret []
  | alert :: rest =>
      (answer <- score [("alert", alert)] ;;
       answers <- score_each rest ;;
       ret (answer :: answers))%M
  end.

End Service.

End App.

(** ** annotation_suggester.py *)

Module AnnotationSuggester.

(** One entry of [HEURISTICS].  A key that an entry does not have is [None]
    (or the empty list, which [heur.get(...)] treats alike in every test the
    code makes). *)
Record Heuristic : Type := mkHeuristic {
  name : string;
  matcher : option string;
  match_fields : list string;
  keywords : list string;
  all_keywords : list string;
  exclude_keywords : list string;
  detection_goal : option string;
  severity : option string;
  example_completion : option string;
}.

(** The double quote character. *)
Definition dq : string := String (ascii_of_nat 34) "".

Definition HEURISTICS : list Heuristic :=
  [
  {| name := "noise_auth_success";
     matcher := None;
     match_fields := ["rule"];
     keywords := ["authentication success"; "Windows logon success"];
     all_keywords := [];
     exclude_keywords := [];
     detection_goal := (Some "Treat this Windows authentication success as routine noise before raising the alert again.");
     severity := (Some "noise");
     example_completion :=
       (Some (String.concat "" ["<group name="; dq; "noise"; dq; "><rule id="; dq; "100000"; dq; " level="; dq; "1"; dq; "><description>Routine authentication success</description></rule></group>"])) |};
  {| name := "powershell_usage";
     matcher := None;
     match_fields := ["rule"; "full_log"];
     keywords := ["powershell"; ".ps1"; ".psm1"];
     all_keywords := [];
     exclude_keywords := [];
     detection_goal := (Some "Flag PowerShell activity, since PowerShell usage often indicates script-based abuse in your environment.");
     severity := (Some "high");
     example_completion :=
       (Some (String.concat "" ["<group name="; dq; "custom_sysmon_rules,process_injection"; dq; "><rule id="; dq; "100650"; dq; " level="; dq; "12"; dq; "><description>Suspicious PowerShell invocation</description></rule></group>"])) |};
  {| name := "ssl_usage";
     matcher := None;
     match_fields := ["rule"; "full_log"];
     keywords := ["ssl"; "tls"; "https://"; "443"];
     all_keywords := [];
     exclude_keywords := [];
     detection_goal := (Some "Investigate SSL/TLS usage that might be hiding command-and-control or data exfiltration.");
     severity := (Some "medium");
     example_completion :=
       (Some (String.concat "" ["<group name="; dq; "custom_windows_rules,network"; dq; "><rule id="; dq; "100651"; dq; " level="; dq; "10"; dq; "><description>Unusual SSL/TLS traffic</description></rule></group>"])) |};
  {| name := "root_execution";
     matcher := None;
     match_fields := ["full_log"];
     keywords := ["user=root"; "sudo"; "run as root"];
     all_keywords := [];
     exclude_keywords := [];
     detection_goal := (Some "High alert when root executes a program—track what commands are being issued as root.");
     severity := (Some "critical");
     example_completion :=
       (Some (String.concat "" ["<group name="; dq; "custom_unix_rules,root"; dq; "><rule id="; dq; "100652"; dq; " level="; dq; "13"; dq; "><description>Program execution as root</description></rule></group>"])) |};
  {| name := "remote_access";
     matcher := None;
     match_fields := ["rule"; "full_log"];
     keywords := ["remote shell"; "remote access"; "sshd"; "rdesktop"; "mstsc"; "winrm"; "remote desktop"];
     all_keywords := [];
     exclude_keywords := [];
     detection_goal := (Some "Treat remote access sessions as high risk until verified, especially when they appear without prior authorization.");
     severity := (Some "high");
     example_completion :=
       (Some (String.concat "" ["<group name="; dq; "local,remote_access"; dq; "><rule id="; dq; "100660"; dq; " level="; dq; "13"; dq; "><description>Unusual remote access activity</description></rule></group>"])) |};
  {| name := "copy_sensitive";
     matcher := None;
     match_fields := ["full_log"];
     keywords := ["/etc/passwd"; "/etc/shadow"; "/etc/group"];
     all_keywords := [];
     exclude_keywords := [];
     detection_goal := (Some "Copying sensitive files (passwd/shadow/group) should raise a high alert even if the copy command looks normal.");
     severity := (Some "high");
     example_completion :=
       (Some (String.concat "" ["<group name="; dq; "custom_unix_rules,syscheck"; dq; "><rule id="; dq; "100653"; dq; " level="; dq; "13"; dq; "><description>Copy of sensitive credential files</description></rule></group>"])) |};
  {| name := "unsigned_install";
     matcher := None;
     match_fields := ["rule"; "full_log"];
     keywords := ["installation completed"; "installed product"];
     all_keywords := [];
     exclude_keywords := ["signed"; "Microsoft"; "verified"];
     detection_goal := (Some "Treat installs without a signature or vendor stamp as high risk.");
     severity := (Some "high");
     example_completion :=
       (Some (String.concat "" ["<group name="; dq; "local,software_install"; dq; "><rule id="; dq; "100654"; dq; " level="; dq; "12"; dq; "><description>Unsigned installer executed</description></rule></group>"])) |};
  {| name := "signed_install";
     matcher := None;
     match_fields := ["rule"; "full_log"];
     keywords := ["signed by"; "verified"; "digital signature"];
     all_keywords := [];
     exclude_keywords := [];
     detection_goal := (Some "Signed installs are mid/low priority but worth auditing for unexpected binaries.");
     severity := (Some "medium");
     example_completion :=
       (Some (String.concat "" ["<group name="; dq; "local,software_install"; dq; "><rule id="; dq; "100655"; dq; " level="; dq; "8"; dq; "><description>Signed installer seen</description></rule></group>"])) |};
  {| name := "self_signed";
     matcher := None;
     match_fields := ["rule"; "full_log"];
     keywords := ["self-signed"; "self signed"];
     all_keywords := [];
     exclude_keywords := [];
     detection_goal := (Some "Self-signed binaries/certificates are suspicious; track the origin.");
     severity := (Some "high");
     example_completion :=
       (Some (String.concat "" ["<group name="; dq; "local,software_install"; dq; "><rule id="; dq; "100656"; dq; " level="; dq; "12"; dq; "><description>Self-signed binary detected</description></rule></group>"])) |};
  {| name := "login_geo_anomaly";
     matcher := (Some "login_geo_matcher");
     match_fields := [];
     keywords := [];
     all_keywords := [];
     exclude_keywords := [];
     detection_goal := (Some "Raise a very high alert when the same account authenticates from differing IPs within a short period.");
     severity := (Some "critical");
     example_completion :=
       (Some (String.concat "" ["<group name="; dq; "custom_windows_rules,authentication"; dq; "><rule id="; dq; "100657"; dq; " level="; dq; "14"; dq; "><description>Account used from multiple locations quickly</description></rule></group>"])) |};
  {| name := "privilege_escalation";
     matcher := None;
     match_fields := ["rule"; "full_log"];
     keywords := ["privilege escalation"; "Privilege Escalation"];
     all_keywords := [];
     exclude_keywords := [];
     detection_goal := (Some "Confirm whether this privilege escalation alert is real or just noise from scripted activity.");
     severity := (Some "high");
     example_completion :=
       (Some (String.concat "" ["<group name="; dq; "local,sudo"; dq; "><rule id="; dq; "100658"; dq; " level="; dq; "13"; dq; "><description>Privilege escalation activity</description></rule></group>"])) |};
  {| name := "rootcheck_trojan";
     matcher := None;
     match_fields := ["rule"; "full_log"];
     keywords := ["rootcheck"; "trojaned version"];
     all_keywords := [];
     exclude_keywords := [];
     detection_goal := (Some "Treat Trojaned system utilities flagged by rootcheck as high-risk detections.");
     severity := (Some "high");
     example_completion :=
       (Some (String.concat "" ["<group name="; dq; "custom_rules,rootcheck"; dq; "><rule id="; dq; "100659"; dq; " level="; dq; "12"; dq; "><description>Rootcheck reported trojaned binary</description></rule></group>"])) |}
  ].

(** A CSV row as [csv.DictReader] yields it.  A column that a short row
    lacks reads as [None]; every use in the code treats it like a missing
    key, so both are an absent key here. *)
Abbreviation Row := (gmap string string).

(** [row.get(field, "") or ""] *)
Definition row_text (row : Row) (field : string) : string :=
  default "" (row !! field).

(** The correlation context: a [dict] whose only key in use is
    ["login_history"], bound to a [dict] from agent identity to IP. *)
Abbreviation CorrelationContext := (gmap string (list (value * value))).

Section Scan.
Context `{Builtins}.

Definition parse_json_field (v : string) : result value :=
  if String.eqb v "" then Ok (VDict [])
  else match json_loads v with
       | Ok parsed => Ok parsed
       | Raise JSONDecodeError => Ok (VDict [])
       | Raise e => Raise e
       end.

Definition text_contains_any (text : string) (kws : list string) : bool :=
  let lowered := lower text in
  existsb (fun keyword => contains (lower keyword) lowered) kws.

Definition text_contains_all (text : string) (kws : list string) : bool :=
  let lowered := lower text in
  forallb (fun keyword => contains (lower keyword) lowered) kws.

(** [context.setdefault(key, {})] *)
Definition setdefault (key : string) : M CorrelationContext (list (value * value)) :=
  fun ctx =>
    match ctx !! key with
    | Some history => (ctx, Ok history)
    | None => (<[key := []]> ctx, Ok [])
    end.

(** [history[agent_id] = ip] on the dict bound to [key] in the context. *)
Definition history_set (key : string) (agent_id ip : value) : M CorrelationContext unit :=
  fun ctx =>
    (<[key := vdict_set (default [] (ctx !! key)) agent_id ip]> ctx, Ok tt).

Definition login_geo_matcher (row : Row) (rule : value) (log_text : string)
  : M CorrelationContext bool :=
  (agent_data <- lift (parse_json_field (row_text row "agent")) ;;
   by_id <- lift (get_method agent_data "id" VNone) ;;
   by_name <- lift (get_method agent_data "name" VNone) ;;
   let agent_id := py_or by_id by_name in
   ip <- lift (get_method agent_data "ip" VNone) ;;
   if negb (truthy agent_id) || negb (truthy ip) then ret false
   else
     history <- setdefault "login_history" ;;
     if negb (hashable agent_id) then raise TypeError
     else
       let previous_ip := default VNone (vdict_lookup history agent_id) in
       if truthy previous_ip && negb (py_eq previous_ip ip) then
         history_set "login_history" agent_id ip ;;
         ret true
       else
         history_set "login_history" agent_id ip ;;
         ret false)%M.

(** [rule.get("description", "") if rule else ""] *)
Definition rule_description (rule : value) : result value :=
  if truthy rule then get_method rule "description" (VStr "") else Ok (VStr "").

(** [field_text.lower()]: only a [str] has the method. *)
Definition lower_method (v : value) : result string :=
  match v with
  | VStr s => Ok (lower s)
  | _ => Raise AttributeError
  end.

(** The [for field in heur.get("match_fields", [])] loop of
    [match_heuristic]. *)
Fixpoint match_fields_loop (row : Row) (description : value) (heur : Heuristic)
  (fields : list string) : result bool :=
  match fields with
  | [] => Ok false
  | field :: rest =>
      let field_text :=
        if String.eqb field "rule" then VStr (row_text row "rule")
        else if String.eqb field "description" then description
        else if String.eqb field "full_log" then VStr (row_text row "full_log")
        else VStr (row_text row field) in
      lowered ← lower_method field_text;
      if match exclude_keywords heur with [] => false | _ => true end
         && text_contains_any lowered (exclude_keywords heur)
      then match_fields_loop row description heur rest
      else if match all_keywords heur with [] => false | _ => true end
              && negb (text_contains_all lowered (all_keywords heur))
      then match_fields_loop row description heur rest
      else if match keywords heur with [] => false | _ => true end
              && text_contains_any lowered (keywords heur)
      then Ok true
      else match_fields_loop row description heur rest
  end.

Definition match_heuristic (row : Row) (rule : value) (heur : Heuristic)
  : M CorrelationContext bool :=
  (let log_text := row_text row "full_log" in
   description <- lift (rule_description rule) ;;
   match matcher heur with
   | Some matcher_name =>
       if negb (String.eqb matcher_name "") then
         if String.eqb matcher_name "login_geo_matcher"
         then login_geo_matcher row rule log_text
         else ret false
       else lift (match_fields_loop row description heur (match_fields heur))
   | None => lift (match_fields_loop row description heur (match_fields heur))
   end)%M.

Record Candidate : Type := mkCandidate {
  dataset_id : option string;
  timestamp : option string;
  heuristic : string;
  cand_severity : string;
  cand_detection_goal : option string;
  rule_description_of : value;
  log_excerpt : string;
  cand_example_completion : option string;
}.

Definition build_candidate (row : Row) (heur : Heuristic) (rule : value)
  : result Candidate :=
  description ← rule_description rule;
  Ok {| dataset_id := row !! "id";
        timestamp := row !! "timestamp";
        heuristic := name heur;
        cand_severity := default "info" (severity heur);
        cand_detection_goal := detection_goal heur;
        rule_description_of := description;
        log_excerpt := take_str 200 (row_text row "full_log");
        cand_example_completion := example_completion heur |}.

(** The locals of [scan_logs]. *)
Record ScanState : Type := mkScanState {
  candidates : list Candidate;
  counts : gmap string Z;
  context : CorrelationContext;
}.

(** [counts[name]] on the [defaultdict(int)]. *)
Definition count_of (st : ScanState) (n : string) : Z :=
  default 0 (counts st !! n).

(** A matcher call made on the [context] local. *)
Definition on_context {A} (m : M CorrelationContext A) : M ScanState A :=
  fun st =>
    let (ctx, r) := m (context st) in
    ({| candidates := candidates st; counts := counts st; context := ctx |}, r).

(** [candidates.append(c); counts[name] += 1] *)
Definition emit (c : Candidate) (n : string) : M ScanState unit :=
  fun st =>
    ({| candidates := candidates st ++ [c];
        counts := <[n := count_of st n + 1]> (counts st);
        context := context st |}, Ok tt).

(** A [for x in xs: body] loop. *)
Fixpoint for_each {S A} (xs : list A) (body : A -> M S unit) : M S unit :=
  match xs with
  | [] => ret tt
  | x :: rest => (body x ;; for_each rest body)%M
  end.

(** The body of the inner loop of [scan_logs], for one row and one
    heuristic. *)
Definition scan_heuristic (limit_per_heuristic : Z) (row : Row) (rule : value)
  (heur : Heuristic) : M ScanState unit :=
  (st <- get_state ;;
   if (0 <? limit_per_heuristic) && (limit_per_heuristic <=? count_of st (name heur))
   then ret tt
   else
     matched <- on_context (match_heuristic row rule heur) ;;
     if matched : bool then
       c <- lift (build_candidate row heur rule) ;;
       emit c (name heur)
     else ret tt)%M.

(** The loops of [scan_logs] over the rows of the dataset, for a catalog of
    heuristics. *)
Definition scan_rows (catalog : list Heuristic) (limit_per_heuristic : Z)
  (rows : list Row) : M ScanState unit :=
  for_each rows (fun row =>
    (rule <- lift (parse_json_field (row_text row "rule")) ;;
     for_each catalog (scan_heuristic limit_per_heuristic row rule))%M).

Definition scan_start : ScanState :=
  {| candidates := []; counts := ∅; context := ∅ |}.

(** [scan_logs], on the rows read from [dataset_path]. *)
Definition scan_logs (rows : list Row) (limit_per_heuristic : Z)
  : result (list Candidate) :=
  match scan_rows HEURISTICS limit_per_heuristic rows scan_start with
  | (st, Ok _) => Ok (candidates st)
  | (_, Raise e) => Raise e
  end.

End Scan.

Section Matching.
Context `{Builtins}.

(** A keyword occurs in the text of a field: lower-cased, it is part of the
    text, which [match_heuristic] lower-cases and [text_contains_any] and
    [text_contains_all] lower-case again. *)
Definition occurs (keyword text : string) : Prop :=
  contains (lower keyword) (lower (lower text)) = true.

(** The text that a field name selects in a row, for a rule description
    that is the string [description]. *)
Definition field_text (row : Row) (description : string) (field : string) : string :=
  if String.eqb field "rule" then row_text row "rule"
  else if String.eqb field "description" then description
  else if String.eqb field "full_log" then row_text row "full_log"
  else row_text row field.

(** A text qualifies for a keyword rule: one of the keywords occurs, no
    exclusion keyword does, and all the all-of keywords do. *)
Definition qualifies (heur : Heuristic) (text : string) : Prop :=
  (exists kw, In kw (keywords heur) /\ occurs kw text)
  /\ (forall kw, In kw (exclude_keywords heur) -> ~ occurs kw text)
  /\ (forall kw, In kw (all_keywords heur) -> occurs kw text).

End Matching.

(** The number of candidates emitted for a rule name. *)
Definition emitted (n : string) (cands : list Candidate) : nat :=
  length (List.filter (fun c => String.eqb (heuristic c) n) cands).

(** The counts are the numbers of candidates emitted, and stay within a
    positive cap. *)
Definition counts_track (limit : Z) (st : ScanState) : Prop :=
  forall n,
    count_of st n = Z.of_nat (emitted n (candidates st))
    /\ (0 < limit -> count_of st n <= limit).

(** Every candidate of the state comes from a rule of the catalog and a row
    of the dataset. *)
Definition traced (catalog : list Heuristic) (rows : list Row) (st : ScanState) : Prop :=
  forall c, In c (candidates st) ->
    exists heur row,
      In heur catalog /\ In row rows
      /\ heuristic c = name heur
      /\ cand_severity c = default "info" (severity heur)
      /\ cand_detection_goal c = detection_goal heur
      /\ cand_example_completion c = example_completion heur
      /\ dataset_id c = row !! "id"
      /\ timestamp c = row !! "timestamp"
      /\ log_excerpt c = take_str 200 (row_text row "full_log").

End AnnotationSuggester.

(** ** response_agent.py *)

Module ResponseAgent.

Definition DEFAULT_RESPONSE_ACTIONS : list (string * list string) :=
  [
  ("critical",
   ["Isolate the affected host from the network (disable interfaces or remove from VPN).";
    "Notify SOC immediately and document the detection details.";
    "Capture volatile memory/log snapshots before the host is rebooted."]);
  ("high",
   ["Block the source IP at the firewall or host-based firewall.";
    "Stage the host for forensic triage (collect disk image, eventlogs).";
    "Up the logging verbosity and monitor for follow-on activity."]);
  ("medium",
   ["Correlate with other detections to confirm impact.";
    "Notify the owner/team and continue to monitor the host."]);
  ("low",
   ["Log the event for record keeping and review during the next shift.";
    "Confirm whether the behavior is expected before escalating."]);
  ("noise",
   ["Mark the detection as noise to reduce future alert volume.";
    "Tune the matching rule instead of escalating the incident."]);
  ("default",
   ["Document the detection and hand off to the analyst queue for investigation."])
  ].

(** A [ResponseAgent], without the path of the dataset: the rows read from
    it are an argument of [generate_actions]. *)
Record Agent : Type := mkAgent {
  limit_per_heuristic : Z;
  response_actions : gmap string (list string);
}.

Section Agent.
Context `{Builtins}.

(** The dict comprehension of [__init__]: every key lower-cased, a later
    binding replacing an earlier one. *)
Definition lowered_actions (action_map : list (string * list string))
  : gmap string (list string) :=
  fold_left (fun acc kv => <[lower (fst kv) := snd kv]> acc) action_map ∅.

(** [ResponseAgent.__init__], for an action map of the annotated type. *)
Definition init (limit : Z) (action_map : list (string * list string)) : Agent :=
  let lowered := lowered_actions action_map in
  {| limit_per_heuristic := limit;
     response_actions :=
       match lowered !! "default" with
       | Some _ => lowered
       | None => <["default" := []]> lowered
       end |}.

(** [ResponseAgent._select_actions] *)
Definition _select_actions (self : Agent) (severity : string) : list string :=
  let severity_key := lower severity in
  default (default [] (response_actions self !! "default"))
          (response_actions self !! severity_key).

(** The last binding of a lower-cased key in an action map. *)
Fixpoint last_binding (action_map : list (string * list string)) (key : string)
  : option (list string) :=
  match action_map with
  | [] => None
  | (k, vs) :: rest =>
      match last_binding rest key with
      | Some later => Some later
      | None => if String.eqb (lower k) key then Some vs else None
      end
  end.

Record ResponsePlan : Type := mkResponsePlan {
  dataset_id : option string;
  timestamp : option string;
  host : value;
  ip : value;
  rule_id : value;
  rule_description : value;
  log_excerpt : string;
  heuristic : string;
  detection_goal : option string;
  severity : string;
  actions : list string;
}.

(** The locals of [generate_actions]. *)
Record PlanState : Type := mkPlanState {
  plans : list ResponsePlan;
  counts : gmap string Z;
  context : AnnotationSuggester.CorrelationContext;
}.

Definition count_of (st : PlanState) (n : string) : Z :=
  default 0 (counts st !! n).

Definition on_context {A} (m : M AnnotationSuggester.CorrelationContext A)
  : M PlanState A :=
  fun st =>
    let (ctx, r) := m (context st) in
    ({| plans := plans st; counts := counts st; context := ctx |}, r).

(** [plans.append(p); counts[name] += 1] *)
Definition emit (p : ResponsePlan) (n : string) : M PlanState unit :=
  fun st =>
    ({| plans := plans st ++ [p];
        counts := <[n := count_of st n + 1]> (counts st);
        context := context st |}, Ok tt).

Definition plan_start : PlanState :=
  {| plans := []; counts := ∅; context := ∅ |}.

(** [ResponseAgent._parse_agent] *)
Definition _parse_agent (agent_field : string) : result value :=
  parsed ← AnnotationSuggester.parse_json_field agent_field;
  if truthy parsed then Ok parsed
  else Ok (VDict [("name", VStr agent_field)]).

(** [ResponseAgent._build_plan] *)
Definition _build_plan (self : Agent) (row : AnnotationSuggester.Row) (rule : value)
  (heur : AnnotationSuggester.Heuristic) : result ResponsePlan :=
  agent_info ← _parse_agent (AnnotationSuggester.row_text row "agent");
  let label := default "default" (AnnotationSuggester.severity heur) in
  by_name ← get_method agent_info "name" VNone;
  by_id ← get_method agent_info "id" VNone;
  address ← get_method agent_info "ip" VNone;
  rid ← get_method rule "id" VNone;
  description ← get_method rule "description" VNone;
  Ok {| dataset_id := row !! "id";
        timestamp := row !! "timestamp";
        host := py_or (py_or by_name by_id)
                      match row !! "agent" with
                      | Some text => VStr text
                      | None => VNone
                      end;
        ip := address;
        rule_id := rid;
        rule_description := description;
        log_excerpt := take_str 400 (AnnotationSuggester.row_text row "full_log");
        heuristic := AnnotationSuggester.name heur;
        detection_goal := AnnotationSuggester.detection_goal heur;
        severity := label;
        actions := _select_actions self label |}.

(** The body of the inner loop of [generate_actions], for one row and one
    heuristic. *)
Definition plan_heuristic (self : Agent) (row : AnnotationSuggester.Row)
  (rule : value) (heur : AnnotationSuggester.Heuristic) : M PlanState unit :=
  (st <- get_state ;;
   if (0 <? limit_per_heuristic self)
      && (limit_per_heuristic self <=? count_of st (AnnotationSuggester.name heur))
   then ret tt
   else
     matched <- on_context (AnnotationSuggester.match_heuristic row rule heur) ;;
     if negb matched then ret tt
     else
       p <- lift (_build_plan self row rule heur) ;;
       emit p (AnnotationSuggester.name heur))%M.

(** The loops of [generate_actions] over the rows of the dataset, for a
    catalog of heuristics. *)
Definition generate_rows (self : Agent) (catalog : list AnnotationSuggester.Heuristic)
  (rows : list AnnotationSuggester.Row) : M PlanState unit :=
  AnnotationSuggester.for_each rows (fun row =>
    (rule <- lift (AnnotationSuggester.parse_json_field
                     (AnnotationSuggester.row_text row "rule")) ;;
     AnnotationSuggester.for_each catalog (plan_heuristic self row rule))%M).

(** [ResponseAgent.generate_actions], on the rows read from the dataset. *)
Definition generate_actions (self : Agent) (rows : list AnnotationSuggester.Row)
  : result (list ResponsePlan) :=
  match generate_rows self AnnotationSuggester.HEURISTICS rows plan_start with
  | (st, Ok _) => Ok (plans st)
  | (_, Raise e) => Raise e
  end.

End Agent.

(** A response plan and a candidate report the same detection. *)
Definition same_detection (p : ResponsePlan) (c : AnnotationSuggester.Candidate) : Prop :=
  heuristic p = AnnotationSuggester.heuristic c
  /\ dataset_id p = AnnotationSuggester.dataset_id c
  /\ timestamp p = AnnotationSuggester.timestamp c
  /\ detection_goal p = AnnotationSuggester.cand_detection_goal c.

(** A response plan stands beside a candidate for the same detection, with
    the same counts and the same correlation context. *)
Definition in_step (ps : PlanState) (ss : AnnotationSuggester.ScanState) : Prop :=
  counts ps = AnnotationSuggester.counts ss
  /\ context ps = AnnotationSuggester.context ss
  /\ Forall2 same_detection (plans ps) (AnnotationSuggester.candidates ss).

End ResponseAgent.

(** ** Concrete builtins, worlds and inputs for the examples *)

Module Demo.
Import AnnotationSuggester.

(** The JSON text [{"id": "<ident>", "ip": "<ip>"}] and the object it
    denotes. *)
Definition agent_json (ident ip : string) : string :=
  String.concat ""
    ["{"; dq; "id"; dq; ": "; dq; ident; dq; ", "; dq; "ip"; dq; ": "; dq; ip; dq; "}"].

Definition agent_obj (ident ip : string) : value :=
  VDict [("id", VStr ident); ("ip", VStr ip)].

(** [json.loads] on the documents that the examples read; any other text
    is taken as malformed. *)
Definition demo_loads (text : string) : result value :=
  if String.eqb text (agent_json "a" "1.1.1.1") then Ok (agent_obj "a" "1.1.1.1")
  else if String.eqb text (agent_json "a" "2.2.2.2") then Ok (agent_obj "a" "2.2.2.2")
  else if String.eqb text (agent_json "a" "3.3.3.3") then Ok (agent_obj "a" "3.3.3.3")
  else Raise JSONDecodeError.

(** [json.dumps] on the values that the examples serialize. *)
Definition demo_dumps (v : value) : string :=
  match v with
  | VDict [] => "{}"
  | VList [] => "[]"
  | VNone => "null"
  | VBool b => if b then "true" else "false"
  | VInt z => str_of_int z
  | _ => "?"
  end.

(** [str.lower] on the texts of the examples, which are ASCII: the letters
    A to Z become a to z. *)
Definition lower_ascii (c : ascii) : ascii :=
  let n := nat_of_ascii c in
  if ((65 <=? n)%nat && (n <=? 90)%nat)%bool then ascii_of_nat (n + 32) else c.

Fixpoint demo_lower (s : string) : string :=
  match s with
  | EmptyString => EmptyString
  | String c rest => String (lower_ascii c) (demo_lower rest)
  end.

#[global] Instance demo_builtins : Builtins :=
  {| json_loads := demo_loads;
     json_dumps := demo_dumps;
     int_of_str := fun _ => None;
     float_of_str := fun _ => None;
     lower := demo_lower |}.

(** [json.loads] under the interpreter's limit on the digits of an integer
    literal (4300): a longer run of digits is refused by [int] with
    [ValueError]. *)
Definition all_digits (text : string) : bool :=
  forallb (fun c => (48 <=? nat_of_ascii c)%nat && (nat_of_ascii c <=? 57)%nat)
    (list_ascii_of_string text).

Definition limited_loads (text : string) : result value :=
  if all_digits text && (4300 <? String.length text)%nat then Raise ValueError
  else demo_loads text.

Definition limited_builtins : Builtins :=
  {| json_loads := limited_loads;
     json_dumps := demo_dumps;
     int_of_str := fun _ => None;
     float_of_str := fun _ => None;
     lower := demo_lower |}.

(** An integer literal of 4301 digits. *)
Definition long_integer : string :=
  string_of_list_ascii (repeat "1"%char (Z.to_nat 4301)).

(** A world that logs the calls made to it. *)
Definition Log : Type := list string.

Definition demo_ambient : PlannerRule.Ambient :=
  {| PlannerRule.uuid4_hex := "0123456789abcdef0123456789abcdef";
     PlannerRule.now_iso := "2024-01-01T00:00:00+00:00" |}.

#[global] Instance demo_runtime : Core.Runtime Log :=
  {| Core.draw_ambient := fun w => (demo_ambient, w ++ ["uuid4"; "now_iso"]) |}.

(** A planner that logs its call and answers [answer]. *)
Definition logging_planner (tag : string) (answer : result value) : Core.Planner Log :=
  {| Core.plan := fun _ _ w => (w ++ [tag], answer) |}.

(** A planner that raises on its first call and answers afterwards. *)
Definition transient_planner (tag : string) (answer : value) : Core.Planner Log :=
  {| Core.plan := fun _ _ w =>
       (w ++ [tag],
        if existsb (String.eqb tag) w then Ok answer
        else Raise (RuntimeError "transient")) |}.

Definition logging_scorer (tag : string) (answer : option value) : Core.Scorer Log :=
  {| Core.score := fun _ w => (w ++ [tag], Ok answer) |}.

Definition fresh_plan : value := VDict [("strategy", VStr "Fresh")].
Definition cached_plan : value := VDict [("strategy", VStr "Cached")].

(** A service whose cache already holds an entry under the key of the empty
    alert. *)
Definition warm_state : App.State (W := Log) :=
  {| App._services :=
       {| App.scorer := logging_scorer "scorer.score" (Some cached_plan);
          App.planner := logging_planner "planner.plan" (Ok fresh_plan);
          App.cache := Cache.set "{}" cached_plan (Cache.init 4) |};
     App.score_requests := 0;
     App.plan_requests := 0;
     App.world := [] |}.

Definition cold_state : App.State (W := Log) :=
  App.with_cache (Cache.init 4) warm_state.

(** An alert on a host of criticality 1 with a source IP, and an
    assessment of severity 80 and confidence 0.9. *)
Definition demo_alert : value :=
  VDict [("context", VDict [("assetCriticality", VInt 1)]);
         ("entities", VDict [("srcIp", VStr "10.0.0.5")])].

Definition demo_assessment : value :=
  VDict [("severity", VInt 80); ("confidence", VFloat 0.9%float)].


Definition demo_plan : PlannerRule.Plan :=
  Eval vm_compute in
    match PlannerRule._plan_from_rules demo_ambient demo_alert demo_assessment with
    | Ok p => p
    | Raise _ =>
        PlannerRule.mkPlan "" "" 0 "" [] [] [] (PlannerRule.mkTags VNone "")
    end.

(** An assessment whose confidence times 20 is not an integer. *)
Definition eighth_assessment : value :=
  VDict [("severity", VInt 10); ("confidence", VFloat 0.125%float)].

Definition eighth_plan : PlannerRule.Plan :=
  Eval vm_compute in
    match PlannerRule._plan_from_rules demo_ambient demo_alert eighth_assessment with
    | Ok p => p
    | Raise _ =>
        PlannerRule.mkPlan "" "" 0 "" [] [] [] (PlannerRule.mkTags VNone "")
    end.

(** The locals that the planner reads from [demo_alert] and
    [demo_assessment]. *)
Definition demo_locals : PlannerRule.Locals :=
  {| PlannerRule.severity := 80;
     PlannerRule.confidence := 0.9%float;
     PlannerRule.criticality := 1;
     PlannerRule.privileged := false;
     PlannerRule.src_ip := VStr "10.0.0.5";
     PlannerRule.username := VNone;
     PlannerRule.host_id := VNone |}.

Definition eighth_locals : PlannerRule.Locals :=
  {| PlannerRule.severity := 10;
     PlannerRule.confidence := 0.125%float;
     PlannerRule.criticality := 1;
     PlannerRule.privileged := false;
     PlannerRule.src_ip := VStr "10.0.0.5";
     PlannerRule.username := VNone;
     PlannerRule.host_id := VNone |}.

Definition ransomware_alert : value :=
  VDict [("ruleName", VStr "Ransomware detected on host X")].

(** A hybrid planner whose local planner fails once and whose remote
    planner is down. *)
Definition flaky_hybrid : PlannerHybrid.HybridPlanner Log :=
  {| PlannerHybrid.local_planner := transient_planner "local.plan" fresh_plan;
     PlannerHybrid.remote_planner :=
       Some (logging_planner "remote.plan" (Raise (RuntimeError "down"))) |}.

(** The login rule of the catalog. *)
Definition login_rule : Heuristic :=
  {| name := "login_geo_anomaly";
     matcher := Some "login_geo_matcher";
     match_fields := [];
     keywords := [];
     all_keywords := [];
     exclude_keywords := [];
     detection_goal := None;
     severity := Some "critical";
     example_completion := None |}.

(** Three records of the agent ["a"], from three addresses. *)
Definition login_row (ip : string) : Row := {[ "agent" := agent_json "a" ip ]}.

Definition three_logins : list Row :=
  [login_row "1.1.1.1"; login_row "2.2.2.2"; login_row "3.3.3.3"].

(** A hybrid scorer whose local model has no answer and whose Ollama model
    answers. *)
Definition deferring_hybrid : ScorerHybrid.HybridScorer Log :=
  {| ScorerHybrid.local_scorer := Some (logging_scorer "local.score" None);
     ScorerHybrid.ollama_scorer :=
       Some (logging_scorer "ollama.score" (Some cached_plan));
     ScorerHybrid.fallback := Core.RuleScorer |}.

(** A keyword rule, and a record that it matches. *)
Definition keyword_rule : AnnotationSuggester.Heuristic :=
  {| AnnotationSuggester.name := "failed_login";
     AnnotationSuggester.matcher := None;
     AnnotationSuggester.match_fields := ["description"; "full_log"];
     AnnotationSuggester.keywords := ["failed"];
     AnnotationSuggester.all_keywords := ["login"];
     AnnotationSuggester.exclude_keywords := ["test"];
     AnnotationSuggester.detection_goal := None;
     AnnotationSuggester.severity := None;
     AnnotationSuggester.example_completion := None |}.

Definition failed_login_row : AnnotationSuggester.Row :=
  {[ "full_log" := "Login FAILED for root" ]}.

(** What the scan without a cap finds in the three logins, and the first
    of its candidates. *)
Definition login_candidates : list AnnotationSuggester.Candidate :=
  Eval vm_compute in
    match AnnotationSuggester.scan_logs three_logins 0 with
    | Ok cands => cands
    | Raise _ => []
    end.
Definition login_candidate : AnnotationSuggester.Candidate :=
  Eval vm_compute in
    match login_candidates with
    | c :: _ => c
    | [] => AnnotationSuggester.mkCandidate None None "" "" None VNone "" None
    end.

(** A response agent with a cap of 1 and the default action map, and its
    plans for the three logins. *)
Definition demo_agent : ResponseAgent.Agent :=
  ResponseAgent.init 1 ResponseAgent.DEFAULT_RESPONSE_ACTIONS.

Definition login_plans : list ResponseAgent.ResponsePlan :=
  Eval vm_compute in
    match ResponseAgent.generate_actions demo_agent three_logins with
    | Ok found => found
    | Raise _ => []
    end.

End Demo.

(** * Properties *)

(** ** The bounded result cache *)

Section CacheLaws.
Import Cache.

Lemma evict_within (n : Z) (order : list string) (store : gmap string value) :
  Z.of_nat (length order) <= n -> evict n order store = (order, store).
Proof.
  destruct order as [|k rest]; [reflexivity|].
  intros Hlen. cbn [evict].
  destruct (Z.gtb_spec (Z.of_nat (length (k :: rest))) n) as [Hgt|_]; [lia|reflexivity].
Qed.

Lemma evict_one (n : Z) (oldest : string) (rest : list string)
  (store : gmap string value) :
  Z.of_nat (length rest) = n ->
  evict n (oldest :: rest) store = (rest, delete oldest store).
Proof.
  intros Hlen. cbn [evict].
  destruct (Z.gtb_spec (Z.of_nat (length (oldest :: rest))) n) as [_|Hle].
  - apply evict_within. lia.
  - cbn [length] in Hle. lia.
Qed.

Lemma set_disabled (k : string) (v : value) (c : LruCache) :
  max_size c <= 0 -> set k v c = c.
Proof.
  intros Hle. unfold set.
  destruct (Z.leb_spec (max_size c) 0); [reflexivity|lia].
Qed.

Lemma set_present (k : string) (v : value) (c : LruCache) :
  0 < max_size c -> is_Some (_store c !! k) ->
  set k v c = mkLruCache (max_size c) (<[k := v]> (_store c)) (_order c).
Proof.
  intros Hpos Hin. unfold set.
  destruct (Z.leb_spec (max_size c) 0); [lia|].
  rewrite bool_decide_eq_true_2; [reflexivity|assumption].
Qed.

Lemma set_absent (k : string) (v : value) (c : LruCache) :
  0 < max_size c -> _store c !! k = None ->
  set k v c =
    let '(order, store) :=
      evict (max_size c) (_order c ++ [k]) (<[k := v]> (_store c)) in
    mkLruCache (max_size c) store order.
Proof.
  intros Hpos Hnone. unfold set.
  destruct (Z.leb_spec (max_size c) 0); [lia|].
  rewrite bool_decide_eq_false_2; [reflexivity|].
  rewrite Hnone. intros [x Hx]. discriminate.
Qed.

Lemma set_room (k : string) (v : value) (c : LruCache) :
  _store c !! k = None ->
  Z.of_nat (length (_order c)) < max_size c ->
  set k v c = mkLruCache (max_size c) (<[k := v]> (_store c)) (_order c ++ [k]).
Proof.
  intros Hnone Hlen. rewrite set_absent by (assumption || lia).
  rewrite evict_within; [reflexivity|].
  rewrite length_app. cbn [length]. lia.
Qed.

Lemma set_full (k : string) (v : value) (c : LruCache) (oldest : string)
  (rest : list string) :
  _store c !! k = None ->
  _order c = oldest :: rest ->
  Z.of_nat (length (_order c)) = max_size c ->
  set k v c =
    mkLruCache (max_size c) (delete oldest (<[k := v]> (_store c))) (rest ++ [k]).
Proof.
  intros Hnone Horder Hlen. rewrite set_absent; [|rewrite Horder in Hlen; cbn in Hlen; lia|assumption].
  rewrite Horder. cbn [app]. rewrite evict_one; [reflexivity|].
  rewrite Horder in Hlen. rewrite length_app. cbn [length] in *. lia.
Qed.

Lemma wf_init (n : Z) : wf (init n).
Proof.
  unfold wf, init; cbn. split; [constructor|]. split; [|lia].
  intros k. rewrite lookup_empty. split.
  - intros [x Hx]. discriminate.
  - intros Hin. inversion Hin.
Qed.

Lemma wf_set (k : string) (v : value) (c : LruCache) : wf c -> wf (set k v c).
Proof.
  intros (Hnd & Hdom & Hlen).
  destruct (Z.leb_spec (max_size c) 0) as [Hoff|Hon].
  { rewrite set_disabled by assumption. repeat split; try assumption; apply Hdom. }
  destruct (_store c !! k) as [old|] eqn:Hk.
  - rewrite set_present by (rewrite ?Hk; eauto). repeat split; cbn; try assumption.
    + intros Hs. destruct (decide (k = k0)) as [<-|Hne].
      * apply Hdom. rewrite Hk. eauto.
      * rewrite lookup_insert_ne in Hs by assumption. apply Hdom, Hs.
    + intros Hin. destruct (decide (k = k0)) as [<-|Hne].
      * rewrite lookup_insert_eq. eauto.
      * rewrite lookup_insert_ne by assumption. apply Hdom, Hin.
  - assert (Hfresh : k ∉ _order c).
    { intros Hin. apply Hdom in Hin. rewrite Hk in Hin. destruct Hin; discriminate. }
    destruct (Z.ltb_spec (Z.of_nat (length (_order c))) (max_size c)) as [Hroom|Hfull].
    + rewrite set_room by assumption. repeat split; cbn.
      * apply NoDup_app. repeat split; [assumption| |apply NoDup_singleton].
        intros x Hx Hx'. apply list_elem_of_singleton in Hx'. subst. contradiction.
      * intros Hs. apply elem_of_app. destruct (decide (k = k0)) as [<-|Hne].
        -- right. apply list_elem_of_singleton. reflexivity.
        -- left. rewrite lookup_insert_ne in Hs by assumption. apply Hdom, Hs.
      * intros Hin. apply elem_of_app in Hin. destruct (decide (k = k0)) as [<-|Hne].
        -- rewrite lookup_insert_eq. eauto.
        -- rewrite lookup_insert_ne by assumption. destruct Hin as [Hin|Hin].
           ++ apply Hdom, Hin.
           ++ apply list_elem_of_singleton in Hin. congruence.
      * rewrite length_app. cbn [length]. lia.
    + destruct (_order c) as [|oldest rest] eqn:Horder; [cbn in Hfull; lia|].
      rewrite (set_full k v c oldest rest) by (try assumption; rewrite Horder; lia).
      apply NoDup_cons in Hnd as [Hold Hrest].
      assert (Hko : oldest <> k).
      { intros ->. apply Hfresh. left. }
      repeat split; cbn.
      * apply NoDup_app. repeat split; [assumption| |apply NoDup_singleton].
        intros x Hx Hx'. apply list_elem_of_singleton in Hx'. subst.
        apply Hfresh. right. assumption.
      * intros Hs. apply elem_of_app.
        destruct (decide (oldest = k0)) as [<-|Hne0].
        { rewrite lookup_delete_eq in Hs. destruct Hs; discriminate. }
        rewrite lookup_delete_ne in Hs by assumption.
        destruct (decide (k = k0)) as [<-|Hne].
        -- right. apply list_elem_of_singleton. reflexivity.
        -- left. rewrite lookup_insert_ne in Hs by assumption.
           apply Hdom in Hs. apply elem_of_cons in Hs as [->|Hs]; [congruence|assumption].
      * intros Hin. apply elem_of_app in Hin.
        assert (Hne0 : oldest <> k0).
        { intros <-. destruct Hin as [Hin|Hin]; [contradiction|].
          apply list_elem_of_singleton in Hin. congruence. }
        rewrite lookup_delete_ne by assumption.
        destruct (decide (k = k0)) as [<-|Hne].
        -- rewrite lookup_insert_eq. eauto.
        -- rewrite lookup_insert_ne by assumption. destruct Hin as [Hin|Hin].
           ++ apply Hdom. right. assumption.
           ++ apply list_elem_of_singleton in Hin. congruence.
      * rewrite length_app. cbn [length] in *. lia.
Qed.

Lemma reachable_wf (c : LruCache) : reachable c -> wf c.
Proof.
  induction 1 as [n|k v c _ IH]; [apply wf_init|apply wf_set, IH].
Qed.

Lemma set_all_snoc (kvs : list (string * value)) (k : string) (v : value)
  (c : LruCache) :
  set_all (kvs ++ [(k, v)]) c = set k v (set_all kvs c).
Proof. unfold set_all. rewrite fold_left_app. reflexivity. Qed.

(** While there is room, a fresh cache keeps every binding, in order. *)
Lemma set_all_room (n : Z) (kvs : list (string * value)) :
  NoDup kvs.*1 ->
  Z.of_nat (length kvs) <= n ->
  set_all kvs (init n) = mkLruCache n (list_to_map kvs) kvs.*1.
Proof.
  induction kvs as [|[k v] kvs IH] using rev_ind; intros Hnd Hlen.
  - unfold set_all, init; cbn. f_equal. lia.
  - rewrite fmap_app in Hnd. cbn in Hnd.
    apply NoDup_app in Hnd as (Hnd & Hfresh & _).
    rewrite length_app in Hlen. cbn [length] in Hlen.
    rewrite set_all_snoc, IH by (assumption || lia).
    assert (Hk : k ∉ kvs.*1).
    { intros Hin. apply (Hfresh k Hin). left. }
    rewrite set_room; cbn.
    + rewrite fmap_app. cbn. f_equal.
      symmetry. apply list_to_map_snoc. assumption.
    + apply not_elem_of_list_to_map_1. assumption.
    + rewrite length_fmap. lia.
Qed.

(** C3. After [c + 1] distinct keys are set in order in a fresh cache of
    capacity [c >= 1], [get] misses the first key and hits the last one.
    On every cache that the program can build: a [set] of a new key in a
    full cache removes the head of [_order] (the oldest inserted key) and
    nothing else, and puts the new key last; with room left it removes
    nothing; a [set] of a key that is present replaces its value and leaves
    [_order] as it is; and [get] returns the cache unchanged. *)
Theorem lru_cache_evicts_in_insertion_order
  (c : Z) (k1 klast : string) (v1 vlast : value) (mid : list (string * value))
  (ch : LruCache) (k : string) (v : value) :
  1 <= c ->
  Z.of_nat (length mid) = c - 1 ->
  NoDup (k1 :: mid.*1 ++ [klast]) ->
  reachable ch ->
  let filled := set_all ((k1, v1) :: mid ++ [(klast, vlast)]) (init c) in
  (get k1 filled).1 = None
  /\ (get klast filled).1 = Some vlast
  /\ _order filled = mid.*1 ++ [klast]
  /\ (forall oldest rest,
        _store ch !! k = None ->
        _order ch = oldest :: rest ->
        Z.of_nat (length (_order ch)) = max_size ch ->
        _order (set k v ch) = rest ++ [k]
        /\ _store (set k v ch) = delete oldest (<[k := v]> (_store ch)))
  /\ (_store ch !! k = None ->
      Z.of_nat (length (_order ch)) < max_size ch ->
      _order (set k v ch) = _order ch ++ [k]
      /\ _store (set k v ch) = <[k := v]> (_store ch))
  /\ (is_Some (_store ch !! k) ->
      0 < max_size ch ->
      _order (set k v ch) = _order ch
      /\ _store (set k v ch) = <[k := v]> (_store ch))
  /\ (forall key, (get key ch).2 = ch)
  /\ Z.of_nat (length (_order ch)) <= max_size ch.
Proof.
  intros Hc Hmid Hnd Hreach filled.
  assert (Hfilled : filled =
            mkLruCache c (delete k1 (<[klast := vlast]> (list_to_map ((k1, v1) :: mid))))
                       (mid.*1 ++ [klast])).
  { subst filled. rewrite app_comm_cons, set_all_snoc.
    apply NoDup_cons in Hnd as Hnd'. destruct Hnd' as [Hk1 Hrest].
    apply NoDup_app in Hrest as (Hmidnd & Hlast & _).
    rewrite set_all_room.
    - rewrite (set_full klast vlast _ k1 mid.*1); cbn [_store _order max_size].
      + reflexivity.
      + apply not_elem_of_list_to_map_1. cbn. intros Hin.
        apply elem_of_cons in Hin as [->|Hin].
        * apply Hk1. apply elem_of_app. right. left.
        * apply (Hlast klast Hin). left.
      + reflexivity.
      + rewrite length_fmap. cbn [length]. lia.
    - cbn. constructor; [|assumption].
      intros Hin. apply Hk1. apply elem_of_app. left. assumption.
    - cbn [length]. lia. }
  assert (Hne : k1 <> klast).
  { intros ->. apply NoDup_cons in Hnd as [Hk1 _]. apply Hk1.
    apply elem_of_app. right. left. }
  rewrite Hfilled. unfold get; cbn.
  split; [apply lookup_delete_eq|].
  split; [rewrite lookup_delete_ne by assumption; apply lookup_insert_eq|].
  split; [reflexivity|].
  split.
  { intros oldest rest Hnone Horder Hlen.
    rewrite (set_full k v ch oldest rest) by assumption. split; reflexivity. }
  split.
  { intros Hnone Hlen. rewrite set_room by assumption. split; reflexivity. }
  split.
  { intros Hin Hpos. rewrite set_present by assumption. split; reflexivity. }
  split; [reflexivity|].
  apply reachable_wf in Hreach. apply Hreach.
Qed.

End CacheLaws.

(** ** The rule planner *)

Section PlannerLaws.
Import PlannerRule.
Context {B : Builtins}.

(** What [_plan_from_rules] returns once its locals are read and the
    priority is computed. *)
Lemma plan_from_rules_inv (amb : Ambient) (alert assessment : value) (p : Plan) :
  _plan_from_rules amb alert assessment = Ok p ->
  exists loc,
    read_locals alert assessment = Ok loc
    /\ strategy p =
         select_strategy (severity loc) (confidence loc) (criticality loc) (privileged loc)
    /\ actions p =
         build_actions (strategy p) (src_ip loc) (username loc) (host_id loc)
    /\ rollbackActions p = _build_rollbacks (actions p)
    /\ _compute_priority (severity loc) (confidence loc) (criticality loc)
         = Ok (priority p).
Proof.
  unfold _plan_from_rules. intros Hp.
  destruct (read_locals alert assessment) as [loc|e] eqn:Hloc; [|discriminate].
  cbn in Hp.
  destruct (_compute_priority (severity loc) (confidence loc) (criticality loc))
    as [prio|e] eqn:Hprio; [|discriminate].
  cbn in Hp. injection Hp as <-. exists loc. cbn. auto.
Qed.

(** The planner returns a plan whenever its inputs coerce and the priority
    boost [int(confidence * 20)] is defined. *)
Lemma plan_from_rules_returns (amb : Ambient) (alert assessment : value)
  (loc : Locals) (boost : Z) :
  read_locals alert assessment = Ok loc ->
  int_of_float (confidence loc * 20)%float = Ok boost ->
  exists p, _plan_from_rules amb alert assessment = Ok p.
Proof.
  intros Hloc Hboost. unfold _plan_from_rules, _compute_priority.
  rewrite Hloc. cbn. rewrite Hboost. cbn. eexists. reflexivity.
Qed.

Lemma py_int_field (v : value) :
  int_field v = true -> exists z, py_int (py_or v (VInt 0)) = Ok z.
Proof.
  unfold py_or. destruct v; cbn; try discriminate; intros _.
  - eexists; reflexivity.
  - destruct b; cbn; eexists; reflexivity.
  - destruct (z =? 0); cbn; eexists; reflexivity.
Qed.



Lemma select_strategy_ladder (sev : Z) (conf : float) (crit : Z) (priv : bool) :
  ladder_spec sev conf crit priv (select_strategy sev conf crit priv).
Proof.
  unfold select_strategy.
  destruct (conf <? 0.3)%float eqn:H1.
  { apply ladder_observe. exact H1. }
  assert (N1 : ~ below conf 0.3) by (unfold below; congruence).
  destruct (((4 <=? crit) || priv) && (conf <? 0.85)%float) eqn:H2.
  { apply ladder_escalate; [exact N1|].
    apply andb_true_iff in H2 as [Ha Hb]. split; [|exact Hb].
    apply orb_true_iff in Ha as [Ha|Ha]; [left; lia|right; exact Ha]. }
  assert (N2 : ~ ((4 <= crit \/ priv = true) /\ below conf 0.85)).
  { intros [[Ha|Ha] Hb]; unfold below in Hb; rewrite Hb in H2.
    - destruct (Z.leb_spec 4 crit); [discriminate|lia].
    - rewrite Ha, orb_true_r in H2. discriminate. }
  destruct ((0.85 <=? conf)%float && (70 <=? sev)) eqn:H3.
  { apply ladder_collect; [exact N1|exact N2|].
    apply andb_true_iff in H3 as [Ha Hb]. split; [exact Ha|lia]. }
  assert (N3 : ~ (at_least conf 0.85 /\ 70 <= sev)).
  { intros [Ha Hb]. unfold at_least in Ha. rewrite Ha in H3.
    destruct (Z.leb_spec 70 sev); [discriminate|lia]. }
  destruct ((0.6 <=? conf)%float && (50 <=? sev)) eqn:H4.
  { apply ladder_contain; [exact N1|exact N2|exact N3|].
    apply andb_true_iff in H4 as [Ha Hb]. split; [exact Ha|lia]. }
  apply ladder_notify; [exact N1|exact N2|exact N3|].
  intros [Ha Hb]. unfold at_least in Ha. rewrite Ha in H4.
  destruct (Z.leb_spec 50 sev); [discriminate|lia].
Qed.


Lemma ladder_spec_strategies (sev : Z) (conf : float) (crit : Z) (priv : bool)
  (s : string) :
  ladder_spec sev conf crit priv s -> In s strategies.
Proof. intros L. destruct L; cbn; auto 6. Qed.

(** What the locals are, read off the alert and the assessment. *)
Lemma read_locals_fields (alert : value) (d : list (string * value)) (loc : Locals) :
  read_locals alert (VDict d) = Ok loc ->
  py_int (py_or (dict_get d "severity") (VInt 0)) = Ok (severity loc)
  /\ py_float (py_or (dict_get d "confidence") (VFloat 0%float)) = Ok (confidence loc)
  /\ py_int (py_or (get_path alert "context.assetCriticality") (VInt 0))
     = Ok (criticality loc)
  /\ privileged loc = truthy (get_path alert "context.privileged")
  /\ src_ip loc = get_path alert "entities.srcIp"
  /\ username loc = get_path alert "entities.username"
  /\ host_id loc
     = py_or (get_path alert "entities.hostId") (get_path alert "entities.hostname").
Proof.
  unfold read_locals, get_method, mbind, result_bind, bind.
  fold (dict_get d "severity"). fold (dict_get d "confidence").
  destruct (py_int (py_or (dict_get d "severity") (VInt 0))) as [sev|e];
    [|discriminate].
  destruct (py_float (py_or (dict_get d "confidence") (VFloat 0%float))) as [conf|e];
    [|discriminate].
  destruct (py_int (py_or (get_path alert "context.assetCriticality") (VInt 0)))
    as [crit|e]; [|discriminate].
  intros [= <-].
  cbn [severity confidence criticality privileged src_ip username host_id].
  repeat split; try reflexivity.
  unfold py_or. destruct (truthy (get_path alert "context.privileged")) eqn:Hp;
    [exact Hp|reflexivity].
Qed.



Lemma build_actions_last (chosen : string) (ip user host : value) :
  last (build_actions chosen ip user host)
  = Some (_action "OpenTicket" "Create a tracking ticket." []).
Proof.
  unfold build_actions.
  destruct (String.eqb chosen "ObserveMore"); [reflexivity|].
  destruct (String.eqb chosen "NotifyOnly"); [reflexivity|].
  destruct (String.eqb chosen "Contain" || String.eqb chosen "ContainAndCollect");
    [|reflexivity].
  destruct (truthy ip), (truthy user), (truthy host),
    (String.eqb chosen "ContainAndCollect"); reflexivity.
Qed.

(** C10. The actions of every plan that the planner returns are not empty
    and the last one is the [OpenTicket] action; the planner returns a plan
    whenever its inputs coerce and [int(confidence * 20)] is defined. *)
Theorem rule_plan_ends_with_open_ticket
  (amb : Ambient) (alert assessment : value) (loc : Locals) (boost : Z) :
  read_locals alert assessment = Ok loc ->
  int_of_float (confidence loc * 20)%float = Ok boost ->
  exists p a,
    _plan_from_rules amb alert assessment = Ok p
    /\ actions p <> []
    /\ last (actions p) = Some a
    /\ type a = "OpenTicket".
Proof.
  intros Hloc Hboost.
  destruct (plan_from_rules_returns amb _ _ _ _ Hloc Hboost) as [p Hp].
  exists p. pose proof Hp as Hinv.
  apply plan_from_rules_inv in Hinv as (loc' & _ & _ & Hacts & _).
  pose proof (build_actions_last (strategy p) (src_ip loc') (username loc') (host_id loc'))
    as Hlast.
  rewrite <- Hacts in Hlast.
  eexists. split; [exact Hp|]. split; [|split; [exact Hlast|reflexivity]].
  intros Hnil. rewrite Hnil in Hlast. discriminate.
Qed.

Lemma fold_left_app_flat_map {A C} (f : A -> list C) (l : list A) (acc : list C) :
  fold_left (fun done a => done ++ f a) l acc = acc ++ flat_map f l.
Proof.
  revert acc. induction l as [|a l IH]; intros acc; cbn.
  - rewrite app_nil_r. reflexivity.
  - rewrite IH, <- app_assoc. reflexivity.
Qed.

Lemma build_rollbacks_flat_map (acts : list Action) :
  _build_rollbacks acts = flat_map rollback_of (rev acts).
Proof.
  unfold _build_rollbacks.
  exact (fold_left_app_flat_map rollback_of (rev acts) []).
Qed.

Lemma rollback_of_spec (a : Action) :
  rollback_of a =
    match registered_inverse (type a) with
    | Some t => [_action t (String.append "Rollback for " (type a)) (parameters a)]
    | None => []
    end.
Proof.
  unfold rollback_of, registered_inverse, rollback_map, assoc.
  destruct (String.eqb "BlockIp" (type a)); [reflexivity|].
  destruct (String.eqb "IsolateHost" (type a)); [reflexivity|].
  destruct (String.eqb "DisableUser" (type a)); reflexivity.
Qed.

Lemma type_action (t why : string) (params : list (string * value)) :
  type (_action t why params) = t /\ parameters (_action t why params) = params.
Proof.
  unfold _action. destruct (default _ _) as [[r i] rv]. split; reflexivity.
Qed.

Lemma rollbacks_undo (l : list Action) :
  Forall2 undoes (flat_map rollback_of l) (List.filter has_inverse l).
Proof.
  induction l as [|a l IH]; cbn; [constructor|].
  rewrite rollback_of_spec. unfold has_inverse.
  destruct (registered_inverse (type a)) as [t|] eqn:Ht; cbn; [|exact IH].
  constructor; [|exact IH].
  unfold undoes. rewrite Ht.
  destruct (type_action t (String.append "Rollback for " (type a)) (parameters a))
    as [-> ->]. split; reflexivity.
Qed.

(** C6. The rollback actions of the plan that the planner returns undo,
    one for one and in reverse order, the forward actions whose type has a
    registered inverse: each has the inverse type and the parameters of its
    forward action.  The other forward actions add nothing, so there are
    never more rollback actions than forward actions.  The planner returns
    a plan whenever its inputs coerce and [int(confidence * 20)] is
    defined. *)
Theorem rule_plan_rollbacks_mirror_actions
  (amb : Ambient) (alert assessment : value) (loc : Locals) (boost : Z) :
  read_locals alert assessment = Ok loc ->
  int_of_float (confidence loc * 20)%float = Ok boost ->
  exists p,
    _plan_from_rules amb alert assessment = Ok p
    /\ Forall2 undoes (rollbackActions p) (rev (List.filter has_inverse (actions p)))
    /\ length (rollbackActions p) = length (List.filter has_inverse (actions p))
    /\ (length (rollbackActions p) <= length (actions p))%nat.
Proof.
  intros Hloc Hboost.
  destruct (plan_from_rules_returns amb _ _ _ _ Hloc Hboost) as [p Hp].
  exists p. split; [exact Hp|].
  apply plan_from_rules_inv in Hp as (loc' & _ & _ & _ & Hroll & _).
  assert (H2 : Forall2 undoes (rollbackActions p)
                 (rev (List.filter has_inverse (actions p)))).
  { rewrite Hroll, build_rollbacks_flat_map, <- List.filter_rev. apply rollbacks_undo. }
  split; [exact H2|].
  apply Forall2_length in H2. rewrite length_rev in H2.
  split; [exact H2|].
  rewrite H2. apply List.filter_length_le.
Qed.

Lemma trunc_sf_finite (s : bool) (m : positive) (e : Z) :
  exists t, trunc_sf (S754_finite s m e) = Ok t
            /\ truncates (Q_of_sf (S754_finite s m e)) t.
Proof.
  cbn [trunc_sf]. eexists. split; [reflexivity|].
  unfold truncates, Q_of_sf.
  destruct e as [|p|p].
  - rewrite Z.shiftl_0_r. destruct s; unfold Qle, Qlt; cbn; split; intros; lia.
  - rewrite Z.shiftl_mul_pow2 by lia.
    assert (0 < 2 ^ Z.pos p) by (apply Z.pow_pos_nonneg; lia).
    destruct s; unfold Qle, Qlt; cbn [Qnum Qden inject_Z Qplus Qminus Qopp];
      split; intros; nia.
  - change (Z.shiftl (Z.pos m) (Z.neg p)) with (Z.shiftr (Z.pos m) (Z.pos p)).
    rewrite Z.shiftr_div_pow2 by lia.
    assert (Hd : 0 < 2 ^ Z.pos p) by (apply Z.pow_pos_nonneg; lia).
    pose proof (Z.mul_div_le (Z.pos m) (2 ^ Z.pos p) Hd) as Hlo.
    pose proof (Z.mul_succ_div_gt (Z.pos m) (2 ^ Z.pos p) Hd) as Hhi.
    assert (Hq : 0 <= Z.pos m / 2 ^ Z.pos p) by (apply Z.div_pos; lia).
    destruct s; unfold Qle, Qlt; cbn [Qnum Qden inject_Z Qplus Qminus Qopp];
      rewrite ?Pos2Z.inj_pow; split; intros; split; try nia.
Qed.

Lemma truncates_zero : truncates 0 0.
Proof. unfold truncates, Qle, Qlt; cbn. lia. Qed.

(** C7, as the code has it.  The boost is [int(confidence * 20)]: the
    binary64 product rounded toward zero, not its exact value.  The priority
    is [severity + criticality * 10] plus that integer, clamped to
    [0, 100]; it is an integer in that interval.  When the product is a NaN
    or an infinity, [int] raises and there is no priority.  The plan that
    the planner returns, which it does whenever its inputs coerce and the
    boost is defined, carries the priority so computed. *)
Theorem rule_priority_truncates_boost
  (sev : Z) (conf : float) (crit : Z)
  (amb : Ambient) (alert assessment : value) (loc : Locals) (boost : Z) :
  read_locals alert assessment = Ok loc ->
  int_of_float (confidence loc * 20)%float = Ok boost ->
  match Prim2SF (conf * 20)%float with
  | S754_nan => _compute_priority sev conf crit = Raise ValueError
  | S754_infinity _ => _compute_priority sev conf crit = Raise OverflowError
  | x =>
      exists t, truncates (Q_of_sf x) t
        /\ _compute_priority sev conf crit = Ok (Z.min (Z.max (sev + crit * 10 + t) 0) 100)
  end
  /\ (forall prio, _compute_priority sev conf crit = Ok prio -> 0 <= prio <= 100)
  /\ exists p,
       _plan_from_rules amb alert assessment = Ok p
       /\ truncates (Q_of_sf (Prim2SF (confidence loc * 20)%float)) boost
       /\ priority p
          = Z.min (Z.max (severity loc + criticality loc * 10 + boost) 0) 100.
Proof.
  intros Hloc Hboost. split; [|split].
  - unfold _compute_priority, int_of_float.
    destruct (Prim2SF (conf * 20)%float) as [z|i| |s m e] eqn:Hx; try reflexivity.
    + exists 0. split; [apply truncates_zero|reflexivity].
    + destruct (trunc_sf_finite s m e) as (t & Ht & Htr).
      exists t. split; [exact Htr|]. rewrite Ht. reflexivity.
  - intros prio. unfold _compute_priority.
    destruct (int_of_float (conf * 20)%float) as [t|e]; cbn; [|discriminate].
    intros [= <-]. lia.
  - destruct (plan_from_rules_returns amb _ _ _ _ Hloc Hboost) as [p Hp].
    exists p. split; [exact Hp|].
    apply plan_from_rules_inv in Hp as (loc' & Hloc' & _ & _ & _ & Hprio).
    rewrite Hloc in Hloc'. injection Hloc' as <-.
    unfold _compute_priority in Hprio. rewrite Hboost in Hprio. cbn in Hprio.
    injection Hprio as Hprio.
    unfold int_of_float in Hboost.
    split; [|symmetry; exact Hprio].
    destruct (Prim2SF (confidence loc * 20)%float) as [z|i| |s m e];
      cbn in Hboost; try discriminate.
    + injection Hboost as <-. apply truncates_zero.
    + destruct (trunc_sf_finite s m e) as (t' & Ht' & Htr').
      cbn in Ht'. rewrite Ht' in Hboost. injection Hboost as <-. exact Htr'.
Qed.

End PlannerLaws.

(** ** The rule scorer *)

Section ScorerLaws.
Import ScorerRule.
Context {B : Builtins}.

Lemma prefix_spec (needle hay : string) :
  String.prefix needle hay = true <-> exists post, hay = String.append needle post.
Proof.
  revert hay. induction needle as [|c needle IH]; intros hay.
  - destruct hay; cbn; (split; [intros _; eexists; reflexivity|reflexivity]).
  - destruct hay as [|d hay]; cbn.
    + split; [discriminate|intros [post Hpost]; discriminate].
    + destruct (ascii_dec c d) as [->|Hne].
      * rewrite IH. split; intros [post Hpost]; exists post.
        -- rewrite Hpost. reflexivity.
        -- change (String d hay = String d (String.append needle post)) in Hpost.
           injection Hpost as Hpost. exact Hpost.
      * split; [discriminate|]. intros [post Hpost].
        change (String d hay = String c (String.append needle post)) in Hpost.
        injection Hpost as Hcd _. congruence.
Qed.

(** [contains] is the substring test. *)
Lemma contains_spec (needle hay : string) :
  contains needle hay = true
  <-> exists pre post, hay = String.append pre (String.append needle post).
Proof.
  induction hay as [|d hay IH].
  - cbn [contains]. destruct (String.prefix needle "") eqn:Hp.
    + apply prefix_spec in Hp as [post Hpost].
      split; [intros _; exists "", post; exact Hpost|reflexivity].
    + split; [discriminate|]. intros (pre & post & Heq).
      destruct pre; cbn in Heq; [|discriminate].
      assert (String.prefix needle "" = true) by (apply prefix_spec; eauto).
      congruence.
  - cbn [contains]. destruct (String.prefix needle (String d hay)) eqn:Hp.
    + apply prefix_spec in Hp as [post Hpost].
      split; [intros _; exists "", post; exact Hpost|reflexivity].
    + rewrite IH. split.
      * intros (pre & post & ->). exists (String d pre), post. reflexivity.
      * intros (pre & post & Heq). destruct pre as [|c pre]; cbn in Heq.
        -- assert (String.prefix needle (String d hay) = true)
             by (apply prefix_spec; eauto).
           congruence.
        -- injection Heq as _ ->. eauto.
Qed.

Lemma existsb_mentions (text : string) (keys : list string) :
  existsb (fun key => contains key text) keys = true <-> mentions text keys.
Proof. unfold mentions. apply existsb_exists. Qed.

Lemma not_mentions (text : string) (keys : list string) :
  ~ mentions text keys -> existsb (fun key => contains key text) keys = false.
Proof.
  intros Hno. destruct (existsb _ keys) eqn:He; [|reflexivity].
  apply existsb_mentions in He. contradiction.
Qed.

Lemma score_rules_text (alert : value) (text : string) :
  _lower_text [get_path alert "ruleName"; get_path alert "type"] = Ok text ->
  _score_rules alert = Ok (score_text alert text).
Proof.
  intros Htext. unfold _score_rules, mbind, result_bind. rewrite Htext.
  unfold score_text, bind.
  repeat match goal with |- context [if ?b then _ else _] => destruct b end;
    try reflexivity.
  destruct (clamp_base _); reflexivity.
Qed.

Lemma or_empty_textual (v : value) :
  textual v = true -> py_or v (VStr "") = VStr (or_text v).
Proof.
  unfold py_or, textual.
  destruct v as [|b|z|f|s|l|d]; cbn [truthy or_text]; intros Hv;
    try reflexivity;
    try (apply negb_true_iff in Hv; rewrite Hv; reflexivity).
  destruct (String.eqb_spec s "") as [->|_]; reflexivity.
Qed.

Lemma lower_text_textual (r t : value) :
  textual r = true -> textual t = true ->
  _lower_text [r; t]
  = Ok (lower (String.append (or_text r) (String.append " " (or_text t)))).
Proof.
  intros Hr Ht. unfold _lower_text. cbn [or_empty].
  rewrite (or_empty_textual r Hr), (or_empty_textual t Ht). reflexivity.
Qed.

(** C5, as the code has it.  For an alert whose [ruleName] and [type] are
    strings (or falsy), the scorer reads the text ["<ruleName> <type>"],
    lower-cased, an absent or falsy field counting as the empty string, and
    the first keyword family that occurs in it decides: malware 85 / 0.85,
    brute force 60 / 0.70, scan 55 / 0.65, benign 20 / 0.20.  With no
    keyword, an integer [severity] of the alert is used clamped to [0, 100]
    (a bool is returned as it is) with confidence 0.5; any other [severity]
    (absent, a float, a string) gives the default 40 / 0.5.  The evidence
    always has one tag, and the ransomware alert of the scenario, whose
    text lower-cases to ["ransomware detected on host x "], scores
    85 / 0.85. *)
Theorem rule_scorer_first_keyword_wins (alert : value) :
  textual (get_path alert "ruleName") = true ->
  textual (get_path alert "type") = true ->
  let text :=
    lower (String.append (or_text (get_path alert "ruleName"))
             (String.append " " (or_text (get_path alert "type")))) in
  _lower_text [get_path alert "ruleName"; get_path alert "type"] = Ok text
  /\ (mentions text ["ransomware"; "trojan"; "malware"] ->
      _score_rules alert
      = Ok (VInt 85, 0.85%float, "Likely malware activity.", ["keyword:malware"]))
  /\ (~ mentions text ["ransomware"; "trojan"; "malware"] ->
      mentions text ["brute force"; "bruteforce"; "failed login"] ->
      _score_rules alert
      = Ok (VInt 60, 0.7%float, "Possible brute-force attempts.", ["keyword:bruteforce"]))
  /\ (~ mentions text ["ransomware"; "trojan"; "malware"] ->
      ~ mentions text ["brute force"; "bruteforce"; "failed login"] ->
      mentions text ["port scan"; "scan"] ->
      _score_rules alert
      = Ok (VInt 55, 0.65%float, "Possible scanning activity.", ["keyword:scan"]))
  /\ (~ mentions text ["ransomware"; "trojan"; "malware"] ->
      ~ mentions text ["brute force"; "bruteforce"; "failed login"] ->
      ~ mentions text ["port scan"; "scan"] ->
      mentions text ["benign"] ->
      _score_rules alert
      = Ok (VInt 20, 0.2%float, "Likely benign noise.", ["keyword:benign"]))
  /\ (~ mentions text ["ransomware"; "trojan"; "malware"] ->
      ~ mentions text ["brute force"; "bruteforce"; "failed login"] ->
      ~ mentions text ["port scan"; "scan"] ->
      ~ mentions text ["benign"] ->
      (forall z, get_path alert "severity" = VInt z ->
         _score_rules alert
         = Ok (VInt (Z.min (Z.max z 0) 100), 0.5%float,
               "Severity-based assessment.", ["source:severity"]))
      /\ (forall b, get_path alert "severity" = VBool b ->
            _score_rules alert
            = Ok (VBool b, 0.5%float, "Severity-based assessment.", ["source:severity"]))
      /\ (as_num (get_path alert "severity") = None
          \/ (exists f, get_path alert "severity" = VFloat f) ->
          _score_rules alert
          = Ok (VInt 40, 0.5%float, "Heuristic assessment.", ["source:default"])))
  /\ (forall sev conf hyp ev,
        _score_rules alert = Ok (sev, conf, hyp, ev) -> length ev = 1%nat)
  /\ (lower "Ransomware detected on host X " = "ransomware detected on host x " ->
      score (VDict [("ruleName", VStr "Ransomware detected on host X")])
      = Ok (VDict [("severity", VInt 85);
                   ("confidence", VFloat 0.85%float);
                   ("hypothesis", VStr "Likely malware activity.");
                   ("evidence", VList [VStr "keyword:malware"])])).
Proof.
  intros Hrule Htype text.
  pose proof (lower_text_textual _ _ Hrule Htype) as Htext. fold text in Htext.
  split; [exact Htext|].
  rewrite (score_rules_text alert text Htext). unfold score_text.
  split.
  { intros H1. apply existsb_mentions in H1. rewrite H1. reflexivity. }
  split.
  { intros N1 H2. apply not_mentions in N1. apply existsb_mentions in H2.
    rewrite N1, H2. reflexivity. }
  split.
  { intros N1 N2 H3. apply not_mentions in N1, N2. apply existsb_mentions in H3.
    cbn [existsb] in H3. rewrite orb_false_r in H3. rewrite N1, N2, H3. reflexivity. }
  split.
  { intros N1 N2 N3 H4. apply not_mentions in N1, N2, N3. apply existsb_mentions in H4.
    cbn [existsb] in N3, H4. rewrite orb_false_r in N3, H4.
    rewrite N1, N2, N3, H4. reflexivity. }
  split.
  { intros N1 N2 N3 N4. apply not_mentions in N1, N2, N3, N4.
    cbn [existsb] in N3, N4. rewrite orb_false_r in N3, N4.
    rewrite N1, N2, N3, N4.
    split; [|split].
    - intros z ->. reflexivity.
    - intros b ->. reflexivity.
    - intros [Hnum|[f ->]]; [|reflexivity].
      destruct (get_path alert "severity"); cbn in Hnum; try discriminate; reflexivity. }
  split.
  { intros sev conf hyp ev.
    repeat match goal with |- context [if ?b then _ else _] => destruct b end;
      try (intros [= <- <- <- <-]; reflexivity).
    destruct (clamp_base _); intros [= <- <- <- <-]; reflexivity. }
  intros Hlower. unfold score.
  rewrite (score_rules_text _ "ransomware detected on host x ").
  - reflexivity.
  - rewrite lower_text_textual by reflexivity.
    change (Ok (lower "Ransomware detected on host X ")
            = Ok "ransomware detected on host x ").
    rewrite Hlower. reflexivity.
Qed.

End ScorerLaws.

(** ** The hybrid planner *)

Section HybridLaws.
Import PlannerHybrid.
Context {W : Type}.

(** C8. The hybrid planner returns what the local planner returns when
    that call does not raise.  When it raises, the remote planner, if there
    is one, is called in the state that the failed call left, and its result
    is returned when it does not raise.  When the remote planner raises, or
    there is none, the local planner is called a second time, in the state
    reached so far, and the outcome of this call, a plan or an exception,
    is the outcome of the hybrid planner. *)
Theorem hybrid_planner_falls_back_in_order
  (self : HybridPlanner W) (alert assessment : value) (w : W) :
  match Core.plan (local_planner self) alert assessment w with
  | (w1, Ok p) => plan self alert assessment w = (w1, Ok p)
  | (w1, Raise _) =>
      match remote_planner self with
      | Some remote =>
          match Core.plan remote alert assessment w1 with
          | (w2, Ok p) => plan self alert assessment w = (w2, Ok p)
          | (w2, Raise _) =>
              plan self alert assessment w
              = Core.plan (local_planner self) alert assessment w2
              /\ forall w3 e,
                   Core.plan (local_planner self) alert assessment w2 = (w3, Raise e) ->
                   plan self alert assessment w = (w3, Raise e)
          end
      | None =>
          plan self alert assessment w
          = Core.plan (local_planner self) alert assessment w1
          /\ forall w3 e,
               Core.plan (local_planner self) alert assessment w1 = (w3, Raise e) ->
               plan self alert assessment w = (w3, Raise e)
      end
  end.
Proof.
  unfold plan, try_except.
  destruct (Core.plan (local_planner self) alert assessment w) as [w1 [p|e]];
    [reflexivity|].
  destruct (remote_planner self) as [remote|].
  - destruct (Core.plan remote alert assessment w1) as [w2 [p|e2]]; [reflexivity|].
    split; [reflexivity|]. intros w3 e3 ->. reflexivity.
  - split; [reflexivity|]. intros w3 e3 ->. reflexivity.
Qed.

End HybridLaws.

(** ** The annotation suggester *)

Section SuggesterLaws.
Import AnnotationSuggester.
Context {B : Builtins}.

(** C9, as the code has it.  [parse_json_field] gives the empty mapping for
    the empty string and for every string that [json.loads] rejects with
    [JSONDecodeError], and what [json.loads] returns otherwise.  It catches
    nothing else: it raises exactly when [json.loads] raises another
    exception on a non-empty string, and then it raises the same. *)
Theorem parse_json_field_catches_decode_errors (s : string) :
  parse_json_field "" = Ok (VDict [])
  /\ (json_loads s = Raise JSONDecodeError -> parse_json_field s = Ok (VDict []))
  /\ (forall v, s <> "" -> json_loads s = Ok v -> parse_json_field s = Ok v)
  /\ (forall e,
        parse_json_field s = Raise e
        <-> s <> "" /\ json_loads s = Raise e /\ e <> JSONDecodeError).
Proof.
  unfold parse_json_field. split; [reflexivity|]. split; [|split].
  - intros ->. destruct (String.eqb s ""); reflexivity.
  - intros v Hs ->. destruct (String.eqb_spec s ""); [contradiction|reflexivity].
  - intros e. destruct (String.eqb_spec s "") as [->|Hs].
    + split; [discriminate|]. intros [Hne _]. contradiction.
    + destruct (json_loads s) as [v|e'].
      * split; [discriminate|]. intros (_ & Hr & _). discriminate Hr.
      * split.
        -- destruct e'; intros [= <-]; repeat split; try assumption; discriminate.
        -- intros (_ & [= ->] & Hne). destruct e; try reflexivity. contradiction.
Qed.

Lemma scan_heuristic_capped (limit : Z) (row : Row) (rule : value)
  (heur : Heuristic) (st : ScanState) :
  0 < limit -> limit <= count_of st (name heur) ->
  scan_heuristic limit row rule heur st = (st, Ok tt).
Proof.
  intros Hpos Hcap. unfold scan_heuristic, bindM, get_state, ret.
  destruct (Z.ltb_spec 0 limit); [|lia].
  destruct (Z.leb_spec limit (count_of st (name heur))); [|lia].
  reflexivity.
Qed.

Lemma scan_heuristic_open (limit : Z) (row : Row) (rule : value)
  (heur : Heuristic) (st : ScanState) :
  ~ (0 < limit /\ limit <= count_of st (name heur)) ->
  context (scan_heuristic limit row rule heur st).1
  = (match_heuristic row rule heur (context st)).1.
Proof.
  intros Hopen. unfold scan_heuristic, bindM, get_state, ret, on_context, lift, emit.
  destruct ((0 <? limit) && (limit <=? count_of st (name heur))) eqn:Hcap.
  { apply andb_true_iff in Hcap as [H1 H2]. exfalso. apply Hopen. lia. }
  destruct (match_heuristic row rule heur (context st)) as [ctx [[|]|e]]; cbn;
    [|reflexivity|reflexivity].
  destruct (build_candidate row heur rule); reflexivity.
Qed.

Lemma for_each_unchanged {S A} (xs : list A) (body : A -> M S unit) (s : S) :
  (forall x, In x xs -> body x s = (s, Ok tt)) ->
  for_each xs body s = (s, Ok tt).
Proof.
  induction xs as [|x xs IH]; intros Hbody; cbn; [reflexivity|].
  unfold bindM. rewrite (Hbody x) by (left; reflexivity).
  apply IH. intros y Hy. apply Hbody. right. exact Hy.
Qed.

(** When every rule of the catalog has reached the cap, the records that
    follow leave the scan state as it is. *)
Lemma scan_rows_all_capped (catalog : list Heuristic) (limit : Z)
  (rows : list Row) (st : ScanState) :
  0 < limit ->
  (forall heur, In heur catalog -> limit <= count_of st (name heur)) ->
  (forall row, In row rows -> is_ok (parse_json_field (row_text row "rule")) = true) ->
  scan_rows catalog limit rows st = (st, Ok tt).
Proof.
  intros Hpos Hcap Hparse. unfold scan_rows.
  apply for_each_unchanged. intros row Hrow.
  unfold bindM, lift. specialize (Hparse row Hrow).
  destruct (parse_json_field (row_text row "rule")) as [rule|e]; [|discriminate].
  apply for_each_unchanged. intros heur Hheur.
  apply scan_heuristic_capped; [exact Hpos|apply Hcap, Hheur].
Qed.

Lemma vdict_lookup_set (h : list (value * value)) (ident : string) (ip : value) :
  vdict_lookup (vdict_set h (VStr ident) ip) (VStr ident) = Some ip.
Proof.
  induction h as [|[k old] h IH]; cbn [vdict_set vdict_lookup].
  - cbn. rewrite String.eqb_refl. reflexivity.
  - destruct (same_key k (VStr ident)) eqn:Hk; cbn [vdict_lookup]; rewrite Hk; auto.
Qed.

(** What the login matcher records: after a record whose agent has the
    identity [ident] and a truthy [ip], the history binds [ident] to [ip]. *)
Lemma login_geo_matcher_records (row : Row) (rule : value) (log_text : string)
  (ctx : CorrelationContext) (d : list (string * value)) (ident : string) (ip : value) :
  parse_json_field (row_text row "agent") = Ok (VDict d) ->
  py_or (default VNone (dict_lookup d "id")) (default VNone (dict_lookup d "name"))
  = VStr ident ->
  ident <> "" ->
  default VNone (dict_lookup d "ip") = ip ->
  truthy ip = true ->
  exists h,
    (login_geo_matcher row rule log_text ctx).1 !! "login_history" = Some h
    /\ vdict_lookup h (VStr ident) = Some ip.
Proof.
  intros Hparse Hid Hne Hip Htruthy.
  unfold login_geo_matcher, bindM, lift, ret, raise, setdefault, history_set.
  rewrite Hparse. cbn [get_method]. rewrite Hid, Hip, Htruthy.
  assert (Hident : truthy (VStr ident) = true).
  { cbn. destruct (String.eqb_spec ident ""); [contradiction|reflexivity]. }
  rewrite Hident. cbn [negb orb hashable].
  destruct (ctx !! "login_history") as [h|] eqn:Hh.
  - destruct (truthy _ && negb _); cbn; rewrite lookup_insert_eq, Hh;
      (eexists; split; [reflexivity|apply vdict_lookup_set]).
  - destruct (truthy _ && negb _); cbn; rewrite lookup_insert_eq, lookup_insert_eq;
      (eexists; split; [reflexivity|apply vdict_lookup_set]).
Qed.

Lemma match_heuristic_login (row : Row) (rule description : value)
  (heur : Heuristic) (ctx : CorrelationContext) :
  matcher heur = Some "login_geo_matcher" ->
  rule_description rule = Ok description ->
  match_heuristic row rule heur ctx
  = login_geo_matcher row rule (row_text row "full_log") ctx.
Proof.
  intros Hm Hd. unfold match_heuristic, bindM, lift. rewrite Hd, Hm. reflexivity.
Qed.

(** C1, as the code has it.  The cap test comes before the matcher call:
    once the count of a rule has reached a positive cap, a record leaves the
    whole scan state, the correlation context included, as it was.  Below
    the cap, or with no cap, the matcher runs and the context is the one it
    leaves. *)
Theorem capped_rule_skips_its_matcher (limit : Z) (row : Row) (rule : value)
  (heur : Heuristic) (st : ScanState) (rows : list Row) :
  (0 < limit /\ limit <= count_of st (name heur) ->
   scan_heuristic limit row rule heur st = (st, Ok tt)
   /\ ((forall r, In r rows -> is_ok (parse_json_field (row_text r "rule")) = true) ->
       scan_rows [heur] limit rows st = (st, Ok tt)))
  /\ (~ (0 < limit /\ limit <= count_of st (name heur)) ->
      context (scan_heuristic limit row rule heur st).1
      = (match_heuristic row rule heur (context st)).1
      /\ forall description d ident ip,
           matcher heur = Some "login_geo_matcher" ->
           rule_description rule = Ok description ->
           parse_json_field (row_text row "agent") = Ok (VDict d) ->
           py_or (default VNone (dict_lookup d "id"))
                 (default VNone (dict_lookup d "name")) = VStr ident ->
           ident <> "" ->
           default VNone (dict_lookup d "ip") = ip ->
           truthy ip = true ->
           exists h,
             context (scan_heuristic limit row rule heur st).1 !! "login_history"
             = Some h
             /\ vdict_lookup h (VStr ident) = Some ip).
Proof.
  split.
  - intros [Hpos Hcap]. split; [apply scan_heuristic_capped; assumption|].
    intros Hparse. apply scan_rows_all_capped; [exact Hpos| |exact Hparse].
    intros h [<-|[]]. exact Hcap.
  - intros Hopen. pose proof (scan_heuristic_open limit row rule heur st Hopen) as Hctx.
    split; [exact Hctx|].
    intros description d ident ip Hm Hd Hparse Hid Hne Hip Htruthy.
    rewrite Hctx, (match_heuristic_login row rule description heur _ Hm Hd).
    exact (login_geo_matcher_records row rule _ _ d ident ip Hparse Hid Hne Hip Htruthy).
Qed.

End SuggesterLaws.

(** ** The service handlers *)

Section AppLaws.
Import App.
Context {W : Type} `{Core.Runtime W} `{Builtins}.

(** C2, as the code has it.  The plan handler never reads or writes the
    cache: the cache after a plan request is the cache before it, and the
    response and the calls made do not depend on what the cache holds.
    Every request counts one plan request and calls the configured planner;
    if that raises, the rule planner is called and its outcome is the
    response.  Only the score handler is cache-checked: on a hit it returns
    the cached value and calls no scorer. *)
Theorem plan_request_bypasses_cache
  (payload : list (string * value)) (st : State) (other : Cache.LruCache) :
  let alert := py_or (dict_get payload "alert") (VDict []) in
  let assessment := py_or (dict_get payload "assessment") (VDict []) in
  cache (_services (plan payload st).1) = cache (_services st)
  /\ plan_requests (plan payload st).1 = plan_requests st + 1
  /\ (plan payload (with_cache other st)).2 = (plan payload st).2
  /\ world (plan payload (with_cache other st)).1 = world (plan payload st).1
  /\ match Core.plan (planner (_services st)) alert assessment (world st) with
     | (w1, Ok p) =>
         (plan payload st).2 = Ok (VDict [("plan", p)])
         /\ world (plan payload st).1 = w1
     | (w1, Raise _) =>
         match Core.plan Core.RulePlanner alert assessment w1 with
         | (w2, Ok p) =>
             (plan payload st).2 = Ok (VDict [("plan", p)])
             /\ world (plan payload st).1 = w2
         | (w2, Raise e) =>
             (plan payload st).2 = Raise e /\ world (plan payload st).1 = w2
         end
     end
  /\ (forall v,
        (Cache.get (_cache_key alert) (cache (_services st))).1 = Some v ->
        truthy v = true ->
        (score payload st).2 = Ok v /\ world (score payload st).1 = world st).
Proof.
  intros alert assessment.
  unfold plan, score, bindM, try_except, on_world, bump_plan_requests,
    bump_score_requests, get_state, ret, with_cache, cache_get, Cache.get.
  fold alert. fold assessment. cbn [_services world planner scorer cache
    plan_requests score_requests fst snd].
  destruct (Core.plan (planner (_services st)) alert assessment (world st))
    as [w1 [p|e]] eqn:Hfirst; cbn [fst snd _services world cache plan_requests].
  - do 4 (split; [reflexivity|]). split; [split; reflexivity|].
    intros v Hv Htruthy. cbn in Hv. rewrite Hv. cbn. rewrite Htruthy. cbn. auto.
  - destruct (Core.plan Core.RulePlanner alert assessment w1) as [w2 [p|e2]] eqn:Hsecond;
      cbn [fst snd _services world cache plan_requests];
      (do 4 (split; [reflexivity|])); (split; [split; reflexivity|]);
      intros v Hv Htruthy; cbn in Hv; rewrite Hv; cbn; rewrite Htruthy; cbn; auto.
Qed.

End AppLaws.

(** ** Instances and counterexamples *)

Section Examples.
Import Demo.

(** C3 at capacity 2 with the keys a, b, c. *)
Lemma lru_cache_three_keys_witness :
  let filled :=
    Cache.set_all [("a", VInt 1); ("b", VInt 2); ("c", VInt 3)] (Cache.init 2) in
  (Cache.get "a" filled).1 = None /\ (Cache.get "c" filled).1 = Some (VInt 3).
Proof.
  assert (Hnd : NoDup ("a" :: [("b", VInt 2)].*1 ++ ["c"])).
  { refine (bool_decide_unpack _ _). vm_compute. exact I. }
  destruct (lru_cache_evicts_in_insertion_order 2 "a" "c" (VInt 1) (VInt 3)
              [("b", VInt 2)] (Cache.init 2) "x" VNone
              ltac:(lia) eq_refl Hnd (Cache.reach_init 2)) as (H1 & H2 & _).
  split; [exact H1|exact H2].
Defined.



(** C5 on the ransomware alert of the scenario. *)
Lemma rule_scorer_ransomware_witness :
  ScorerRule._score_rules ransomware_alert
  = Ok (VInt 85, 0.85%float, "Likely malware activity.", ["keyword:malware"]).
Proof.
  destruct (rule_scorer_first_keyword_wins ransomware_alert eq_refl eq_refl)
    as (_ & Hmalware & _).
  apply Hmalware.
  exists "ransomware". split; [left; reflexivity|reflexivity].
Defined.

(** C5 fails as stated: an alert without keywords and with severity 150 is
    scored 100, not its own severity; a float severity is not used; and an
    alert whose [ruleName] is a number gets no score, the join raises. *)
Lemma rule_scorer_clamps_alert_severity :
  get_path (VDict [("severity", VInt 150)]) "severity" = VInt 150
  /\ ScorerRule._score_rules (VDict [("severity", VInt 150)])
     = Ok (VInt 100, 0.5%float, "Severity-based assessment.", ["source:severity"])
  /\ ~ (exists conf hyp ev,
          ScorerRule._score_rules (VDict [("severity", VInt 150)])
          = Ok (VInt 150, conf, hyp, ev))
  /\ ScorerRule._score_rules (VDict [("severity", VFloat 55.5%float)])
     = Ok (VInt 40, 0.5%float, "Heuristic assessment.", ["source:default"])
  /\ ScorerRule._score_rules (VDict [("ruleName", VInt 5)]) = Raise TypeError.
Proof.
  split; [reflexivity|]. split; [reflexivity|]. split.
  - intros (conf & hyp & ev & Habs). vm_compute in Habs. discriminate Habs.
  - split; reflexivity.
Qed.

(** C6 on [demo_alert]: the plan has one rollback, for the [BlockIp]
    action. *)
Lemma rule_plan_rollbacks_witness :
  exists p,
    PlannerRule._plan_from_rules demo_ambient demo_alert demo_assessment = Ok p
    /\ Forall2 PlannerRule.undoes (PlannerRule.rollbackActions p)
         (rev (List.filter PlannerRule.has_inverse (PlannerRule.actions p)))
    /\ length (PlannerRule.rollbackActions p)
       = length (List.filter PlannerRule.has_inverse (PlannerRule.actions p))
    /\ (length (PlannerRule.rollbackActions p) <= length (PlannerRule.actions p))%nat.
Proof.
  exact (rule_plan_rollbacks_mirror_actions demo_ambient demo_alert demo_assessment
           demo_locals 18 eq_refl eq_refl).
Defined.

(** C10 on [demo_alert]. *)
Lemma rule_plan_open_ticket_witness :
  exists p a,
    PlannerRule._plan_from_rules demo_ambient demo_alert demo_assessment = Ok p
    /\ PlannerRule.actions p <> []
    /\ last (PlannerRule.actions p) = Some a
    /\ PlannerRule.type a = "OpenTicket".
Proof.
  exact (rule_plan_ends_with_open_ticket demo_ambient demo_alert demo_assessment
           demo_locals 18 eq_refl eq_refl).
Defined.

(** C7 on severity 10, confidence 0.125, criticality 1: the priority 22. *)
Lemma rule_priority_witness :
  exists p,
    PlannerRule._plan_from_rules demo_ambient demo_alert eighth_assessment = Ok p
    /\ PlannerRule.priority p = 22.
Proof.
  destruct (rule_priority_truncates_boost 10 0.125%float 1 demo_ambient demo_alert
              eighth_assessment eighth_locals 2 eq_refl eq_refl)
    as (_ & _ & p & Hp & _ & Hprio).
  exists p. split; [exact Hp|exact Hprio].
Defined.

(** C7 fails as stated: with confidence 0.125 the exact value is 22.5, and
    the priority of the plan is 22. *)
Lemma rule_priority_is_not_the_exact_value :
  PlannerRule._plan_from_rules demo_ambient demo_alert eighth_assessment = Ok eighth_plan
  /\ PlannerRule.priority eighth_plan = 22
  /\ (PlannerRule.priority_exact 10 0.125%float 1 == 45 # 2)%Q
  /\ ~ (inject_Z (PlannerRule.priority eighth_plan)
        == PlannerRule.priority_exact 10 0.125%float 1)%Q.
Proof.
  split; [reflexivity|]. split; [reflexivity|]. split.
  - vm_compute. reflexivity.
  - intros Habs. vm_compute in Habs. discriminate.
Qed.

(** C8 on a local planner that fails once and a remote planner that is
    down: local, remote, local again. *)
Lemma hybrid_retries_local_witness :
  PlannerHybrid.plan flaky_hybrid demo_alert demo_assessment []
  = (["local.plan"; "remote.plan"; "local.plan"], Ok fresh_plan).
Proof.
  pose proof (hybrid_planner_falls_back_in_order flaky_hybrid demo_alert
                demo_assessment []) as Horder.
  cbn in Horder. destruct Horder as [Hplan _]. exact Hplan.
Defined.

(** C9 on a text that is not JSON. *)
Lemma parse_json_field_witness :
  AnnotationSuggester.parse_json_field "not json" = Ok (VDict []).
Proof.
  destruct (parse_json_field_catches_decode_errors "not json") as (_ & Hbad & _).
  apply Hbad. reflexivity.
Defined.

(** C9 fails as stated: an integer literal of 4301 digits is a string that
    [json.loads] refuses with [ValueError], which [parse_json_field] does not
    catch. *)
Lemma parse_json_field_raises_on_long_integer :
  String.length long_integer = 4301%nat
  /\ all_digits long_integer = true
  /\ @AnnotationSuggester.parse_json_field limited_builtins long_integer
     = Raise ValueError
  /\ ~ (exists v,
          @AnnotationSuggester.parse_json_field limited_builtins long_integer = Ok v).
Proof.
  assert (Hraise : @AnnotationSuggester.parse_json_field limited_builtins long_integer
                   = Raise ValueError) by (vm_compute; reflexivity).
  split; [vm_compute; reflexivity|]. split; [vm_compute; reflexivity|].
  split; [exact Hraise|]. intros [v Hv]. rewrite Hraise in Hv. discriminate Hv.
Qed.

(** C1 fails as stated: with a cap of 1 the login history stops at the
    second address; without a cap it records the third. *)
Lemma cap_freezes_login_history :
  AnnotationSuggester.context
    (AnnotationSuggester.scan_rows AnnotationSuggester.HEURISTICS 1 three_logins
       AnnotationSuggester.scan_start).1 !! "login_history"
  = Some [(VStr "a", VStr "2.2.2.2")]
  /\ AnnotationSuggester.context
       (AnnotationSuggester.scan_rows AnnotationSuggester.HEURISTICS 0 three_logins
          AnnotationSuggester.scan_start).1 !! "login_history"
     = Some [(VStr "a", VStr "3.3.3.3")]
  /\ AnnotationSuggester.context
       (AnnotationSuggester.scan_rows AnnotationSuggester.HEURISTICS 1 three_logins
          AnnotationSuggester.scan_start).1
     <> AnnotationSuggester.context
          (AnnotationSuggester.scan_rows AnnotationSuggester.HEURISTICS 0 three_logins
             AnnotationSuggester.scan_start).1.
Proof.
  assert (H1 : AnnotationSuggester.context
                 (AnnotationSuggester.scan_rows AnnotationSuggester.HEURISTICS 1
                    three_logins AnnotationSuggester.scan_start).1 !! "login_history"
               = Some [(VStr "a", VStr "2.2.2.2")]) by (vm_compute; reflexivity).
  assert (H0 : AnnotationSuggester.context
                 (AnnotationSuggester.scan_rows AnnotationSuggester.HEURISTICS 0
                    three_logins AnnotationSuggester.scan_start).1 !! "login_history"
               = Some [(VStr "a", VStr "3.3.3.3")]) by (vm_compute; reflexivity).
  split; [exact H1|]. split; [exact H0|].
  intros Heq. rewrite Heq, H0 in H1. clear Heq H0. discriminate H1.
Qed.

(** C1, as the code has it, on the third login once the cap of 1 is
    reached. *)
Lemma capped_login_rule_witness :
  let st := (AnnotationSuggester.scan_rows [login_rule] 1
               [login_row "1.1.1.1"; login_row "2.2.2.2"]
               AnnotationSuggester.scan_start).1 in
  AnnotationSuggester.count_of st "login_geo_anomaly" = 1
  /\ AnnotationSuggester.scan_heuristic 1 (login_row "3.3.3.3") (VDict []) login_rule st
     = (st, Ok tt).
Proof.
  intros st.
  assert (Hcount : AnnotationSuggester.count_of st "login_geo_anomaly" = 1)
    by (vm_compute; reflexivity).
  split; [exact Hcount|].
  destruct (capped_rule_skips_its_matcher 1 (login_row "3.3.3.3") (VDict []) login_rule
              st []) as (Hcapped & _).
  assert (Hcap : 0 < 1 /\ 1 <= AnnotationSuggester.count_of st
                                  (AnnotationSuggester.name login_rule)).
  { split; [lia|].
    change (AnnotationSuggester.name login_rule) with "login_geo_anomaly".
    rewrite Hcount. lia. }
  destruct (Hcapped Hcap) as [Hskip _]. exact Hskip.
Defined.

(** C2 fails as stated: with a cache hit for the alert, the plan handler
    still calls the planner and answers the fresh plan; after a miss the
    cache holds no plan. *)
Lemma plan_request_ignores_cache_hit :
  (Cache.get (App._cache_key (VDict [])) (App.cache (App._services warm_state))).1
  = Some cached_plan
  /\ truthy cached_plan = true
  /\ (App.plan [] warm_state).2 = Ok (VDict [("plan", fresh_plan)])
  /\ App.world (App.plan [] warm_state).1 = ["planner.plan"]
  /\ App.world (App.plan [] warm_state).1 <> App.world warm_state
  /\ (App.score [] warm_state).2 = Ok cached_plan
  /\ App.world (App.score [] warm_state).1 = App.world warm_state
  /\ (Cache.get (App._cache_key (VDict []))
        (App.cache (App._services (App.plan [] cold_state).1))).1 = None.
Proof.
  repeat split; try (vm_compute; reflexivity).
  vm_compute. discriminate.
Qed.

End Examples.

(** * Further properties of the embedded code *)

(** ** [LruCache] *)

Section CacheMore.
Import Cache.

Lemma get_after_set (k : string) (v : value) (c : LruCache) :
  reachable c -> 0 < max_size c -> _store (set k v c) !! k = Some v.
Proof.
  intros Hreach Hpos. apply reachable_wf in Hreach as (Hnd & Hdom & Hlen).
  destruct (_store c !! k) as [old|] eqn:Hk.
  - rewrite set_present by (rewrite ?Hk; eauto). cbn. apply lookup_insert_eq.
  - destruct (Z.ltb_spec (Z.of_nat (length (_order c))) (max_size c)) as [Hroom|Hfull].
    + rewrite set_room by assumption. cbn. apply lookup_insert_eq.
    + destruct (_order c) as [|oldest rest] eqn:Horder; [cbn in Hfull; lia|].
      rewrite (set_full k v c oldest rest) by (try assumption; rewrite Horder; lia).
      cbn. rewrite lookup_delete_ne, lookup_insert_eq; [reflexivity|].
      intros ->. assert (Hin : is_Some (_store c !! k)) by (apply Hdom; left).
      rewrite Hk in Hin. destruct Hin; discriminate.
Qed.

Lemma other_after_set (k k' : string) (v : value) (c : LruCache) :
  reachable c -> k' <> k ->
  _store (set k v c) !! k' = _store c !! k'
  \/ (_store (set k v c) !! k' = None
      /\ head (_order c) = Some k'
      /\ _store c !! k = None
      /\ Z.of_nat (length (_order c)) = max_size c).
Proof.
  intros Hreach Hne. apply reachable_wf in Hreach as (Hnd & Hdom & Hlen).
  destruct (Z.leb_spec (max_size c) 0) as [Hoff|Hon].
  { left. rewrite set_disabled by assumption. reflexivity. }
  destruct (_store c !! k) as [old|] eqn:Hk.
  - left. rewrite set_present by (rewrite ?Hk; eauto). cbn.
    apply lookup_insert_ne. congruence.
  - destruct (Z.ltb_spec (Z.of_nat (length (_order c))) (max_size c)) as [Hroom|Hfull].
    + left. rewrite set_room by assumption. cbn. apply lookup_insert_ne. congruence.
    + destruct (_order c) as [|oldest rest] eqn:Horder; [cbn in Hfull; lia|].
      rewrite (set_full k v c oldest rest) by (try assumption; rewrite Horder; lia).
      cbn. destruct (decide (oldest = k')) as [->|Hold].
      * right. rewrite lookup_delete_eq.
        repeat split; try reflexivity; try assumption. cbn [length] in *. lia.
      * left. rewrite lookup_delete_ne by assumption. apply lookup_insert_ne. congruence.
Qed.

(** X1. On a cache that the program can build, with a positive capacity,
    a key reads back the value just set; and a [set] leaves every other key
    as it was, except that it may drop the oldest key, and that only when
    the key set is new and the cache is full. *)
Theorem cache_set_then_get (k k' : string) (v : value) (c : LruCache) :
  reachable c ->
  0 < max_size c ->
  k' <> k ->
  (get k (set k v c)).1 = Some v
  /\ ((get k' (set k v c)).1 = (get k' c).1
      \/ ((get k' (set k v c)).1 = None
          /\ head (_order c) = Some k'
          /\ (get k c).1 = None
          /\ Z.of_nat (length (_order c)) = max_size c)).
Proof.
  intros Hreach Hpos Hne. unfold get; cbn. split.
  - apply get_after_set; assumption.
  - apply other_after_set; assumption.
Qed.

Lemma set_all_disabled (n : Z) (kvs : list (string * value)) :
  n <= 0 -> set_all kvs (init n) = init n.
Proof.
  intros Hn. induction kvs as [|[k v] kvs IH] using rev_ind; [reflexivity|].
  rewrite set_all_snoc, IH. apply set_disabled. unfold init; cbn. lia.
Qed.

(** X2. A cache built with a capacity of zero or less stores nothing:
    after any sequence of [set] every [get] misses and [count] is 0. *)
Theorem cache_without_capacity_stores_nothing
  (n : Z) (kvs : list (string * value)) (k : string) :
  n <= 0 ->
  (get k (set_all kvs (init n))).1 = None
  /\ count (set_all kvs (init n)) = 0
  /\ size (set_all kvs (init n)) = 0.
Proof.
  intros Hn. rewrite set_all_disabled by assumption.
  unfold get, count, size, init; cbn. split; [apply lookup_empty|].
  split; [rewrite map_size_empty; reflexivity|lia].
Qed.

Lemma wf_store_size (c : LruCache) :
  wf c -> base.size (_store c) = length (_order c).
Proof.
  intros (Hnd & Hdom & _).
  rewrite <- size_dom, <- (size_list_to_set (C := gset string) (_order c) Hnd).
  f_equal. apply set_eq. intros x.
  rewrite elem_of_dom, elem_of_list_to_set. apply Hdom.
Qed.

(** X3. On every cache that the program can build, [count()] is the
    length of the eviction order and never exceeds [size()]; [size()] is the
    capacity given at construction, or 0 when that was negative, and no
    [set] changes it. *)
Theorem cache_count_within_size (n : Z) (kvs : list (string * value)) :
  let c := set_all kvs (init n) in
  count c = Z.of_nat (length (_order c))
  /\ 0 <= count c <= size c
  /\ size c = Z.max n 0.
Proof.
  intros c.
  assert (Hreach : reachable c).
  { subst c. induction kvs as [|[k v] kvs IH] using rev_ind; [apply reach_init|].
    rewrite set_all_snoc. apply reach_set, IH. }
  assert (Hsize : size c = Z.max n 0).
  { subst c. clear Hreach. induction kvs as [|[k v] kvs IH] using rev_ind; [reflexivity|].
    rewrite set_all_snoc. unfold size in *. rewrite <- IH.
    unfold set. destruct (max_size _ <=? 0); [reflexivity|].
    destruct (bool_decide _); [reflexivity|]. destruct (evict _ _ _); reflexivity. }
  pose proof (reachable_wf c Hreach) as Hwf.
  pose proof (wf_store_size c Hwf) as Hcount.
  destruct Hwf as (_ & _ & Hlen).
  unfold count, size in *. rewrite Hcount. split; [reflexivity|]. split; [lia|exact Hsize].
Qed.

End CacheMore.

(** ** [get_path] and [extract_json] *)

Section UtilsMore.
Context {B : Builtins}.

Lemma append_nil (s : string) : String.append "" s = s.
Proof. reflexivity. Qed.

Lemma append_cons (c : ascii) (a s : string) :
  String.append (String c a) s = String c (String.append a s).
Proof. reflexivity. Qed.

Lemma split_on_cons (sep : ascii) (s : string) :
  exists p ps, split_on sep s = p :: ps.
Proof.
  induction s as [|c s IH]; cbn; [eauto|].
  destruct (Ascii.eqb c sep); [eauto|].
  destruct IH as (p & ps & ->). eauto.
Qed.

Lemma split_on_app (sep : ascii) (a b : string) :
  split_on sep (String.append a (String sep b)) = split_on sep a ++ split_on sep b.
Proof.
  induction a as [|c a IH]; rewrite ?append_nil, ?append_cons; cbn -[Ascii.eqb].
  - rewrite Ascii.eqb_refl. reflexivity.
  - destruct (Ascii.eqb c sep); [rewrite IH; reflexivity|].
    rewrite IH. destruct (split_on_cons sep a) as (p & ps & ->). reflexivity.
Qed.

Lemma split_on_plain (sep : ascii) (s : string) :
  find_char sep s = None -> split_on sep s = [s].
Proof.
  induction s as [|c s IH]; cbn -[Ascii.eqb]; [reflexivity|].
  destruct (Ascii.eqb c sep); [discriminate|].
  destruct (find_char sep s); [discriminate|].
  intros _. rewrite IH by reflexivity. reflexivity.
Qed.

Lemma get_parts_none (parts : list string) : get_parts VNone parts = VNone.
Proof. destruct parts; reflexivity. Qed.

Lemma get_parts_app (obj : value) (p q : list string) :
  get_parts obj (p ++ q) = get_parts (get_parts obj p) q.
Proof.
  revert obj. induction p as [|part p IH]; intros obj; cbn; [reflexivity|].
  destruct obj; try (symmetry; apply get_parts_none).
  destruct (dict_lookup d part); [apply IH|symmetry; apply get_parts_none].
Qed.

(** X4. A dotted path is followed step by step: looking up ["a.b"] is
    looking up ["b"] in what ["a"] gives, whatever that is.  A path without a
    dot is a plain [dict.get], and a path into something that is not a dict
    gives [None] instead of raising. *)
Theorem get_path_follows_the_dots (obj : value) (a b : string) :
  get_path obj (String.append a (String "." b)) = get_path (get_path obj a) b
  /\ (forall d, find_char "." a = None -> get_path (VDict d) a = dict_get d a)
  /\ ((forall d, obj <> VDict d) -> get_path obj a = VNone).
Proof.
  unfold get_path. split; [|split].
  - rewrite split_on_app. apply get_parts_app.
  - intros d Hplain. rewrite (split_on_plain _ _ Hplain). cbn. unfold dict_get.
    destruct (dict_lookup d a); reflexivity.
  - intros Hobj. destruct (split_on_cons "." a) as (p & ps & ->).
    destruct obj; try reflexivity. exfalso. exact (Hobj d eq_refl).
Qed.

Lemma find_char_app (c : ascii) (a b : string) :
  find_char c a = None ->
  find_char c (String.append a b) = option_map (Nat.add (String.length a)) (find_char c b).
Proof.
  induction a as [|d a IH]; rewrite ?append_nil, ?append_cons; cbn -[Ascii.eqb].
  - intros _. destruct (find_char c b); reflexivity.
  - destruct (Ascii.eqb d c); [discriminate|].
    destruct (find_char c a); [discriminate|]. intros _.
    rewrite IH by reflexivity. destruct (find_char c b); reflexivity.
Qed.

Lemma rfind_char_app (c : ascii) (a b : string) :
  rfind_char c b = None ->
  rfind_char c (String.append a b) = rfind_char c a.
Proof.
  intros Hb. induction a as [|d a IH]; rewrite ?append_nil, ?append_cons;
    cbn -[Ascii.eqb]; [exact Hb|].
  rewrite IH. reflexivity.
Qed.

Lemma rfind_char_last (c : ascii) (a b : string) :
  rfind_char c b = None ->
  rfind_char c (String.append a (String c b)) = Some (String.length a).
Proof.
  intros Hb. induction a as [|d a IH]; rewrite ?append_nil, ?append_cons; cbn -[Ascii.eqb].
  - rewrite Hb, Ascii.eqb_refl. reflexivity.
  - rewrite IH. reflexivity.
Qed.

Lemma rfind_char_lt (c : ascii) (a : string) (j : nat) :
  rfind_char c a = Some j -> (j < String.length a)%nat.
Proof.
  revert j. induction a as [|d a IH]; cbn -[Ascii.eqb]; intros j;
    [discriminate|].
  destruct (rfind_char c a) as [i|].
  - intros [= <-]. specialize (IH i eq_refl). lia.
  - destruct (Ascii.eqb d c); [|discriminate]. intros [= <-]. lia.
Qed.

Lemma substring_skip (a s : string) (m : nat) :
  substring (String.length a) m (String.append a s) = substring 0 m s.
Proof.
  induction a as [|d a IH]; rewrite ?append_nil, ?append_cons; cbn; [reflexivity|].
  destruct m; exact IH.
Qed.

Lemma substring_prefix (a s : string) :
  substring 0 (String.length a) (String.append a s) = a.
Proof.
  induction a as [|d a IH]; rewrite ?append_nil, ?append_cons; cbn;
    [destruct s; reflexivity|].
  rewrite IH. reflexivity.
Qed.

Lemma length_append (a b : string) :
  String.length (String.append a b) = (String.length a + String.length b)%nat.
Proof.
  induction a as [|d a IH]; rewrite ?append_nil, ?append_cons; cbn; [reflexivity|].
  rewrite IH. reflexivity.
Qed.

(** X5. [extract_json] drops what surrounds the object: for a text made of
    a prefix without an opening brace, an object text from its opening to its
    closing brace, and a suffix without a closing brace, the answer is what
    [json.loads] makes of the object text alone, and [None] when that is
    malformed. *)
Theorem extract_json_drops_surrounding_text (pre body post : string) :
  find_char "{" pre = None ->
  rfind_char "}" post = None ->
  let object := String "{" (String.append body "}") in
  extract_json (String.append pre (String.append object post))
  = match json_loads object with
    | Ok parsed => Ok (Some parsed)
    | Raise JSONDecodeError => Ok None
    | Raise e => Raise e
    end.
Proof.
  intros Hpre Hpost object. unfold extract_json.
  set (text := String.append pre (String.append object post)).
  assert (Htext : String.eqb text "" = false).
  { subst text object. destruct pre; reflexivity. }
  rewrite Htext.
  assert (Hfind : find_char "{" text = Some (String.length pre)).
  { subst text object. rewrite find_char_app by assumption.
    rewrite append_cons. cbn. f_equal. lia. }
  assert (Hsplit : text = String.append (String.append pre (String "{" body))
                                        (String "}" post)).
  { subst text object. clear. induction pre as [|d pre IH];
      rewrite ?append_nil, ?append_cons.
    - f_equal. induction body as [|e body IHb]; rewrite ?append_nil, ?append_cons;
        [reflexivity|]. f_equal. exact IHb.
    - f_equal. exact IH. }
  assert (Hrfind : rfind_char "}" text
                   = Some (String.length (String.append pre (String "{" body)))).
  { rewrite Hsplit. apply rfind_char_last. assumption. }
  rewrite Hfind, Hrfind, length_append. cbn [String.length].
  destruct (Nat.leb_spec (String.length pre + S (String.length body)) (String.length pre));
    [lia|].
  assert (Hslice : slice (String.length pre)
                     (String.length pre + S (String.length body) + 1) text = object).
  { unfold slice. subst text.
    replace (String.length pre + S (String.length body) + 1 - String.length pre)%nat
      with (String.length object)
      by (subst object; cbn [String.length]; rewrite length_append; cbn; lia).
    rewrite substring_skip. apply substring_prefix. }
  rewrite Hslice. reflexivity.
Qed.

(** X6. [extract_json] answers [None], without calling [json.loads], for
    the empty text and for every text in which no closing brace comes after
    an opening one: in particular a text without braces. *)
Theorem extract_json_needs_an_object (a b : string) :
  find_char "{" a = None ->
  rfind_char "}" b = None ->
  extract_json (String.append a b) = Ok None
  /\ extract_json "" = Ok None.
Proof.
  intros Ha Hb. split; [|reflexivity]. unfold extract_json.
  destruct (String.eqb (String.append a b) ""); [reflexivity|].
  rewrite find_char_app, rfind_char_app by assumption.
  destruct (find_char "{" b) as [i|]; cbn; [|reflexivity].
  destruct (rfind_char "}" a) as [j|] eqn:Hj; [|reflexivity].
  apply rfind_char_lt in Hj.
  destruct (Nat.leb_spec j (String.length a + i)); [reflexivity|lia].
Qed.

End UtilsMore.

(** ** The rule scorer and the rule planner together *)

Section RuleMore.
Import ScorerRule PlannerRule.
Context {B : Builtins}.

(** The six results that [_score_rules] can return. *)
Lemma score_rules_cases (alert : value) (r : value * float * string * list string) :
  _score_rules alert = Ok r ->
  r = (VInt 85, 0.85%float, "Likely malware activity.", ["keyword:malware"])
  \/ r = (VInt 60, 0.7%float, "Possible brute-force attempts.", ["keyword:bruteforce"])
  \/ r = (VInt 55, 0.65%float, "Possible scanning activity.", ["keyword:scan"])
  \/ r = (VInt 20, 0.2%float, "Likely benign noise.", ["keyword:benign"])
  \/ (exists sev, clamp_base (get_path alert "severity") = Some sev
                  /\ r = (sev, 0.5%float, "Severity-based assessment.", ["source:severity"]))
  \/ r = (VInt 40, 0.5%float, "Heuristic assessment.", ["source:default"]).
Proof.
  unfold _score_rules, mbind, result_bind, bind.
  destruct (_lower_text _) as [text|e]; [|discriminate].
  repeat match goal with |- context [if ?b then _ else _] => destruct b end;
    try (intros [= <-]; tauto).
  destruct (clamp_base _) as [sev|] eqn:Hsev; intros [= <-]; [|tauto].
  do 4 right. left. exists sev. split; reflexivity.
Qed.

Lemma clamp_base_range (base sev : value) :
  clamp_base base = Some sev ->
  (exists z, sev = VInt z /\ 0 <= z <= 100) \/ (exists b, sev = VBool b).
Proof.
  destruct base; cbn; try discriminate; intros [= <-].
  - right. eauto.
  - left. eexists. split; [reflexivity|lia].
Qed.

(** X7. Whatever the alert, a score that the rule scorer returns has a
    severity that is an integer between 0 and 100 (or a bool, when the alert
    gave one as its severity) and a confidence among 0.85, 0.7, 0.65, 0.2
    and 0.5, so between 0 and 1; the evidence has one tag. *)
Theorem rule_score_within_bounds
  (alert sev : value) (conf : float) (hyp : string) (ev : list string) :
  _score_rules alert = Ok (sev, conf, hyp, ev) ->
  ((exists z, sev = VInt z /\ 0 <= z <= 100) \/ (exists b, sev = VBool b))
  /\ In conf [0.85; 0.7; 0.65; 0.2; 0.5]%float
  /\ (0 <=? conf)%float = true
  /\ (conf <=? 1)%float = true
  /\ score alert
     = Ok (VDict [("severity", sev); ("confidence", VFloat conf);
                  ("hypothesis", VStr hyp); ("evidence", VList (map VStr ev))]).
Proof.
  intros Hscore.
  assert (Hdict : score alert
     = Ok (VDict [("severity", sev); ("confidence", VFloat conf);
                  ("hypothesis", VStr hyp); ("evidence", VList (map VStr ev))])).
  { unfold score, mbind, result_bind, bind. rewrite Hscore. reflexivity. }
  apply score_rules_cases in Hscore
    as [H|[H|[H|[H|[(s' & Hs' & H)|H]]]]]; injection H as -> -> -> ->;
    (split; [|split; [cbn; tauto|split; [reflexivity|split; [reflexivity|exact Hdict]]]]);
    try (left; eexists; split; [reflexivity|lia]).
  exact (clamp_base_range _ _ Hs').
Qed.

Lemma compute_priority_range (sev : Z) (conf : float) (crit prio : Z) :
  _compute_priority sev conf crit = Ok prio -> 0 <= prio <= 100.
Proof.
  unfold _compute_priority, mbind, result_bind, bind.
  destruct (int_of_float _); [|discriminate]. intros [= <-]. lia.
Qed.

(** X8. The metadata that [_action] stamps agrees with the rollback table:
    for every action type, risk and expected impact lie between 0 and 100,
    and the action is marked reversible exactly when its type has a
    registered inverse.  An inverse action is never reversible and has no
    inverse of its own, so the rollback of a rollback list is empty. *)
Theorem action_metadata_matches_rollback_table
  (action_type why : string) (params : list (string * value)) (acts : list Action) :
  let a := _action action_type why params in
  0 <= risk a <= 100
  /\ 0 <= expectedImpact a <= 100
  /\ (reversible a = true <-> is_Some (registered_inverse action_type))
  /\ (forall inverse, registered_inverse action_type = Some inverse ->
        reversible (_action inverse why params) = false
        /\ registered_inverse inverse = None)
  /\ _build_rollbacks (_build_rollbacks acts) = [].
Proof.
  intros a. subst a.
  assert (Hcases : In action_type
            ["BlockIp"; "UnblockIp"; "IsolateHost"; "UnisolateHost"; "DisableUser";
             "EnableUser"; "KillProcess"; "QuarantineFile"; "OpenTicket"; "Notify";
             "CollectForensics"]
          \/ (assoc action_defaults action_type = None
              /\ registered_inverse action_type = None)).
  { unfold action_defaults, registered_inverse, assoc.
    repeat match goal with
      | |- context [String.eqb ?k action_type] =>
          destruct (String.eqb_spec k action_type) as [<-|]; [left; cbn; tauto|]
      end.
    right. split; reflexivity. }
  split; [|split; [|split; [|split]]].
  - destruct Hcases as [Hin|[Hnone _]].
    + cbn in Hin. repeat (destruct Hin as [<-|Hin]; [cbn; lia|]). contradiction.
    + unfold _action. rewrite Hnone. cbn. lia.
  - destruct Hcases as [Hin|[Hnone _]].
    + cbn in Hin. repeat (destruct Hin as [<-|Hin]; [cbn; lia|]). contradiction.
    + unfold _action. rewrite Hnone. cbn. lia.
  - destruct Hcases as [Hin|[Hnone Hinv]].
    + cbn in Hin.
      repeat (destruct Hin as [<-|Hin];
              [cbn; split; [intros; eauto || discriminate
                           |intros [x Hx]; reflexivity || discriminate]|]).
      contradiction.
    + unfold _action. rewrite Hnone, Hinv. cbn. split; [discriminate|].
      intros [x Hx]. discriminate.
  - intros inverse. unfold registered_inverse.
    repeat match goal with
      | |- context [String.eqb ?k action_type] => destruct (String.eqb k action_type)
      end; intros [= <-] || discriminate; split; reflexivity.
  - rewrite (build_rollbacks_flat_map (_build_rollbacks acts)).
    rewrite build_rollbacks_flat_map.
    induction (rev acts) as [|x xs IH]; [reflexivity|].
    cbn [flat_map]. rewrite rev_app_distr, flat_map_app, IH, app_nil_l.
    rewrite rollback_of_spec. unfold registered_inverse.
    repeat match goal with
      | |- context [String.eqb ?k (type x)] => destruct (String.eqb k (type x))
      end; reflexivity.
Qed.

(** The rollbacks of a plan, in terms of the locals that the planner
    read. *)
Lemma containment_of_locals
  (amb : Ambient) (alert assessment : value) (p : Plan) :
  _plan_from_rules amb alert assessment = Ok p ->
  exists loc,
    read_locals alert assessment = Ok loc
    /\ length (rollbackActions p)
       = (if String.eqb (strategy p) "Contain"
             || String.eqb (strategy p) "ContainAndCollect"
          then (Nat.b2n (truthy (src_ip loc)) + Nat.b2n (truthy (username loc))
                + Nat.b2n (truthy (host_id loc)))%nat
          else O)
    /\ (String.eqb (strategy p) "Contain" || String.eqb (strategy p) "ContainAndCollect"
        = false ->
        Forall (fun a => type a = "Notify" \/ type a = "OpenTicket") (actions p))
    /\ (rollbackActions p <> [] ->
        ~ below (confidence loc) 0.3
        /\ ~ ((4 <= criticality loc \/ privileged loc = true)
              /\ below (confidence loc) 0.85)
        /\ 50 <= severity loc
        /\ (at_least (confidence loc) 0.6 \/ at_least (confidence loc) 0.85)).
Proof.
  intros Hp. apply plan_from_rules_inv in Hp as (loc & Hloc & Hstrat & Hacts & Hroll & _).
  exists loc. split; [exact Hloc|].
  pose proof (select_strategy_ladder (severity loc) (confidence loc) (criticality loc)
                (privileged loc)) as Hladder.
  rewrite <- Hstrat in Hladder. rewrite Hroll, Hacts. clear Hstrat Hacts Hroll.
  remember (strategy p) as chosen eqn:Hchosen. clear Hchosen.
  destruct Hladder as [H1|H1 H2|H1 H2 H3|H1 H2 H3 H4|H1 H2 H3 H4];
    cbn [String.eqb Ascii.eqb Bool.eqb orb];
    try (split; [reflexivity|split; [intros _; repeat constructor; cbn; tauto|]];
         intros Hne; exfalso; apply Hne; reflexivity).
  - split; [|split; [discriminate|]].
    + unfold build_actions; cbn [String.eqb Ascii.eqb Bool.eqb orb].
      destruct (truthy (src_ip loc)), (truthy (username loc)), (truthy (host_id loc));
        reflexivity.
    + intros _. destruct H3 as [Ha Hb]. repeat split; try assumption; [lia|tauto].
  - split; [|split; [discriminate|]].
    + unfold build_actions; cbn [String.eqb Ascii.eqb Bool.eqb orb].
      destruct (truthy (src_ip loc)), (truthy (username loc)), (truthy (host_id loc));
        reflexivity.
    + intros _. destruct H4 as [Ha Hb]. repeat split; try assumption; tauto.
Qed.

(** X9. The planner never contains on a weak assessment.  The plan has one
    rollback action for each of [entities.srcIp], [entities.username] and
    [entities.hostId] (or, failing that, [entities.hostname]) that the alert
    holds with a truthy value when the strategy is [Contain] or
    [ContainAndCollect], and none otherwise, where every action is a [Notify]
    or an [OpenTicket].  So a plan with a rollback action was made from a
    severity, read as [int(assessment.get("severity") or 0)], of at least 50
    and a confidence, read as [float(assessment.get("confidence") or 0.0)],
    that passed the test of one of the two containing rules, and was not
    held back by the observe or the escalate rule. *)
Theorem containment_needs_a_confident_assessment
  (amb : Ambient) (alert assessment : value) (p : Plan) :
  _plan_from_rules amb alert assessment = Ok p ->
  exists d sev conf crit,
    assessment = VDict d
    /\ py_int (py_or (dict_get d "severity") (VInt 0)) = Ok sev
    /\ py_float (py_or (dict_get d "confidence") (VFloat 0%float)) = Ok conf
    /\ py_int (py_or (get_path alert "context.assetCriticality") (VInt 0)) = Ok crit
    /\ length (rollbackActions p)
       = (if String.eqb (strategy p) "Contain"
             || String.eqb (strategy p) "ContainAndCollect"
          then (Nat.b2n (truthy (get_path alert "entities.srcIp"))
                + Nat.b2n (truthy (get_path alert "entities.username"))
                + Nat.b2n (truthy (py_or (get_path alert "entities.hostId")
                                         (get_path alert "entities.hostname"))))%nat
          else O)
    /\ (String.eqb (strategy p) "Contain" || String.eqb (strategy p) "ContainAndCollect"
        = false ->
        Forall (fun a => type a = "Notify" \/ type a = "OpenTicket") (actions p))
    /\ (rollbackActions p <> [] ->
        ~ below conf 0.3
        /\ ~ ((4 <= crit \/ truthy (get_path alert "context.privileged") = true)
              /\ below conf 0.85)
        /\ 50 <= sev
        /\ (at_least conf 0.6 \/ at_least conf 0.85)).
Proof.
  intros Hp.
  destruct (containment_of_locals amb alert assessment p Hp)
    as (loc & Hloc & Hlen & Hquiet & Hroll).
  assert (Hdict : exists d, assessment = VDict d).
  { unfold read_locals, get_method in Hloc.
    destruct assessment; try discriminate Hloc. eauto. }
  destruct Hdict as [d ->].
  destruct (read_locals_fields alert d loc Hloc)
    as (Hs & Hc & Hk & Hpriv & Hip & Huser & Hhost).
  exists d, (severity loc), (confidence loc), (criticality loc).
  rewrite <- Hip, <- Huser, <- Hhost, <- Hpriv.
  repeat (split; [first [reflexivity | assumption]|]). exact Hroll.
Qed.

(** X10. For a given confidence, a higher severity or a higher asset
    criticality never lowers the priority: when the priority is defined for
    one pair it is defined for every pair that is no lower, it is monotone in
    both, and a priority of 100 stays 100. *)
Theorem priority_is_monotone (sev sev' : Z) (conf : float) (crit crit' prio : Z) :
  _compute_priority sev conf crit = Ok prio ->
  sev <= sev' ->
  crit <= crit' ->
  exists prio',
    _compute_priority sev' conf crit' = Ok prio'
    /\ prio <= prio'
    /\ (prio = 100 -> prio' = 100).
Proof.
  unfold _compute_priority, mbind, result_bind, bind.
  destruct (int_of_float (conf * 20)%float) as [boost|e]; [|discriminate].
  intros [= <-] Hsev Hcrit. eexists. split; [reflexivity|]. split; lia.
Qed.

Lemma read_locals_scored (alert sev : value) (conf : float) (rest : list (string * value))
  (z crit : Z) :
  py_int (py_or sev (VInt 0)) = Ok z ->
  truthy (VFloat conf) = true ->
  py_int (py_or (get_path alert "context.assetCriticality") (VInt 0)) = Ok crit ->
  exists loc,
    read_locals alert (VDict (("severity", sev) :: ("confidence", VFloat conf) :: rest))
    = Ok loc
    /\ confidence loc = conf.
Proof.
  intros Hsev Hconf Hcrit. unfold read_locals, mbind, result_bind, bind.
  cbn [get_method dict_lookup String.eqb Ascii.eqb Bool.eqb default from_option id].
  rewrite Hsev. unfold py_or at 1. rewrite Hconf. cbn [py_float].
  rewrite Hcrit. eexists. split; reflexivity.
Qed.

(** X11. The rule scorer and the rule planner compose: for every alert
    whose [ruleName] and [type] are strings (or absent) and whose asset
    criticality is an integer (or absent), the score of the rule scorer is an
    assessment on which the rule planner returns a plan, with one of the five
    strategies and a priority between 0 and 100. *)
Theorem rule_score_always_yields_a_plan (amb : Ambient) (alert : value) :
  textual (get_path alert "ruleName") = true ->
  textual (get_path alert "type") = true ->
  int_field (get_path alert "context.assetCriticality") = true ->
  exists assessment p,
    score alert = Ok assessment
    /\ _plan_from_rules amb alert assessment = Ok p
    /\ In (strategy p) strategies
    /\ 0 <= priority p <= 100.
Proof.
  intros Hrule Htype Hcrit.
  pose proof (lower_text_textual _ _ Hrule Htype) as Htext.
  set (text := lower _) in Htext.
  pose proof (score_rules_text alert text Htext) as Hscore.
  destruct (score_text alert text) as [[[sev conf] hyp] ev].
  destruct (py_int_field _ Hcrit) as [crit Hcritz].
  assert (Hdict : score alert
     = Ok (VDict [("severity", sev); ("confidence", VFloat conf);
                  ("hypothesis", VStr hyp); ("evidence", VList (map VStr ev))])).
  { unfold score, mbind, result_bind, bind. rewrite Hscore. reflexivity. }
  assert (Hplan : exists loc boost,
             read_locals alert
               (VDict [("severity", sev); ("confidence", VFloat conf);
                       ("hypothesis", VStr hyp); ("evidence", VList (map VStr ev))])
             = Ok loc
             /\ int_of_float (confidence loc * 20)%float = Ok boost).
  { apply score_rules_cases in Hscore
      as [H|[H|[H|[H|[(s' & Hs' & H)|H]]]]]; injection H as -> -> -> ->.
    - destruct (read_locals_scored alert (VInt 85) 0.85%float
                  [("hypothesis", VStr "Likely malware activity.");
                   ("evidence", VList (map VStr ["keyword:malware"]))]
                  85 crit eq_refl eq_refl Hcritz) as (loc & Hloc & Hc).
      exists loc, 17. split; [exact Hloc|]. rewrite Hc. reflexivity.
    - destruct (read_locals_scored alert (VInt 60) 0.7%float
                  [("hypothesis", VStr "Possible brute-force attempts.");
                   ("evidence", VList (map VStr ["keyword:bruteforce"]))]
                  60 crit eq_refl eq_refl Hcritz) as (loc & Hloc & Hc).
      exists loc, 14. split; [exact Hloc|]. rewrite Hc. reflexivity.
    - destruct (read_locals_scored alert (VInt 55) 0.65%float
                  [("hypothesis", VStr "Possible scanning activity.");
                   ("evidence", VList (map VStr ["keyword:scan"]))]
                  55 crit eq_refl eq_refl Hcritz) as (loc & Hloc & Hc).
      exists loc, 13. split; [exact Hloc|]. rewrite Hc. reflexivity.
    - destruct (read_locals_scored alert (VInt 20) 0.2%float
                  [("hypothesis", VStr "Likely benign noise.");
                   ("evidence", VList (map VStr ["keyword:benign"]))]
                  20 crit eq_refl eq_refl Hcritz) as (loc & Hloc & Hc).
      exists loc, 4. split; [exact Hloc|]. rewrite Hc. reflexivity.
    - assert (Hint : int_field s' = true).
      { destruct (clamp_base_range _ _ Hs') as [(z & -> & _)|(b & ->)]; reflexivity. }
      destruct (py_int_field _ Hint) as [z Hz].
      destruct (read_locals_scored alert s' 0.5%float
                  [("hypothesis", VStr "Severity-based assessment.");
                   ("evidence", VList (map VStr ["source:severity"]))]
                  z crit Hz eq_refl Hcritz) as (loc & Hloc & Hc).
      exists loc, 10. split; [exact Hloc|]. rewrite Hc. reflexivity.
    - destruct (read_locals_scored alert (VInt 40) 0.5%float
                  [("hypothesis", VStr "Heuristic assessment.");
                   ("evidence", VList (map VStr ["source:default"]))]
                  40 crit eq_refl eq_refl Hcritz) as (loc & Hloc & Hc).
      exists loc, 10. split; [exact Hloc|]. rewrite Hc. reflexivity. }
  destruct Hplan as (loc & boost & Hloc & Hboost).
  destruct (plan_from_rules_returns amb _ _ _ _ Hloc Hboost) as [p Hp].
  eexists. exists p. split; [exact Hdict|]. split; [exact Hp|].
  apply plan_from_rules_inv in Hp as (loc' & _ & Hstrat & _ & _ & Hprio).
  split.
  - rewrite Hstrat. eapply ladder_spec_strategies. apply select_strategy_ladder.
  - exact (compute_priority_range _ _ _ _ Hprio).
Qed.

End RuleMore.

(** ** The hybrid scorer and the score handlers *)

Section ScoreMore.
Import App.
Context {W : Type} `{Core.Runtime W} `{Builtins}.

Lemma usable_some (r : option value) :
  ScorerHybrid.usable r = true -> exists v, r = Some v /\ truthy v = true.
Proof. destruct r as [v|]; cbn; [eauto|discriminate]. Qed.

Lemma rule_scorer_usable (alert : value) (w : W) :
  ScorerRule.textual (get_path alert "ruleName") = true ->
  ScorerRule.textual (get_path alert "type") = true ->
  exists v, Core.score Core.RuleScorer alert w = (w, Ok (Some v)) /\ truthy v = true.
Proof.
  intros Hrule Htype.
  pose proof (lower_text_textual _ _ Hrule Htype) as Htext.
  set (text := lower _) in Htext.
  pose proof (score_rules_text alert text Htext) as Hscore.
  unfold Core.RuleScorer, Core.score, ScorerRule.score, mbind, result_bind, bind.
  rewrite Hscore. destruct (ScorerRule.score_text alert text) as [[[sev conf] hyp] ev].
  eexists. split; reflexivity.
Qed.

(** A source that is absent, or whose answer is not usable, hands over to
    the rest of the method in the state that it left. *)
Lemma try_source_passed (source : option (Core.Scorer W)) (alert : value)
  (rest : M W (option value)) (w w1 : W) :
  (source = None /\ w1 = w)
  \/ (exists s r,
        source = Some s
        /\ Core.score s alert w = (w1, Ok r)
        /\ ScorerHybrid.usable r = false) ->
  ScorerHybrid.try_source source alert rest w = rest w1.
Proof.
  unfold ScorerHybrid.try_source, bindM, ret.
  intros [[-> ->]|(s & r & -> & Hs & Hr)]; [reflexivity|].
  rewrite Hs, Hr. reflexivity.
Qed.

(** X12. The hybrid scorer asks its sources in order and stops at the first
    usable answer.  The local scorer, when there is one, is asked first: its
    usable answer is returned, and when it raises the call raises.  When
    there is no local scorer, or its answer is not usable, the Ollama
    scorer, when there is one, is asked next, in the state that the local
    scorer left: its usable answer is returned, and when it raises the call
    raises.  Otherwise the answer is the fallback's, asked last.  Nothing is
    caught, and no source is asked after one that answered or raised.  With
    the rule scorer as fallback, sources that do not raise, and an alert
    whose [ruleName] and [type] are strings (or absent), the call always
    returns a non-empty assessment, never [None]. *)
Theorem hybrid_scorer_stops_at_first_usable_answer
  (self : ScorerHybrid.HybridScorer W) (alert : value) (w : W) :
  (forall s w1 e,
     ScorerHybrid.local_scorer self = Some s ->
     Core.score s alert w = (w1, Raise e) ->
     ScorerHybrid.score self alert w = (w1, Raise e))
  /\ (forall s w1 r,
        ScorerHybrid.local_scorer self = Some s ->
        Core.score s alert w = (w1, Ok r) ->
        ScorerHybrid.usable r = true ->
        ScorerHybrid.score self alert w = (w1, Ok r))
  /\ (forall w1,
        (ScorerHybrid.local_scorer self = None /\ w1 = w)
        \/ (exists s r,
              ScorerHybrid.local_scorer self = Some s
              /\ Core.score s alert w = (w1, Ok r)
              /\ ScorerHybrid.usable r = false) ->
        (forall o w2 e,
           ScorerHybrid.ollama_scorer self = Some o ->
           Core.score o alert w1 = (w2, Raise e) ->
           ScorerHybrid.score self alert w = (w2, Raise e))
        /\ (forall o w2 r,
              ScorerHybrid.ollama_scorer self = Some o ->
              Core.score o alert w1 = (w2, Ok r) ->
              ScorerHybrid.usable r = true ->
              ScorerHybrid.score self alert w = (w2, Ok r))
        /\ (forall o w2 r,
              ScorerHybrid.ollama_scorer self = Some o ->
              Core.score o alert w1 = (w2, Ok r) ->
              ScorerHybrid.usable r = false ->
              ScorerHybrid.score self alert w
              = Core.score (ScorerHybrid.fallback self) alert w2)
        /\ (ScorerHybrid.ollama_scorer self = None ->
            ScorerHybrid.score self alert w
            = Core.score (ScorerHybrid.fallback self) alert w1))
  /\ (ScorerHybrid.fallback self = Core.RuleScorer ->
      ScorerRule.textual (get_path alert "ruleName") = true ->
      ScorerRule.textual (get_path alert "type") = true ->
      (forall s w',
         ScorerHybrid.local_scorer self = Some s
         \/ ScorerHybrid.ollama_scorer self = Some s ->
         exists w'' r, Core.score s alert w' = (w'', Ok r)) ->
      exists w' v,
        ScorerHybrid.score self alert w = (w', Ok (Some v)) /\ truthy v = true).
Proof.
  split; [|split; [|split]].
  - unfold ScorerHybrid.score, ScorerHybrid.try_source, bindM, ret.
    intros s w1 e -> Hs. rewrite Hs. reflexivity.
  - unfold ScorerHybrid.score, ScorerHybrid.try_source, bindM, ret.
    intros s w1 r -> Hs Hr. rewrite Hs, Hr. reflexivity.
  - intros w1 Hpassed. unfold ScorerHybrid.score.
    rewrite (try_source_passed _ alert _ w w1 Hpassed).
    unfold ScorerHybrid.try_source, bindM, ret.
    split; [|split; [|split]].
    + intros o w2 e -> Ho. rewrite Ho. reflexivity.
    + intros o w2 r -> Ho Hr. rewrite Ho, Hr. reflexivity.
    + intros o w2 r -> Ho Hr. rewrite Ho, Hr. reflexivity.
    + intros ->. reflexivity.
  - unfold ScorerHybrid.score, ScorerHybrid.try_source, bindM, ret.
    intros Hfb Hrule Htype Hsources. rewrite Hfb.
    assert (Hrest : forall w0, exists w' v,
               match ScorerHybrid.ollama_scorer self with
               | Some s =>
                   fun s0 => match Core.score s alert s0 with
                             | (s', Ok a) =>
                                 (if ScorerHybrid.usable a then fun s1 => (s1, Ok a)
                                  else Core.score Core.RuleScorer alert) s'
                             | (s', Raise e) => (s', Raise e)
                             end
               | None => Core.score Core.RuleScorer alert
               end w0 = (w', Ok (Some v)) /\ truthy v = true).
    { intros w0. destruct (ScorerHybrid.ollama_scorer self) as [s|] eqn:Hollama.
      - destruct (Hsources s w0 (or_intror eq_refl)) as (w1 & r & Hs). rewrite Hs.
        destruct (ScorerHybrid.usable r) eqn:Hr.
        + apply usable_some in Hr as (v & -> & Hv). eauto.
        + destruct (rule_scorer_usable alert w1 Hrule Htype) as (v & Hv & Ht). eauto.
      - destruct (rule_scorer_usable alert w0 Hrule Htype) as (v & Hv & Ht). eauto. }
    destruct (ScorerHybrid.local_scorer self) as [s|] eqn:Hlocal; [|apply Hrest].
    destruct (Hsources s w (or_introl eq_refl)) as (w1 & r & Hs). rewrite Hs.
    destruct (ScorerHybrid.usable r) eqn:Hr; [|apply Hrest].
    apply usable_some in Hr as (v & -> & Hv). eauto.
Qed.

Lemma score_is_score_one (payload : list (string * value)) :
  score (W := W) payload = score_one (py_or (dict_get payload "alert") (VDict [])).
Proof. reflexivity. Qed.

(** A hit: the cached value is the answer, and only the request counter
    changes. *)
Lemma score_one_hit (alert v : value) (st : State (W := W)) :
  Cache._store (cache (_services st)) !! _cache_key alert = Some v ->
  truthy v = true ->
  (score_one alert st).2 = Ok v
  /\ world (score_one alert st).1 = world st
  /\ cache (_services (score_one alert st).1) = cache (_services st)
  /\ score_requests (score_one alert st).1 = score_requests st + 1.
Proof.
  intros Hhit Htruthy. destruct st as [[sc pl ca] sr pr w]. cbn in Hhit.
  unfold score_one, bindM, bump_score_requests, cache_get, Cache.get, ret.
  cbn [_services cache scorer planner score_requests plan_requests world fst snd].
  rewrite Hhit. cbn [ScorerHybrid.usable]. rewrite Htruthy. cbn. auto.
Qed.

(** A miss that is answered: the answer is in the cache afterwards. *)
Lemma score_one_miss (alert r : value) (st : State (W := W)) :
  ScorerHybrid.usable (Cache._store (cache (_services st)) !! _cache_key alert) = false ->
  (score_one alert st).2 = Ok r ->
  cache (_services (score_one alert st).1)
  = Cache.set (_cache_key alert) r (cache (_services st)).
Proof.
  intros Hmiss. destruct st as [[sc pl ca] sr pr w]. cbn in Hmiss.
  unfold score_one, bindM, bump_score_requests, cache_get, cache_set, Cache.get, ret,
    get_state, on_world.
  cbn [_services cache scorer planner score_requests plan_requests world fst snd].
  rewrite Hmiss.
  cbn [_services cache scorer planner score_requests plan_requests world fst snd].
  destruct (Core.score sc alert w) as [w1 [[scored|]|e]];
    cbn [_services cache scorer planner score_requests plan_requests world fst snd].
  - intros [= <-]. reflexivity.
  - destruct (Core.score Core.RuleScorer alert w1) as [w2 [rule|e]];
      cbn [_services cache scorer planner score_requests plan_requests world fst snd].
    + intros [= <-]. reflexivity.
    + discriminate.
  - discriminate.
Qed.

(** X13. Scores are memoized.  On a cache with a positive capacity, once a
    score request has been answered with a non-empty result, the same
    request is answered again with the same result from the cache: no scorer
    is called, the cache is left as it is, and only the request counter
    moves. *)
Theorem score_request_is_memoized
  (payload : list (string * value)) (st : State (W := W)) (r : value) :
  Cache.reachable (cache (_services st)) ->
  0 < Cache.max_size (cache (_services st)) ->
  (score payload st).2 = Ok r ->
  truthy r = true ->
  let st1 := (score payload st).1 in
  (score payload st1).2 = Ok r
  /\ world (score payload st1).1 = world st1
  /\ cache (_services (score payload st1).1) = cache (_services st1)
  /\ score_requests (score payload st1).1 = score_requests st + 2.
Proof.
  intros Hreach Hpos Hfirst Htruthy st1. subst st1.
  rewrite score_is_score_one in *.
  set (alert := py_or (dict_get payload "alert") (VDict [])) in *.
  assert (Hcount : score_requests (score_one alert st).1 = score_requests st + 1).
  { clear. destruct st as [[sc pl ca] sr pr w].
    unfold score_one, bindM, bump_score_requests, cache_get, cache_set, Cache.get, ret,
      get_state, on_world.
    cbn [_services cache scorer planner score_requests plan_requests world fst snd].
    destruct (ScorerHybrid.usable _); [reflexivity|].
    cbn [_services cache scorer planner score_requests plan_requests world fst snd].
    destruct (Core.score sc alert w) as [w1 [[scored|]|e]];
      cbn [_services cache scorer planner score_requests plan_requests world fst snd];
      try reflexivity.
    destruct (Core.score Core.RuleScorer alert w1) as [w2 [rule|e]]; reflexivity. }
  assert (Hnow : Cache._store (cache (_services (score_one alert st).1))
                 !! _cache_key alert = Some r).
  { destruct (ScorerHybrid.usable
                (Cache._store (cache (_services st)) !! _cache_key alert)) eqn:Husable.
    - apply usable_some in Husable as (v & Hv & Hvt).
      destruct (score_one_hit alert v st Hv Hvt) as (Hres & _ & Hcache & _).
      rewrite Hcache. rewrite Hres in Hfirst. injection Hfirst as <-. exact Hv.
    - rewrite (score_one_miss alert r st Husable Hfirst).
      apply get_after_set; assumption. }
  destruct (score_one_hit alert r _ Hnow Htruthy) as (Hres & Hworld & Hcache & Hreq).
  repeat split; try assumption. rewrite Hreq, Hcount. lia.
Qed.

Lemma score_batch_loop_spec (items acc : list value) (st : State (W := W)) :
  (forall a, In a items -> py_or a (VDict []) = a) ->
  score_batch_loop items acc st
  = match score_each items st with
    | (st', Ok answers) => (st', Ok (acc ++ answers))
    | (st', Raise e) => (st', Raise e)
    end.
Proof.
  revert acc st. induction items as [|a items IH]; intros acc st Hitems.
  - cbn. unfold ret. rewrite app_nil_r. reflexivity.
  - cbn [score_batch_loop score_each]. unfold bindM.
    rewrite score_is_score_one.
    cbn [dict_get dict_lookup String.eqb Ascii.eqb Bool.eqb default from_option id].
    rewrite (Hitems a) by (left; reflexivity).
    destruct (score_one a st) as [st' [answer|e]]; [|reflexivity].
    rewrite IH by (intros b Hb; apply Hitems; right; exact Hb).
    destruct (score_each items st') as [st'' [answers|e]]; [|reflexivity].
    unfold ret. rewrite <- app_assoc. reflexivity.
Qed.

(** X14. A batch is the same as its alerts scored one by one.  For a list
    of alerts, each a truthy value or the empty object, the batch handler
    leaves the state that one score request per alert, in order, leaves, and
    answers their results in the same order; in particular an alert repeated
    in a batch is served from the cache the second time. *)
Theorem score_batch_is_score_repeated (alerts : list value) (st : State (W := W)) :
  (forall a, In a alerts -> py_or a (VDict []) = a) ->
  score_batch [("alerts", VList alerts)] st
  = match score_each alerts st with
    | (st', Ok answers) => (st', Ok (VDict [("results", VList answers)]))
    | (st', Raise e) => (st', Raise e)
    end.
Proof.
  intros Halerts. unfold score_batch, bindM at 1, lift.
  cbn [dict_get dict_lookup String.eqb Ascii.eqb Bool.eqb default from_option id].
  destruct alerts as [|a alerts].
  - reflexivity.
  - change (py_or (VList (a :: alerts)) (VList [])) with (VList (a :: alerts)).
    cbn [iter_items]. unfold bindM. rewrite score_batch_loop_spec by assumption.
    destruct (score_each (a :: alerts) st) as [st' [answers|e]]; reflexivity.
Qed.

(** X15. The plan handler answers every well-typed request.  Whenever the
    rule planner can read the alert and the assessment of the payload and
    [int(confidence * 20)] is defined, the handler returns a body with a
    plan, whatever planner is configured and whether or not it raises. *)
Theorem plan_request_always_answers
  (payload : list (string * value)) (st : State (W := W))
  (loc : PlannerRule.Locals) (boost : Z) :
  PlannerRule.read_locals (py_or (dict_get payload "alert") (VDict []))
    (py_or (dict_get payload "assessment") (VDict [])) = Ok loc ->
  int_of_float (PlannerRule.confidence loc * 20)%float = Ok boost ->
  exists p,
    (plan payload st).2 = Ok (VDict [("plan", p)])
    /\ plan_requests (plan payload st).1 = plan_requests st + 1.
Proof.
  intros Hloc Hboost.
  unfold plan, bindM, try_except, on_world, bump_plan_requests, get_state, ret.
  cbn [_services cache scorer planner score_requests plan_requests world fst snd].
  destruct (Core.plan (planner (_services st)) _ _ (world st)) as [w1 [p|e]].
  - exists p. split; reflexivity.
  - cbn [_services cache scorer planner score_requests plan_requests world fst snd].
    unfold Core.RulePlanner, Core.plan, PlannerRule.plan.
    destruct (Core.draw_ambient w1) as [amb w2].
    destruct (plan_from_rules_returns amb _ _ _ _ Hloc Hboost) as [rp Hrp].
    rewrite Hrp. eexists. split; reflexivity.
Qed.

End ScoreMore.

(** ** The annotation suggester *)

Section SuggesterMore.
Import AnnotationSuggester.
Context {B : Builtins}.

Lemma contains_any_occurs (text : string) (kws : list string) :
  text_contains_any (lower text) kws = true <-> exists kw, In kw kws /\ occurs kw text.
Proof.
  unfold text_contains_any, occurs. rewrite existsb_exists. reflexivity.
Qed.

Lemma contains_all_occurs (text : string) (kws : list string) :
  text_contains_all (lower text) kws = true <-> forall kw, In kw kws -> occurs kw text.
Proof.
  unfold text_contains_all, occurs. rewrite forallb_forall. reflexivity.
Qed.

Lemma guard_any (text : string) (kws : list string) :
  match kws with [] => false | _ => true end && text_contains_any text kws
  = text_contains_any text kws.
Proof. destruct kws; reflexivity. Qed.

Lemma guard_all (text : string) (kws : list string) :
  match kws with [] => false | _ => true end && negb (text_contains_all text kws)
  = negb (text_contains_all text kws).
Proof. destruct kws; reflexivity. Qed.

Lemma match_fields_loop_spec (row : Row) (dtext : string) (heur : Heuristic)
  (fields : list string) :
  exists b,
    match_fields_loop row (VStr dtext) heur fields = Ok b
    /\ (b = true <->
        exists field, In field fields /\ qualifies heur (field_text row dtext field)).
Proof.
  induction fields as [|field fields (b & Hb & Hiff)].
  - exists false. split; [reflexivity|]. split; [discriminate|]. intros (f & [] & _).
  - cbn [match_fields_loop].
    assert (Hlow : (if String.eqb field "rule" then VStr (row_text row "rule")
                    else if String.eqb field "description" then VStr dtext
                    else if String.eqb field "full_log" then VStr (row_text row "full_log")
                    else VStr (row_text row field))
                   = VStr (field_text row dtext field)).
    { unfold field_text. repeat destruct (String.eqb field _); reflexivity. }
    rewrite Hlow. unfold mbind, result_bind, bind. cbn [lower_method].
    rewrite !guard_any, guard_all.
    destruct (text_contains_any (lower (field_text row dtext field))
                (exclude_keywords heur)) eqn:Hex.
    { exists b. split; [exact Hb|]. rewrite Hiff. split.
      - intros (f & Hf & Hq). exists f. split; [right; exact Hf|exact Hq].
      - intros (f & [<-|Hf] & Hq); [|eauto].
        apply contains_any_occurs in Hex as (kw & Hkw & Hocc).
        destruct Hq as (_ & Hnone & _). exfalso. exact (Hnone kw Hkw Hocc). }
    cbn [negb andb].
    destruct (text_contains_all (lower (field_text row dtext field))
                (all_keywords heur)) eqn:Hall; cbn [negb].
    2:{ exists b. split; [exact Hb|]. rewrite Hiff. split.
        - intros (f & Hf & Hq). exists f. split; [right; exact Hf|exact Hq].
        - intros (f & [<-|Hf] & Hq); [|eauto].
          destruct Hq as (_ & _ & Hq). apply contains_all_occurs in Hq. congruence. }
    destruct (text_contains_any (lower (field_text row dtext field))
                (keywords heur)) eqn:Hany.
    + exists true. split; [reflexivity|]. split; [|reflexivity]. intros _.
      exists field. split; [left; reflexivity|]. split; [|split].
      * apply contains_any_occurs. exact Hany.
      * intros kw Hkw Hocc.
        assert (text_contains_any (lower (field_text row dtext field))
                  (exclude_keywords heur) = true)
          by (apply contains_any_occurs; eauto).
        congruence.
      * apply contains_all_occurs. exact Hall.
    + exists b. split; [exact Hb|]. rewrite Hiff. split.
      * intros (f & Hf & Hq). exists f. split; [right; exact Hf|exact Hq].
      * intros (f & [<-|Hf] & Hq); [|eauto].
        destruct Hq as (Hq & _). apply contains_any_occurs in Hq. congruence.
Qed.

(** X16. A keyword rule matches a record exactly when one of its fields
    qualifies: some keyword of the rule occurs in the field's text, no
    exclusion keyword does, and every all-of keyword does, where a keyword
    occurs in a text when [keyword.lower()] is part of the text lower-cased
    as the code does it, by [str.lower] applied twice.  Such a rule never
    raises on a record whose rule description is a string, and it leaves the
    correlation context as it was. *)
Theorem keyword_rule_matches_a_qualifying_field
  (row : Row) (rule : value) (dtext : string) (heur : Heuristic)
  (ctx : CorrelationContext) :
  matcher heur = None ->
  rule_description rule = Ok (VStr dtext) ->
  exists b,
    match_heuristic row rule heur ctx = (ctx, Ok b)
    /\ (b = true <->
        exists field,
          In field (match_fields heur) /\ qualifies heur (field_text row dtext field)).
Proof.
  intros Hm Hd. unfold match_heuristic, bindM, lift. rewrite Hd, Hm.
  destruct (match_fields_loop_spec row dtext heur (match_fields heur)) as (b & -> & Hiff).
  exists b. split; [reflexivity|exact Hiff].
Qed.

Lemma for_each_invariant {S A} (P : S -> Prop) (xs : list A)
  (body : A -> M S unit) (s : S) :
  (forall x s0, In x xs -> P s0 -> P (body x s0).1) ->
  P s -> P (for_each xs body s).1.
Proof.
  revert s. induction xs as [|x xs IH]; intros s Hbody Hs; cbn; [exact Hs|].
  unfold bindM. pose proof (Hbody x s (or_introl eq_refl) Hs) as Hx.
  destruct (body x s) as [s' [u|e]]; cbn in Hx; [|exact Hx].
  apply IH; [|exact Hx]. intros y s0 Hy. apply Hbody. right. exact Hy.
Qed.

(** What one step of the scan does to the candidates and the counts: it
    leaves them, or appends one candidate built from the row and the rule
    and counts it, which it does only below the cap. *)
Lemma scan_heuristic_step (limit : Z) (row : Row) (rule : value)
  (heur : Heuristic) (st : ScanState) :
  let st' := (scan_heuristic limit row rule heur st).1 in
  (candidates st' = candidates st /\ counts st' = counts st)
  \/ (exists c,
        build_candidate row heur rule = Ok c
        /\ candidates st' = candidates st ++ [c]
        /\ counts st' = <[name heur := count_of st (name heur) + 1]> (counts st)
        /\ (0 < limit -> count_of st (name heur) < limit)).
Proof.
  unfold scan_heuristic, bindM, get_state, ret, on_context, lift, emit.
  destruct ((0 <? limit) && (limit <=? count_of st (name heur))) eqn:Hcap;
    [left; split; reflexivity|].
  destruct (match_heuristic row rule heur (context st)) as [ctx [[|]|e]];
    cbn [fst snd candidates counts context]; try (left; split; reflexivity).
  destruct (build_candidate row heur rule) as [c|e] eqn:Hc;
    cbn [fst snd candidates counts context]; [|left; split; reflexivity].
  right. exists c. repeat split; try reflexivity.
  intros Hpos. apply andb_false_iff in Hcap as [Hcap|Hcap]; lia.
Qed.

Lemma build_candidate_fields (row : Row) (heur : Heuristic) (rule : value)
  (c : Candidate) :
  build_candidate row heur rule = Ok c ->
  heuristic c = name heur
  /\ cand_severity c = default "info" (severity heur)
  /\ cand_detection_goal c = detection_goal heur
  /\ cand_example_completion c = example_completion heur
  /\ dataset_id c = row !! "id"
  /\ timestamp c = row !! "timestamp"
  /\ log_excerpt c = take_str 200 (row_text row "full_log").
Proof.
  unfold build_candidate, mbind, result_bind, bind.
  destruct (rule_description rule); [|discriminate].
  intros [= <-]. cbn. repeat split; reflexivity.
Qed.

Lemma emitted_app (n : string) (cands : list Candidate) (c : Candidate) :
  emitted n (cands ++ [c])
  = (emitted n cands + if String.eqb (heuristic c) n then 1 else 0)%nat.
Proof.
  unfold emitted. rewrite List.filter_app, length_app. cbn.
  destruct (String.eqb (heuristic c) n); reflexivity.
Qed.

Lemma scan_rows_counts_track (catalog : list Heuristic) (limit : Z)
  (rows : list Row) (st : ScanState) :
  counts_track limit st -> counts_track limit (scan_rows catalog limit rows st).1.
Proof.
  unfold scan_rows. apply for_each_invariant. intros row s0 _ Hs0.
  unfold bindM, lift.
  destruct (parse_json_field (row_text row "rule")) as [rule|e]; [|exact Hs0].
  apply for_each_invariant; [|exact Hs0]. clear s0 Hs0. intros heur s0 _ Hs0.
  destruct (scan_heuristic_step limit row rule heur s0)
    as [[Hc Hn]|(c & Hbuild & Hc & Hn & Hroom)]; intros n.
  - unfold count_of. rewrite Hc, Hn. apply Hs0.
  - apply build_candidate_fields in Hbuild as (Hname & _).
    destruct (Hs0 n) as [Hcount Hle]. destruct (Hs0 (name heur)) as [Hcount' _].
    unfold count_of in *. rewrite Hc, Hn, emitted_app, Hname.
    destruct (String.eqb_spec (name heur) n) as [<-|Hne].
    + rewrite lookup_insert_eq. cbn [default from_option id]. split; lia.
    + rewrite lookup_insert_ne by assumption. split; [lia|exact Hle].
Qed.

(** X17. The per-rule cap.  After a scan, for every rule name the count
    kept for it is the number of candidates emitted under that name, and
    with a positive cap that number never exceeds the cap: [scan_logs]
    returns at most [limit_per_heuristic] candidates for each rule. *)
Theorem scan_emits_at_most_the_cap
  (catalog : list Heuristic) (limit : Z) (rows : list Row) (n : string) :
  let st := (scan_rows catalog limit rows scan_start).1 in
  count_of st n = Z.of_nat (emitted n (candidates st))
  /\ (0 < limit -> Z.of_nat (emitted n (candidates st)) <= limit)
  /\ (forall cands,
        scan_logs rows limit = Ok cands ->
        0 < limit ->
        Z.of_nat (emitted n cands) <= limit).
Proof.
  assert (Hstart : counts_track limit scan_start).
  { intros m. unfold count_of, scan_start, emitted; cbn. rewrite lookup_empty. cbn. lia. }
  intros st. split; [|split].
  - apply (scan_rows_counts_track catalog limit rows scan_start Hstart).
  - intros Hpos.
    destruct (scan_rows_counts_track catalog limit rows scan_start Hstart n)
      as [Heq Hle].
    subst st. rewrite <- Heq. exact (Hle Hpos).
  - intros cands Hscan Hpos. unfold scan_logs in Hscan.
    pose proof (scan_rows_counts_track HEURISTICS limit rows scan_start Hstart n)
      as [Heq Hle].
    destruct (scan_rows HEURISTICS limit rows scan_start) as [st' [u|e]];
      [|discriminate].
    injection Hscan as <-. cbn [fst] in Heq, Hle. rewrite <- Heq. exact (Hle Hpos).
Qed.

Lemma take_str_length (n : nat) (s : string) : (String.length (take_str n s) <= n)%nat.
Proof.
  revert s. induction n as [|n IH]; intros s; [cbn; lia|].
  destruct s as [|c s]; cbn; [lia|]. specialize (IH s). lia.
Qed.

Lemma scan_rows_traced (catalog : list Heuristic) (limit : Z) (rows : list Row) :
  traced catalog rows (scan_rows catalog limit rows scan_start).1.
Proof.
  unfold scan_rows.
  apply (for_each_invariant (traced catalog rows)); [|intros c []].
  intros row s0 Hrow Hs0. unfold bindM, lift.
  destruct (parse_json_field (row_text row "rule")) as [rule|e]; [|exact Hs0].
  apply (for_each_invariant (traced catalog rows)); [|exact Hs0].
  clear s0 Hs0. intros heur s0 Hheur Hs0.
  destruct (scan_heuristic_step limit row rule heur s0)
    as [[Hc Hn]|(c & Hbuild & Hc & _)]; intros c' Hin; rewrite Hc in Hin.
  - apply Hs0, Hin.
  - apply in_app_iff in Hin as [Hin|[<-|[]]]; [apply Hs0, Hin|].
    exists heur, row. split; [exact Hheur|]. split; [exact Hrow|].
    exact (build_candidate_fields _ _ _ _ Hbuild).
Qed.

(** X18. Every candidate that [scan_logs] returns is traced to a rule of
    the catalog and a row of the dataset: it carries the name, the severity
    label (["info"] when the rule has none), the detection goal and the
    example of that rule, the id and the timestamp of that row, and the
    first 200 characters of its log text. *)
Theorem candidates_come_from_catalog_and_rows
  (rows : list Row) (limit : Z) (cands : list Candidate) (c : Candidate) :
  scan_logs rows limit = Ok cands ->
  In c cands ->
  exists heur row,
    In heur HEURISTICS /\ In row rows
    /\ heuristic c = name heur
    /\ cand_severity c = default "info" (severity heur)
    /\ cand_detection_goal c = detection_goal heur
    /\ cand_example_completion c = example_completion heur
    /\ dataset_id c = row !! "id"
    /\ timestamp c = row !! "timestamp"
    /\ log_excerpt c = take_str 200 (row_text row "full_log")
    /\ (String.length (log_excerpt c) <= 200)%nat.
Proof.
  intros Hscan Hin. unfold scan_logs in Hscan.
  pose proof (scan_rows_traced HEURISTICS limit rows) as Htr.
  destruct (scan_rows HEURISTICS limit rows scan_start) as [st [u|e]]; [|discriminate].
  injection Hscan as <-.
  destruct (Htr c Hin) as (heur & row & H1 & H2 & H3 & H4 & H5 & H6 & H7 & H8 & H9).
  exists heur, row. repeat (split; [assumption|]).
  rewrite H9. apply take_str_length.
Qed.

(** What the login matcher does on a record whose agent has a string
    identity and an address: it answers whether the history held another
    address for the identity, and records the address. *)
Lemma login_geo_matcher_run (row : Row) (rule : value) (log_text : string)
  (ctx : CorrelationContext) (d : list (string * value)) (ident : string) (ip : value) :
  parse_json_field (row_text row "agent") = Ok (VDict d) ->
  py_or (default VNone (dict_lookup d "id")) (default VNone (dict_lookup d "name"))
  = VStr ident ->
  ident <> "" ->
  default VNone (dict_lookup d "ip") = ip ->
  truthy ip = true ->
  let history := default [] (ctx !! "login_history") in
  let previous := default VNone (vdict_lookup history (VStr ident)) in
  login_geo_matcher row rule log_text ctx
  = (<["login_history" := vdict_set history (VStr ident) ip]> ctx,
     Ok (truthy previous && negb (py_eq previous ip))).
Proof.
  intros Hparse Hid Hne Hip Htruthy history previous. subst history previous.
  unfold login_geo_matcher, bindM, lift, ret, raise, setdefault, history_set.
  rewrite Hparse. cbn [get_method]. rewrite Hid, Hip, Htruthy.
  assert (Hident : truthy (VStr ident) = true).
  { cbn. destruct (String.eqb_spec ident ""); [contradiction|reflexivity]. }
  rewrite Hident. cbn [negb orb hashable].
  destruct (ctx !! "login_history") as [h|] eqn:Hh; cbn [default from_option id].
  - destruct (truthy _ && negb _); rewrite Hh; reflexivity.
  - destruct (truthy _ && negb _); rewrite lookup_insert_eq, insert_insert_eq;
      reflexivity.
Qed.

(** X19. The login matcher flags a changed address and nothing else.  For
    two records of the same agent identity, one after the other, the second
    matches exactly when its address differs from the first one's; a first
    sighting of an identity never matches; and after each record the history
    holds the latest address of the identity. *)
Theorem login_matcher_flags_a_changed_address
  (row1 row2 : Row) (rule1 rule2 : value) (log1 log2 : string)
  (ctx : CorrelationContext) (d1 d2 : list (string * value)) (ident ip1 ip2 : string) :
  parse_json_field (row_text row1 "agent") = Ok (VDict d1) ->
  parse_json_field (row_text row2 "agent") = Ok (VDict d2) ->
  py_or (default VNone (dict_lookup d1 "id")) (default VNone (dict_lookup d1 "name"))
  = VStr ident ->
  py_or (default VNone (dict_lookup d2 "id")) (default VNone (dict_lookup d2 "name"))
  = VStr ident ->
  default VNone (dict_lookup d1 "ip") = VStr ip1 ->
  default VNone (dict_lookup d2 "ip") = VStr ip2 ->
  ident <> "" -> ip1 <> "" -> ip2 <> "" ->
  let first := login_geo_matcher row1 rule1 log1 ctx in
  let second := login_geo_matcher row2 rule2 log2 first.1 in
  second.2 = Ok (negb (String.eqb ip1 ip2))
  /\ (vdict_lookup (default [] (ctx !! "login_history")) (VStr ident) = None ->
      first.2 = Ok false)
  /\ exists h,
       second.1 !! "login_history" = Some h
       /\ vdict_lookup h (VStr ident) = Some (VStr ip2).
Proof.
  intros Hp1 Hp2 Hid1 Hid2 Hip1 Hip2 Hident Hne1 Hne2 first second.
  assert (Ht1 : truthy (VStr ip1) = true).
  { cbn. destruct (String.eqb_spec ip1 ""); [contradiction|reflexivity]. }
  assert (Ht2 : truthy (VStr ip2) = true).
  { cbn. destruct (String.eqb_spec ip2 ""); [contradiction|reflexivity]. }
  pose proof (login_geo_matcher_run row1 rule1 log1 ctx d1 ident (VStr ip1)
                Hp1 Hid1 Hident Hip1 Ht1) as Hfirst.
  cbn zeta in Hfirst. subst second first. rewrite Hfirst. cbn [fst snd].
  rewrite (login_geo_matcher_run row2 rule2 log2 _ d2 ident (VStr ip2)
             Hp2 Hid2 Hident Hip2 Ht2).
  cbn [fst snd]. rewrite !lookup_insert_eq. cbn [default from_option id].
  rewrite vdict_lookup_set. cbn [default from_option id]. rewrite Ht1.
  split; [|split].
  - reflexivity.
  - intros ->. reflexivity.
  - eexists. split; [reflexivity|]. apply vdict_lookup_set.
Qed.

(** X20. What leaves the correlation context alone.  A rule without a
    matcher, or with a matcher other than the login matcher, never changes
    the context; the login matcher answers no match and changes nothing,
    not even creating the history, for an agent without an identity or
    without an address; and it raises [AttributeError], changing nothing,
    when the agent column is JSON but not an object. *)
Theorem only_a_login_record_changes_the_context
  (row : Row) (rule : value) (heur : Heuristic) (log_text : string)
  (ctx : CorrelationContext) :
  (matcher heur <> Some "login_geo_matcher" ->
   (match_heuristic row rule heur ctx).1 = ctx)
  /\ (forall d,
        parse_json_field (row_text row "agent") = Ok (VDict d) ->
        truthy (py_or (default VNone (dict_lookup d "id"))
                      (default VNone (dict_lookup d "name"))) = false
        \/ truthy (default VNone (dict_lookup d "ip")) = false ->
        login_geo_matcher row rule log_text ctx = (ctx, Ok false))
  /\ (forall v,
        parse_json_field (row_text row "agent") = Ok v ->
        (forall d, v <> VDict d) ->
        login_geo_matcher row rule log_text ctx = (ctx, Raise AttributeError)).
Proof.
  split; [|split].
  - intros Hm. unfold match_heuristic, bindM, lift, ret.
    destruct (rule_description rule) as [description|e]; [|reflexivity].
    destruct (matcher heur) as [name|]; [|reflexivity].
    destruct (String.eqb name "") eqn:Hempty; cbn [negb]; [reflexivity|].
    destruct (String.eqb_spec name "login_geo_matcher") as [->|_];
      [contradiction|reflexivity].
  - intros d Hparse Hmissing.
    unfold login_geo_matcher, bindM, lift, ret. rewrite Hparse. cbn [get_method].
    destruct Hmissing as [-> | ->]; [reflexivity|].
    rewrite orb_true_r. reflexivity.
  - intros v Hparse Hv.
    unfold login_geo_matcher, bindM, lift, ret. rewrite Hparse.
    destruct v; try reflexivity. exfalso. exact (Hv d eq_refl).
Qed.

End SuggesterMore.

Section ResponseMore.
Import ResponseAgent.
Context {B : Builtins}.

Lemma lowered_lookup (action_map : list (string * list string))
  (acc : gmap string (list string)) (key : string) :
  fold_left (fun acc kv => <[lower (fst kv) := snd kv]> acc) action_map acc !! key
  = match last_binding action_map key with
    | Some vs => Some vs
    | None => acc !! key
    end.
Proof.
  revert acc. induction action_map as [|[k vs] rest IH]; intros acc; [reflexivity|].
  cbn [fold_left last_binding fst snd]. rewrite IH.
  destruct (last_binding rest key) as [later|]; [reflexivity|].
  destruct (String.eqb_spec (lower k) key) as [->|Hne].
  - apply lookup_insert_eq.
  - apply lookup_insert_ne. exact Hne.
Qed.

Lemma select_actions_init (limit : Z) (action_map : list (string * list string))
  (label : string) :
  _select_actions (init limit action_map) label
  = match last_binding action_map (lower label) with
    | Some vs => vs
    | None => default [] (last_binding action_map "default")
    end.
Proof.
  unfold _select_actions, init, lowered_actions. cbn [response_actions].
  pose proof (lowered_lookup action_map ∅ "default") as Hdefault.
  pose proof (lowered_lookup action_map ∅ (lower label)) as Hkey.
  rewrite lookup_empty in Hdefault, Hkey.
  set (lowered := fold_left _ action_map ∅) in *.
  destruct (last_binding action_map "default") as [fallback|] eqn:Hfb.
  - rewrite Hdefault. cbv beta iota. rewrite Hdefault, Hkey.
    destruct (last_binding action_map (lower label)); reflexivity.
  - rewrite Hdefault. cbv beta iota. rewrite lookup_insert_eq.
    cbn [default from_option id].
    destruct (String.eqb_spec "default" (lower label)) as [<-|Hne].
    + rewrite lookup_insert_eq, Hfb. reflexivity.
    + rewrite lookup_insert_ne by exact Hne. rewrite Hkey.
      destruct (last_binding action_map (lower label)); reflexivity.
Qed.

(** X21. The choice of response actions.  An agent built from an action
    map answers, for a severity label, with the actions that the map binds
    last to a key whose lower-casing is the label's; with no such key it
    answers with the actions bound last to a key whose lower-casing is
    ["default"], and with the empty list when the map has no such key
    either.  Two labels with the same lower-casing get the same actions. *)
Theorem select_actions_ignores_case_and_falls_back
  (limit : Z) (action_map : list (string * list string)) (label other : string) :
  let self := init limit action_map in
  _select_actions self label
  = match last_binding action_map (lower label) with
    | Some vs => vs
    | None => default [] (last_binding action_map "default")
    end
  /\ (lower other = lower label ->
      _select_actions self other = _select_actions self label).
Proof.
  cbn zeta. rewrite !select_actions_init. split; [reflexivity|].
  intros ->. reflexivity.
Qed.

Lemma for_each_simulation {S1 S2 A} (R : S1 -> S2 -> Prop) (xs : list A)
  (body1 : A -> M S1 unit) (body2 : A -> M S2 unit) (s1 : S1) (s2 : S2) :
  (forall x t1 t2,
      R t1 t2 -> (body1 x t1).2 = Ok tt ->
      R (body1 x t1).1 (body2 x t2).1 /\ (body2 x t2).2 = Ok tt) ->
  R s1 s2 ->
  (AnnotationSuggester.for_each xs body1 s1).2 = Ok tt ->
  R (AnnotationSuggester.for_each xs body1 s1).1
    (AnnotationSuggester.for_each xs body2 s2).1
  /\ (AnnotationSuggester.for_each xs body2 s2).2 = Ok tt.
Proof.
  intros Hbody. revert s1 s2. induction xs as [|x xs IH]; intros s1 s2 HR Hok.
  - split; [exact HR|reflexivity].
  - cbn [AnnotationSuggester.for_each] in *. unfold bindM in *.
    specialize (Hbody x s1 s2 HR).
    destruct (body1 x s1) as [t1 [[]|e]]; [|discriminate Hok].
    destruct (Hbody eq_refl) as [HR' Hok2]. cbn [fst snd] in HR', Hok2.
    destruct (body2 x s2) as [t2 r2]. cbn [fst snd] in HR', Hok2. subst r2.
    apply IH; assumption.
Qed.

Lemma match_heuristic_needs_a_description (row : AnnotationSuggester.Row)
  (rule : value) (heur : AnnotationSuggester.Heuristic)
  (ctx : AnnotationSuggester.CorrelationContext) (b : bool) :
  (AnnotationSuggester.match_heuristic row rule heur ctx).2 = Ok b ->
  exists description, AnnotationSuggester.rule_description rule = Ok description.
Proof.
  unfold AnnotationSuggester.match_heuristic, bindM, lift.
  destruct (AnnotationSuggester.rule_description rule) as [description|e];
    [eauto|discriminate].
Qed.

Lemma plan_heuristic_in_step (self : Agent) (row : AnnotationSuggester.Row)
  (rule : value) (heur : AnnotationSuggester.Heuristic)
  (ps : PlanState) (ss : AnnotationSuggester.ScanState) :
  in_step ps ss ->
  (plan_heuristic self row rule heur ps).2 = Ok tt ->
  in_step (plan_heuristic self row rule heur ps).1
          (AnnotationSuggester.scan_heuristic (limit_per_heuristic self)
             row rule heur ss).1
  /\ (AnnotationSuggester.scan_heuristic (limit_per_heuristic self)
        row rule heur ss).2 = Ok tt.
Proof.
  intros (Hcounts & Hctx & Hplans).
  unfold plan_heuristic, AnnotationSuggester.scan_heuristic, bindM, get_state, ret,
    on_context, AnnotationSuggester.on_context, lift, emit, AnnotationSuggester.emit,
    count_of, AnnotationSuggester.count_of.
  rewrite <- Hcounts.
  destruct ((0 <? limit_per_heuristic self)
            && (limit_per_heuristic self
                <=? default 0 (counts ps !! AnnotationSuggester.name heur)));
    [intros _; split; [split; [|split]; assumption|reflexivity]|].
  cbv beta. rewrite <- Hctx.
  destruct (AnnotationSuggester.match_heuristic row rule heur (context ps))
    as [ctx [[|]|e]] eqn:Hmatch; cbn [negb fst snd].
  - pose proof (match_heuristic_needs_a_description row rule heur (context ps) true)
      as Hdesc.
    rewrite Hmatch in Hdesc. destruct (Hdesc eq_refl) as [description Hd].
    unfold AnnotationSuggester.build_candidate. rewrite Hd.
    cbn [mbind result_bind bind].
    destruct (_build_plan self row rule heur) as [p|e] eqn:Hplan;
      cbn [fst snd]; [|discriminate].
    intros _. split; [|reflexivity]. split; [|split]; cbn; try reflexivity.
    + rewrite Hcounts. reflexivity.
    + apply Forall2_app; [exact Hplans|]. constructor; [|constructor].
      unfold _build_plan in Hplan.
      destruct (_parse_agent _) as [agent_info|]; [|discriminate Hplan].
      cbn [mbind result_bind bind] in Hplan.
      repeat match type of Hplan with
             | context [get_method ?o ?k ?d] =>
                 destruct (get_method o k d); cbn [bind] in Hplan;
                 [|discriminate Hplan]
             end.
      injection Hplan as <-. repeat split.
  - intros _. split; [|reflexivity]. split; [|split]; cbn; try reflexivity; assumption.
  - discriminate.
Qed.

(** X22. The response agent and the annotation scan find the same
    detections.  Whenever [generate_actions] returns its plans, [scan_logs]
    run on the same rows with the agent's cap returns as many candidates, and
    the two lists agree entry by entry on the rule name, the id and the
    timestamp of the row, and the detection goal. *)
Theorem response_plans_mirror_scan_candidates
  (self : Agent) (rows : list AnnotationSuggester.Row) (found : list ResponsePlan) :
  generate_actions self rows = Ok found ->
  exists cands,
    AnnotationSuggester.scan_logs rows (limit_per_heuristic self) = Ok cands
    /\ Forall2 same_detection found cands
    /\ length found = length cands.
Proof.
  unfold generate_actions, AnnotationSuggester.scan_logs, generate_rows,
    AnnotationSuggester.scan_rows.
  intros Hgen.
  assert (Hstart : in_step plan_start AnnotationSuggester.scan_start).
  { split; [reflexivity|]. split; [reflexivity|]. constructor. }
  pose proof (for_each_simulation in_step rows
    (fun row =>
       (rule <- lift (AnnotationSuggester.parse_json_field
                        (AnnotationSuggester.row_text row "rule")) ;;
        AnnotationSuggester.for_each AnnotationSuggester.HEURISTICS
          (plan_heuristic self row rule))%M)
    (fun row =>
       (rule <- lift (AnnotationSuggester.parse_json_field
                        (AnnotationSuggester.row_text row "rule")) ;;
        AnnotationSuggester.for_each AnnotationSuggester.HEURISTICS
          (AnnotationSuggester.scan_heuristic (limit_per_heuristic self) row rule))%M)
    plan_start AnnotationSuggester.scan_start) as Hsim.
  cbv beta in Hsim.
  destruct (AnnotationSuggester.for_each rows _ plan_start) as [ps [[]|e]];
    [|discriminate Hgen].
  injection Hgen as <-.
  destruct Hsim as [(_ & _ & Hall) Hok]; [|exact Hstart|reflexivity|].
  - intros row t1 t2 HR. unfold bindM, lift.
    destruct (AnnotationSuggester.parse_json_field _) as [rule|e];
      [|discriminate].
    apply for_each_simulation; [|exact HR].
    intros heur. apply plan_heuristic_in_step.
  - destruct (AnnotationSuggester.for_each rows _ AnnotationSuggester.scan_start)
      as [ss r]. cbn [fst snd] in Hall, Hok. subst r.
    exists (AnnotationSuggester.candidates ss). split; [reflexivity|].
    split; [exact Hall|]. exact (Forall2_length _ _ _ Hall).
Qed.

(** X23. The host of a plan when the agent column is not a JSON object.
    When the agent text parses to nothing (it is empty, is not JSON, or is
    an empty JSON value) and the rule is an object, [_build_plan] succeeds
    and names as host the agent column itself, as the row has it, with no
    address; the actions are those selected for the rule's severity, for
    ["default"] when the rule has none, and the excerpt holds at most 400
    characters. *)
Theorem plan_host_falls_back_to_agent_text
  (self : Agent) (row : AnnotationSuggester.Row) (rule_fields : list (string * value))
  (heur : AnnotationSuggester.Heuristic) (parsed : value) :
  AnnotationSuggester.parse_json_field (AnnotationSuggester.row_text row "agent")
  = Ok parsed ->
  truthy parsed = false ->
  exists p,
    _build_plan self row (VDict rule_fields) heur = Ok p
    /\ host p = match row !! "agent" with Some text => VStr text | None => VNone end
    /\ ip p = VNone
    /\ actions p
       = _select_actions self (default "default" (AnnotationSuggester.severity heur))
    /\ (String.length (log_excerpt p) <= 400)%nat.
Proof.
  intros Hparse Hfalsy. unfold _build_plan, _parse_agent.
  rewrite Hparse. cbn [mbind result_bind bind]. rewrite Hfalsy.
  cbn [get_method mbind result_bind bind dict_lookup].
  eexists. split; [reflexivity|]. cbn [host ip actions log_excerpt].
  split; [|split; [reflexivity|split; [reflexivity|apply take_str_length]]].
  unfold AnnotationSuggester.row_text.
  destruct (row !! "agent") as [text|]; [|reflexivity].
  unfold py_or. cbn. destruct (String.eqb text "") eqn:Hempty; cbn;
    rewrite ?Hempty; reflexivity.
Qed.

End ResponseMore.

(** ** The further properties on concrete inputs *)

Section MoreExamples.
Import Demo.

(** X1 on an empty cache of capacity 2. *)
Lemma cache_set_then_get_witness :
  (Cache.get "a" (Cache.set "a" (VInt 1) (Cache.init 2))).1 = Some (VInt 1)
  /\ (Cache.get "b" (Cache.set "a" (VInt 1) (Cache.init 2))).1 = None.
Proof.
  assert (Hne : "b" <> "a") by discriminate.
  destruct (cache_set_then_get "a" "b" (VInt 1) (Cache.init 2)
              (Cache.reach_init 2) eq_refl Hne) as [Hread Hother].
  split; [exact Hread|].
  destruct Hother as [Hsame|[Hgone _]]; [exact Hsame|exact Hgone].
Defined.

(** X2 on a cache of capacity 0. *)
Lemma cache_without_capacity_witness :
  (Cache.get "a" (Cache.set_all [("a", VInt 1)] (Cache.init 0))).1 = None
  /\ Cache.count (Cache.set_all [("a", VInt 1)] (Cache.init 0)) = 0.
Proof.
  assert (Hle : 0 <= 0) by lia.
  destruct (cache_without_capacity_stores_nothing 0 [("a", VInt 1)] "a" Hle)
    as (Hmiss & Hcount & _).
  split; [exact Hmiss|exact Hcount].
Defined.

(** X4 on a path without a dot and on a path into an integer. *)
Lemma get_path_witness :
  Utils.get_path (VDict [("a", VInt 1)]) "a" = dict_get [("a", VInt 1)] "a"
  /\ Utils.get_path (VInt 3) "a" = VNone.
Proof.
  split.
  - destruct (get_path_follows_the_dots VNone "a" "") as (_ & Hplain & _).
    apply Hplain. reflexivity.
  - destruct (get_path_follows_the_dots (VInt 3) "a" "") as (_ & _ & Hother).
    apply Hother. intros d. discriminate.
Defined.

(** X5 on an agent object between two words. *)
Lemma extract_json_object_witness :
  Utils.extract_json
    (String.append "agent " (String.append (agent_json "a" "1.1.1.1") " seen"))
  = Ok (Some (agent_obj "a" "1.1.1.1")).
Proof.
  exact (extract_json_drops_surrounding_text "agent "
           (String.concat ""
              (let dq := AnnotationSuggester.dq in
               [dq; "id"; dq; ": "; dq; "a"; dq; ", "; dq; "ip"; dq; ": "; dq;
                "1.1.1.1"; dq]))
           " seen" eq_refl eq_refl).
Defined.

(** X6 on a text without braces. *)
Lemma extract_json_plain_text_witness :
  Utils.extract_json "no object here" = Ok None.
Proof.
  destruct (extract_json_needs_an_object "no object here" "" eq_refl eq_refl)
    as [Hnone _].
  exact Hnone.
Defined.

(** X7 on the ransomware alert. *)
Lemma rule_score_within_bounds_witness :
  ScorerRule.score ransomware_alert
  = Ok (VDict [("severity", VInt 85); ("confidence", VFloat 0.85%float);
               ("hypothesis", VStr "Likely malware activity.");
               ("evidence", VList [VStr "keyword:malware"])]).
Proof.
  assert (Hrules : ScorerRule._score_rules ransomware_alert
                   = Ok (VInt 85, 0.85%float, "Likely malware activity.",
                         ["keyword:malware"]))
    by (vm_compute; reflexivity).
  destruct (rule_score_within_bounds ransomware_alert (VInt 85) 0.85%float
              "Likely malware activity." ["keyword:malware"] Hrules)
    as (_ & _ & _ & _ & Hscore).
  exact Hscore.
Defined.

(** X8 on the action that blocks an address. *)
Lemma action_metadata_witness :
  PlannerRule.reversible (PlannerRule._action "UnblockIp" "undo" []) = false
  /\ PlannerRule.registered_inverse "UnblockIp" = None.
Proof.
  destruct (action_metadata_matches_rollback_table "BlockIp" "undo" [] [])
    as (_ & _ & _ & Hinverse & _).
  apply Hinverse. reflexivity.
Defined.

(** X9 on the plan for the scenario alert. *)
Lemma containment_witness :
  exists d sev,
    demo_assessment = VDict d
    /\ py_int (py_or (dict_get d "severity") (VInt 0)) = Ok sev
    /\ 50 <= sev.
Proof.
  destruct (containment_needs_a_confident_assessment demo_ambient demo_alert
              demo_assessment demo_plan eq_refl)
    as (d & sev & conf & crit & Hd & Hsev & _ & _ & _ & _ & Hroll).
  exists d, sev. split; [exact Hd|]. split; [exact Hsev|].
  assert (Hsome : PlannerRule.rollbackActions demo_plan <> []) by discriminate.
  destruct (Hroll Hsome) as (_ & _ & Hfifty & _). exact Hfifty.
Defined.

(** X10 from severity 50 on an asset of criticality 1 to severity 80 on one
    of criticality 3. *)
Lemma priority_is_monotone_witness :
  exists prio', PlannerRule._compute_priority 80 0.5%float 3 = Ok prio' /\ 70 <= prio'.
Proof.
  assert (Hsev : 50 <= 80) by lia.
  assert (Hcrit : 1 <= 3) by lia.
  destruct (priority_is_monotone 50 80 0.5%float 1 3 70 eq_refl Hsev Hcrit)
    as (prio' & Hprio & Hle & _).
  exists prio'. split; [exact Hprio|exact Hle].
Defined.

(** X11 on the ransomware alert. *)
Lemma rule_score_yields_a_plan_witness :
  exists assessment p,
    ScorerRule.score ransomware_alert = Ok assessment
    /\ PlannerRule._plan_from_rules demo_ambient ransomware_alert assessment = Ok p
    /\ In (PlannerRule.strategy p) PlannerRule.strategies
    /\ 0 <= PlannerRule.priority p <= 100.
Proof.
  exact (rule_score_always_yields_a_plan demo_ambient ransomware_alert
           eq_refl eq_refl eq_refl).
Defined.

(** X12 on a hybrid scorer whose local model has no answer: the Ollama
    model is asked next and answers. *)
Lemma hybrid_scorer_witness :
  ScorerHybrid.score deferring_hybrid demo_alert []
  = (["local.score"; "ollama.score"], Ok (Some cached_plan)).
Proof.
  destruct (hybrid_scorer_stops_at_first_usable_answer deferring_hybrid demo_alert [])
    as (_ & _ & Hsecond & _).
  destruct (Hsecond ["local.score"]) as (_ & Hanswer & _).
  - right. exists (logging_scorer "local.score" None), None.
    split; [reflexivity|]. split; reflexivity.
  - apply (Hanswer (logging_scorer "ollama.score" (Some cached_plan)));
      reflexivity.
Defined.

(** X13 on a service with an empty cache. *)
Lemma score_request_is_memoized_witness :
  (App.score [] (App.score [] cold_state).1).2 = Ok cached_plan
  /\ App.world (App.score [] (App.score [] cold_state).1).1 = ["scorer.score"].
Proof.
  destruct (score_request_is_memoized [] cold_state cached_plan
              (Cache.reach_init 4) eq_refl eq_refl eq_refl)
    as (Hanswer & Hworld & _).
  split; [exact Hanswer|]. rewrite Hworld. reflexivity.
Defined.

(** X14 on a batch of the same alert twice. *)
Lemma score_batch_witness :
  (App.score_batch [("alerts", VList [demo_alert; demo_alert])] cold_state).2
  = Ok (VDict [("results", VList [cached_plan; cached_plan])]).
Proof.
  assert (Hobjects : forall a, In a [demo_alert; demo_alert] -> py_or a (VDict []) = a).
  { intros a [<-|[<-|[]]]; reflexivity. }
  rewrite (score_batch_is_score_repeated [demo_alert; demo_alert] cold_state Hobjects).
  reflexivity.
Defined.

(** X15 on the scenario alert and assessment. *)
Lemma plan_request_witness :
  exists p,
    (App.plan [("alert", demo_alert); ("assessment", demo_assessment)] cold_state).2
    = Ok (VDict [("plan", p)])
    /\ App.plan_requests
         (App.plan [("alert", demo_alert); ("assessment", demo_assessment)]
            cold_state).1 = 1.
Proof.
  exact (plan_request_always_answers
           [("alert", demo_alert); ("assessment", demo_assessment)] cold_state
           demo_locals 18 eq_refl eq_refl).
Defined.

(** X16 on a failed login. *)
Lemma keyword_rule_witness :
  AnnotationSuggester.match_heuristic failed_login_row (VDict []) keyword_rule ∅
  = (∅, Ok true).
Proof.
  destruct (keyword_rule_matches_a_qualifying_field failed_login_row (VDict []) ""
              keyword_rule ∅ eq_refl eq_refl) as (b & Hrun & Hiff).
  rewrite Hrun. f_equal. f_equal. apply Hiff.
  exists "full_log". split; [right; left; reflexivity|].
  split; [|split].
  - exists "failed". split; [left; reflexivity|reflexivity].
  - intros kw [<-|[]]. unfold AnnotationSuggester.occurs. discriminate.
  - intros kw [<-|[]]. reflexivity.
Defined.

(** X17 on three logins under a cap of 1. *)
Lemma scan_cap_witness :
  Z.of_nat
    (AnnotationSuggester.emitted "login_geo_anomaly"
       (AnnotationSuggester.candidates
          (AnnotationSuggester.scan_rows AnnotationSuggester.HEURISTICS 1 three_logins
             AnnotationSuggester.scan_start).1)) <= 1.
Proof.
  destruct (scan_emits_at_most_the_cap AnnotationSuggester.HEURISTICS 1 three_logins
              "login_geo_anomaly") as (_ & Hcap & _).
  apply Hcap. lia.
Defined.

(** X18 on the first candidate of three logins. *)
Lemma candidate_provenance_witness :
  exists heur row,
    In heur AnnotationSuggester.HEURISTICS /\ In row three_logins
    /\ AnnotationSuggester.name heur = "login_geo_anomaly"
    /\ AnnotationSuggester.severity heur = Some "critical".
Proof.
  assert (Hscan : AnnotationSuggester.scan_logs three_logins 0 = Ok login_candidates)
    by (vm_compute; reflexivity).
  assert (Hin : In login_candidate login_candidates) by (left; reflexivity).
  destruct (candidates_come_from_catalog_and_rows three_logins 0 login_candidates
              login_candidate Hscan Hin)
    as (heur & row & Hheur & Hrow & Hname & Hsev & _).
  exists heur, row. split; [exact Hheur|]. split; [exact Hrow|].
  split; [symmetry; exact Hname|].
  destruct (AnnotationSuggester.severity heur) as [label|]; [|discriminate Hsev].
  cbn in Hsev. rewrite <- Hsev. reflexivity.
Defined.

(** X19 on two logins of the agent a from two addresses. *)
Lemma login_matcher_witness :
  (AnnotationSuggester.login_geo_matcher (login_row "2.2.2.2") VNone ""
     (AnnotationSuggester.login_geo_matcher (login_row "1.1.1.1") VNone "" ∅).1).2
  = Ok true.
Proof.
  assert (Hident : "a" <> "") by discriminate.
  assert (Hip1 : "1.1.1.1" <> "") by discriminate.
  assert (Hip2 : "2.2.2.2" <> "") by discriminate.
  assert (Hfirst : AnnotationSuggester.parse_json_field
                     (AnnotationSuggester.row_text (login_row "1.1.1.1") "agent")
                   = Ok (VDict [("id", VStr "a"); ("ip", VStr "1.1.1.1")]))
    by (vm_compute; reflexivity).
  assert (Hnext : AnnotationSuggester.parse_json_field
                    (AnnotationSuggester.row_text (login_row "2.2.2.2") "agent")
                  = Ok (VDict [("id", VStr "a"); ("ip", VStr "2.2.2.2")]))
    by (vm_compute; reflexivity).
  destruct (login_matcher_flags_a_changed_address
              (login_row "1.1.1.1") (login_row "2.2.2.2") VNone VNone "" "" ∅
              [("id", VStr "a"); ("ip", VStr "1.1.1.1")]
              [("id", VStr "a"); ("ip", VStr "2.2.2.2")]
              "a" "1.1.1.1" "2.2.2.2"
              Hfirst Hnext eq_refl eq_refl eq_refl eq_refl Hident Hip1 Hip2)
    as (Hsecond & _).
  exact Hsecond.
Defined.

(** X20 on a record whose agent column is a host name. *)
Lemma login_matcher_no_identity_witness :
  AnnotationSuggester.login_geo_matcher {[ "agent" := "web01" ]} VNone "" ∅
  = (∅, Ok false).
Proof.
  destruct (only_a_login_record_changes_the_context {[ "agent" := "web01" ]} VNone
              login_rule "" ∅) as (_ & Hmissing & _).
  apply (Hmissing []); [vm_compute; reflexivity|left; reflexivity].
Defined.

(** X21 on the label [CRITICAL], which selects what [critical] does. *)
Lemma select_actions_witness :
  ResponseAgent._select_actions demo_agent "CRITICAL"
  = ResponseAgent._select_actions demo_agent "critical".
Proof.
  destruct (select_actions_ignores_case_and_falls_back 1
              ResponseAgent.DEFAULT_RESPONSE_ACTIONS "critical" "CRITICAL")
    as (_ & Hcase).
  apply Hcase. reflexivity.
Defined.

(** X22 on three logins under a cap of 1. *)
Lemma response_plans_witness :
  exists cands,
    AnnotationSuggester.scan_logs three_logins 1 = Ok cands
    /\ Forall2 ResponseAgent.same_detection login_plans cands
    /\ length login_plans = length cands.
Proof.
  assert (Hgen : ResponseAgent.generate_actions demo_agent three_logins = Ok login_plans)
    by (vm_compute; reflexivity).
  exact (response_plans_mirror_scan_candidates demo_agent three_logins login_plans Hgen).
Defined.

(** X23 on a record whose agent column is a host name. *)
Lemma plan_host_witness :
  exists p,
    ResponseAgent._build_plan demo_agent {[ "agent" := "web01" ]} (VDict []) login_rule
    = Ok p
    /\ ResponseAgent.host p = VStr "web01"
    /\ ResponseAgent.ip p = VNone.
Proof.
  assert (Hparse : AnnotationSuggester.parse_json_field
                     (AnnotationSuggester.row_text {[ "agent" := "web01" ]} "agent")
                   = Ok (VDict []))
    by (vm_compute; reflexivity).
  destruct (plan_host_falls_back_to_agent_text demo_agent {[ "agent" := "web01" ]} []
              login_rule (VDict []) Hparse eq_refl)
    as (p & Hplan & Hhost & Hip & _).
  exists p. split; [exact Hplan|]. split; [exact Hhost|exact Hip].
Defined.

End MoreExamples.
